(** * Seedling: issue fetch / analysis / cache pipeline

    A shallow embedding of [src/github_utils.py], [src/hf.py] and
    [src/cache_utils.py], and the properties of the specification that
    can be settled on it.

    Conventions of the embedding
    - a Python [str] is a list of Unicode code points ([N]);
    - a decoded JSON document is a value of [json]; a Python [dict] with
      string keys is an insertion-ordered association list with distinct
      keys, updated through [Dict.set];
    - an exception is a value of [exn]; code that can raise returns an
      [outcome];
    - the network, the model service and the process environment are a
      [world] of oracles, and every outbound call is appended to a trace;
    - the file system is a finite map from paths to nodes; it is a
      POSIX one with a UTF-8 locale, on which a file name has at most 255
      bytes.
    Interpreter resource limits (recursion depth, the integer digit limit,
    memory) are outside the model. *)

From Stdlib Require Import ZArith NArith Lia List String Ascii.
From Stdlib Require Import DecimalString DecimalZ DecimalFacts.
From stdpp Require Import gmap list.
Import ListNotations.

Local Open Scope N_scope.
Local Open Scope list_scope.

(** ** Python strings *)

Abbreviation str := (list N).

(** An ASCII literal as a Python string. *)
Definition py (s : string) : str := map N_of_ascii (list_ascii_of_string s).

(** An ASCII literal in which the character [q] stands for the double
    quote. *)
Definition quoting (q : string) (s : string) : str :=
  map (fun c => if existsb (N.eqb c) (py q) then 34 else c) (py s).

(** JSON text written with single quotes for the double ones. *)
Definition pyq (s : string) : str := quoting "'" s.

Module PyStr.

(** [s.startswith(p)] *)
Fixpoint startswith (s p : str) {struct p} : bool :=
  match p, s with
  | [], _ => true
  | a :: p', b :: s' => (a =? b) && startswith s' p'
  | _ :: _, [] => false
  end.

Definition cons_head (c : N) (segs : list str) : list str :=
  match segs with
  | [] => [[c]]
  | seg :: more => (c :: seg) :: more
  end.

(** [s.replace(old, new)]: every non-overlapping occurrence, scanning
    from the left.  [skip] counts the characters of a matched
    occurrence that are still to be dropped. *)
Fixpoint replace_from (skip : nat) (s old new : str) : str :=
  match s with
  | [] => []
  | c :: s' =>
      match skip with
      | S k => replace_from k s' old new
      | O =>
          if startswith s old
          then new ++ replace_from (length old - 1) s' old new
          else c :: replace_from 0 s' old new
      end
  end.

Definition replace (s old new : str) : str :=
  match old with
  | [] => new ++ flat_map (fun c => c :: new) s
  | _ :: _ => replace_from 0 s old new
  end.

(** [s.split(sep)] for a non-empty separator (the only use in the
    sources; Python raises [ValueError] on an empty one). *)
Fixpoint split_from (skip : nat) (s sep : str) : list str :=
  match s with
  | [] => [[]]
  | c :: s' =>
      match skip with
      | S k => split_from k s' sep
      | O =>
          if startswith s sep
          then [] :: split_from (length sep - 1) s' sep
          else cons_head c (split_from 0 s' sep)
      end
  end.

Definition split (s sep : str) : list str := split_from 0 s sep.

(** The code points Python's [str.isspace] accepts, which are the ones
    [str.strip()] removes. *)
Definition isspace (c : N) : bool :=
  ((9 <=? c) && (c <=? 13)) || ((28 <=? c) && (c <=? 32))
  || (c =? 133) || (c =? 160) || (c =? 5760)
  || ((8192 <=? c) && (c <=? 8202))
  || (c =? 8232) || (c =? 8233) || (c =? 8239) || (c =? 8287)
  || (c =? 12288).

Fixpoint lstrip (s : str) : str :=
  match s with
  | [] => []
  | c :: s' => if isspace c then lstrip s' else s
  end.

Definition rstrip (s : str) : str := rev (lstrip (rev s)).

Definition strip (s : str) : str := rstrip (lstrip s).

(** [sep.join(parts)] *)
Fixpoint join (sep : str) (parts : list str) : str :=
  match parts with
  | [] => []
  | [p] => p
  | p :: more => p ++ sep ++ join sep more
  end.

(** [needle in s] for two strings: substring test. *)
Fixpoint contains (s needle : str) : bool :=
  startswith s needle
  || match s with
     | [] => false
     | _ :: s' => contains s' needle
     end.

(** [str(n)] for an [int]. *)
Definition of_Z (n : Z) : str := py (NilZero.string_of_int (Z.to_int n)).

Definition eqb (a b : str) : bool := bool_decide (a = b).

(** [s.endswith(suffix)] *)
Definition endswith (s suffix : str) : bool := startswith (rev s) (rev suffix).

End PyStr.

(** ** JSON documents, as Python's [json] module decodes and encodes them *)

#[warnings="-register-all"] Inductive json : Type :=
| JNull
| JBool (b : bool)
| JInt (z : Z)
| JFloat (lexeme : str)   (* a [float], carried as the literal it was read from *)
| JStr (s : str)
| JArr (items : list json)
| JObj (fields : list (str * json)).

Abbreviation dict := (list (str * json)).

Module Dict.

Fixpoint get (d : dict) (k : str) : option json :=
  match d with
  | [] => None
  | (k', v) :: d' => if PyStr.eqb k' k then Some v else get d' k
  end.

Definition mem (d : dict) (k : str) : bool :=
  match get d k with Some _ => true | None => false end.

(** [d[k] = v]: an existing key keeps its position. *)
Fixpoint set (d : dict) (k : str) (v : json) : dict :=
  match d with
  | [] => [(k, v)]
  | (k', v') :: d' =>
      if PyStr.eqb k' k then (k', v) :: d' else (k', v') :: set d' k v
  end.

(** [dict(pairs)] *)
Definition of_pairs (pairs : list (str * json)) : dict :=
  fold_left (fun d kv => set d (fst kv) (snd kv)) pairs [].

End Dict.

(** What the interpreter computes on floats and for the [repr] of
    containers is not modelled; it is a parameter of the embedding. *)
Record builtins : Type := {
  float_repr : str -> str;        (* [repr(float(lexeme))] *)
  float_nonzero : str -> bool;    (* [bool(float(lexeme))] *)
  container_repr : json -> str    (* [repr] of a list or a dict *)
}.

Module Json.

(** *** Decoding: [json.loads] *)

Definition is_ws (c : N) : bool :=
  (c =? 32) || (c =? 9) || (c =? 10) || (c =? 13).

Fixpoint skip_ws (s : str) : str :=
  match s with
  | [] => []
  | c :: s' => if is_ws c then skip_ws s' else s
  end.

Definition is_digit (c : N) : bool := (48 <=? c) && (c <=? 57).

Definition hexval (c : N) : option N :=
  if (48 <=? c) && (c <=? 57) then Some (c - 48)
  else if (97 <=? c) && (c <=? 102) then Some (c - 87)
  else if (65 <=? c) && (c <=? 70) then Some (c - 55)
  else None.

Definition hex4 (a b c d : N) : option N :=
  match hexval a, hexval b, hexval c, hexval d with
  | Some x, Some y, Some z, Some w => Some (((x * 16 + y) * 16 + z) * 16 + w)
  | _, _, _, _ => None
  end.

(** The one-character escapes. *)
Definition backslash (e : N) : option N :=
  if e =? 34 then Some 34
  else if e =? 92 then Some 92
  else if e =? 47 then Some 47
  else if e =? 98 then Some 8
  else if e =? 102 then Some 12
  else if e =? 110 then Some 10
  else if e =? 114 then Some 13
  else if e =? 116 then Some 9
  else None.

Definition is_high_surrogate (u : N) : bool := (55296 <=? u) && (u <=? 56319).
Definition is_low_surrogate (u : N) : bool := (56320 <=? u) && (u <=? 57343).
Definition join_surrogates (hi lo : N) : N :=
  65536 + (hi - 55296) * 1024 + (lo - 56320).

Definition push (c : N) (r : option (str * str)) : option (str * str) :=
  match r with
  | Some (x, rest) => Some (c :: x, rest)
  | None => None
  end.

(** The body of a string literal, after its opening quote (strict
    mode: raw control characters are rejected). *)
Fixpoint scanstring (s : str) : option (str * str) :=
  match s with
  | [] => None
  | c :: s1 =>
      if c =? 34 then Some ([], s1)
      else if c <? 32 then None
      else if c =? 92 then
        match s1 with
        | [] => None
        | e :: s2 =>
            if e =? 117 then
              match s2 with
              | h1 :: h2 :: h3 :: h4 :: s3 =>
                  match hex4 h1 h2 h3 h4 with
                  | None => None
                  | Some u =>
                      match s3 with
                      | b :: e' :: h5 :: h6 :: h7 :: h8 :: s5 =>
                          if is_high_surrogate u && (b =? 92) && (e' =? 117) then
                            match hex4 h5 h6 h7 h8 with
                            | None => None
                            | Some u2 =>
                                if is_low_surrogate u2
                                then push (join_surrogates u u2) (scanstring s5)
                                else push u (scanstring s3)
                            end
                          else push u (scanstring s3)
                      | _ => push u (scanstring s3)
                      end
                  end
              | _ => None
              end
            else
              match backslash e with
              | Some c' => push c' (scanstring s2)
              | None => None
              end
        end
      else push c (scanstring s1)
  end.

Fixpoint span_digits (s : str) : str * str :=
  match s with
  | [] => ([], [])
  | c :: s' =>
      if is_digit c
      then let '(ds, r) := span_digits s' in (c :: ds, r)
      else ([], s)
  end.

Definition digits_value (ds : str) : Z :=
  fold_left (fun acc c => (acc * 10 + Z.of_N (c - 48))%Z) ds 0%Z.

(** The integer part [0|[1-9][0-9]*]. *)
Definition match_int (s : str) : option (str * str) :=
  match s with
  | [] => None
  | c :: s' =>
      if c =? 48 then Some ([c], s')
      else if is_digit c then let '(ds, r) := span_digits s' in Some (c :: ds, r)
      else None
  end.

(** The optional fraction [\.[0-9]+]. *)
Definition match_frac (s : str) : str * str :=
  match s with
  | c :: s' =>
      if c =? 46 then
        match span_digits s' with
        | ([], _) => ([], s)
        | (ds, r) => (c :: ds, r)
        end
      else ([], s)
  | [] => ([], s)
  end.

(** The optional exponent [[eE][-+]?[0-9]+]. *)
Definition match_exp (s : str) : str * str :=
  match s with
  | c :: s' =>
      if (c =? 101) || (c =? 69) then
        match s' with
        | g :: s'' =>
            if (g =? 45) || (g =? 43) then
              match span_digits s'' with
              | ([], _) => ([], s)
              | (ds, r) => (c :: g :: ds, r)
              end
            else
              match span_digits s' with
              | ([], _) => ([], s)
              | (ds, r) => (c :: ds, r)
              end
        | [] => ([], s)
        end
      else ([], s)
  | [] => ([], s)
  end.

(** [NUMBER_RE.match]: an [int] when there is neither fraction nor
    exponent, a [float] otherwise. *)
Definition match_number (s : str) : option (json * str) :=
  let '(neg, s0) :=
    match s with
    | c :: s' => if c =? 45 then (true, s') else (false, s)
    | [] => (false, s)
    end in
  match match_int s0 with
  | None => None
  | Some (ip, r1) =>
      let '(fp, r2) := match_frac r1 in
      let '(ep, r3) := match_exp r2 in
      match fp, ep with
      | [], [] =>
          Some (JInt (if neg then - digits_value ip else digits_value ip)%Z, r3)
      | _, _ =>
          Some (JFloat ((if neg then [45] else []) ++ ip ++ fp ++ ep), r3)
      end
  end.

Definition literal (word : string) (v : json) (s : str) : option (json * str) :=
  if PyStr.startswith s (py word)
  then Some (v, skipn (String.length word) s)
  else None.

Definition first_of {A} (a b : option A) : option A :=
  match a with Some _ => a | None => b end.

(** Scalars other than strings, in the scanner's order. *)
Definition scan_atom (s : str) : option (json * str) :=
  first_of (literal "null" JNull s)
 (first_of (literal "true" (JBool true) s)
 (first_of (literal "false" (JBool false) s)
 (first_of (match_number s)
 (first_of (literal "NaN" (JFloat (py "NaN")) s)
 (first_of (literal "Infinity" (JFloat (py "Infinity")) s)
           (literal "-Infinity" (JFloat (py "-Infinity")) s)))))).

(** [scan_once], with [JSONArray] and [JSONObject] after their first
    element has been seen to exist.  [fuel] bounds the nesting and the
    number of elements; the length of the input is always enough
    ([loads_fuel_enough] below). *)
Fixpoint scan_once (fuel : nat) (s : str) {struct fuel} : option (json * str) :=
  match fuel with
  | O => None
  | S f =>
      match s with
      | [] => None
      | c :: s1 =>
          if c =? 34 then
            match scanstring s1 with
            | Some (x, r) => Some (JStr x, r)
            | None => None
            end
          else if c =? 123 then
            match skip_ws s1 with
            | [] => None
            | c2 :: r2 =>
                if c2 =? 125 then Some (JObj [], r2)
                else
                  match scan_pairs f (skip_ws s1) with
                  | Some (kvs, r) => Some (JObj (Dict.of_pairs kvs), r)
                  | None => None
                  end
            end
          else if c =? 91 then
            match skip_ws s1 with
            | [] => None
            | c2 :: r2 =>
                if c2 =? 93 then Some (JArr [], r2)
                else
                  match scan_items f (skip_ws s1) with
                  | Some (vs, r) => Some (JArr vs, r)
                  | None => None
                  end
            end
          else scan_atom s
      end
  end

with scan_items (fuel : nat) (s : str) {struct fuel} : option (list json * str) :=
  match fuel with
  | O => None
  | S f =>
      match scan_once f s with
      | None => None
      | Some (v, r) =>
          match skip_ws r with
          | [] => None
          | c :: r1 =>
              if c =? 93 then Some ([v], r1)
              else if c =? 44 then
                match scan_items f (skip_ws r1) with
                | Some (vs, r2) => Some (v :: vs, r2)
                | None => None
                end
              else None
          end
      end
  end

with scan_pairs (fuel : nat) (s : str) {struct fuel} : option (dict * str) :=
  match fuel with
  | O => None
  | S f =>
      match s with
      | [] => None
      | q :: s1 =>
          if q =? 34 then
            match scanstring s1 with
            | None => None
            | Some (k, r) =>
                match skip_ws r with
                | [] => None
                | colon :: r1 =>
                    if colon =? 58 then
                      match scan_once f (skip_ws r1) with
                      | None => None
                      | Some (v, r2) =>
                          match skip_ws r2 with
                          | [] => None
                          | c :: r3 =>
                              if c =? 125 then Some ([(k, v)], r3)
                              else if c =? 44 then
                                match scan_pairs f (skip_ws r3) with
                                | Some (kvs, r4) => Some ((k, v) :: kvs, r4)
                                | None => None
                                end
                              else None
                          end
                      end
                    else None
                end
            end
          else None
      end
  end.

(** [json.loads(s)]: [None] stands for [json.JSONDecodeError]. *)
Definition loads (s : str) : option json :=
  if PyStr.startswith s [65279] then None
  else
    match scan_once (S (length s)) (skip_ws s) with
    | None => None
    | Some (v, r) =>
        match skip_ws r with
        | [] => Some v
        | _ :: _ => None
        end
    end.

(** *** Encoding: [json.dump(obj, f, indent=2)]

    The default [ensure_ascii=True] escapes everything outside
    [' '..'~']; with an indent the item separator is [","] and the key
    separator [": "]. *)

Definition hexdigit (n : N) : N := if n <? 10 then 48 + n else 87 + n.

Definition u_escape (n : N) : str :=
  [92; 117; hexdigit (n / 4096); hexdigit ((n / 256) mod 16);
   hexdigit ((n / 16) mod 16); hexdigit (n mod 16)].

Definition escape_char (c : N) : str :=
  if c =? 34 then [92; 34]
  else if c =? 92 then [92; 92]
  else if c =? 10 then [92; 110]
  else if c =? 13 then [92; 114]
  else if c =? 9 then [92; 116]
  else if c =? 8 then [92; 98]
  else if c =? 12 then [92; 102]
  else if (32 <=? c) && (c <=? 126) then [c]
  else if c <? 65536 then u_escape c
  else
    let n := c - 65536 in
    u_escape (55296 + (n / 1024) mod 1024) ++ u_escape (56320 + n mod 1024).

(** The Unicode scalar values: code points that are not surrogates. *)
Definition scalar (c : N) : bool :=
  (c <? 1114112) && negb ((55296 <=? c) && (c <=? 57343)).

Definition encode_string (s : str) : str :=
  [34] ++ flat_map escape_char s ++ [34].

Definition newline_indent (level : nat) : str :=
  10 :: repeat 32 (2 * level).

Fixpoint encode (b : builtins) (level : nat) (v : json) {struct v} : str :=
  match v with
  | JNull => py "null"
  | JBool true => py "true"
  | JBool false => py "false"
  | JInt z => PyStr.of_Z z
  | JFloat l => float_repr b l
  | JStr s => encode_string s
  | JArr [] => py "[]"
  | JArr (x :: xs) =>
      [91] ++ newline_indent (S level) ++ encode b (S level) x
      ++ (fix items (l : list json) : str :=
            match l with
            | [] => []
            | y :: l' =>
                [44] ++ newline_indent (S level) ++ encode b (S level) y ++ items l'
            end) xs
      ++ newline_indent level ++ [93]
  | JObj [] => py "{}"
  | JObj ((k, x) :: kvs) =>
      [123] ++ newline_indent (S level)
      ++ encode_string k ++ [58; 32] ++ encode b (S level) x
      ++ (fix members (l : dict) : str :=
            match l with
            | [] => []
            | (k', y) :: l' =>
                [44] ++ newline_indent (S level)
                ++ encode_string k' ++ [58; 32] ++ encode b (S level) y
                ++ members l'
            end) kvs
      ++ newline_indent level ++ [125]
  end.

Definition dumps (b : builtins) (v : json) : str := encode b 0 v.

(** The elements after the first of a non-empty array, and the members
    after the first of a non-empty object, as [encode] writes them. *)
Definition encode_items (b : builtins) (level : nat) : list json -> str :=
  fix items (l : list json) : str :=
    match l with
    | [] => []
    | y :: l' => [44] ++ newline_indent level ++ encode b level y ++ items l'
    end.

Definition encode_members (b : builtins) (level : nat) : dict -> str :=
  fix members (l : dict) : str :=
    match l with
    | [] => []
    | (k', y) :: l' =>
        [44] ++ newline_indent level
        ++ encode_string k' ++ [58; 32] ++ encode b level y
        ++ members l'
    end.

End Json.


(** ** Python values and exceptions *)

Module Py.

(** An exception, by the [except] clauses of the sources that catch it
    and by its [str()]. *)
Record exn : Type := {
  is_ValueError : bool;
  is_JSONDecodeError : bool;
  is_Timeout : bool;
  is_RequestException : bool;
  message : str
}.

Definition plain_exception (msg : str) : exn :=
  {| is_ValueError := false; is_JSONDecodeError := false; is_Timeout := false;
     is_RequestException := false; message := msg |}.

Definition AttributeError := plain_exception.
Definition TypeError := plain_exception.
Definition OSError := plain_exception.

Definition ValueError (msg : str) : exn :=
  {| is_ValueError := true; is_JSONDecodeError := false; is_Timeout := false;
     is_RequestException := false; message := msg |}.

(** [json.JSONDecodeError] is a [ValueError]. *)
Definition JSONDecodeError (msg : str) : exn :=
  {| is_ValueError := true; is_JSONDecodeError := true; is_Timeout := false;
     is_RequestException := false; message := msg |}.

(** [requests.exceptions.JSONDecodeError], raised by [Response.json()],
    is both a [RequestException] and a [json.JSONDecodeError]. *)
Definition RequestsJSONDecodeError (msg : str) : exn :=
  {| is_ValueError := true; is_JSONDecodeError := true; is_Timeout := false;
     is_RequestException := true; message := msg |}.

Inductive outcome (A : Type) : Type :=
| Returns (a : A)
| Raises (e : exn).
Arguments Returns {A} a.
Arguments Raises {A} e.

Definition bind {A B} (m : outcome A) (k : A -> outcome B) : outcome B :=
  match m with
  | Returns a => k a
  | Raises e => Raises e
  end.

Definition type_name (v : json) : string :=
  match v with
  | JNull => "NoneType"
  | JBool _ => "bool"
  | JInt _ => "int"
  | JFloat _ => "float"
  | JStr _ => "str"
  | JArr _ => "list"
  | JObj _ => "dict"
  end.

(** [bool(v)] *)
Definition truthy (b : builtins) (v : json) : bool :=
  match v with
  | JNull => false
  | JBool x => x
  | JInt z => negb (z =? 0)%Z
  | JFloat l => float_nonzero b l
  | JStr s => match s with [] => false | _ => true end
  | JArr l => match l with [] => false | _ => true end
  | JObj d => match d with [] => false | _ => true end
  end.

(** [str(v)], as an f-string formats [v]. *)
Definition format (b : builtins) (v : json) : str :=
  match v with
  | JNull => py "None"
  | JBool true => py "True"
  | JBool false => py "False"
  | JInt z => PyStr.of_Z z
  | JFloat l => float_repr b l
  | JStr s => s
  | JArr _ | JObj _ => container_repr b v
  end.

(** [v.get(key, default)]: only a [dict] has the method. *)
Definition get (v : json) (key : str) (default : json) : outcome json :=
  match v with
  | JObj d => Returns (match Dict.get d key with Some x => x | None => default end)
  | _ =>
      Raises (AttributeError
                (py "'" ++ py (type_name v) ++ py "' object has no attribute 'get'"))
  end.

(** The elements [for c in v] visits. *)
Definition iterate (v : json) : outcome (list json) :=
  match v with
  | JArr l => Returns l
  | JObj d => Returns (map (fun kv => JStr (fst kv)) d)
  | JStr s => Returns (map (fun c => JStr [c]) s)
  | _ => Raises (TypeError (py "'" ++ py (type_name v) ++ py "' object is not iterable"))
  end.

(** [key in v] for a string [key]. *)
Definition contains (v : json) (key : str) : outcome bool :=
  match v with
  | JObj d => Returns (Dict.mem d key)
  | JArr l =>
      Returns (existsb (fun x => match x with JStr s => PyStr.eqb s key | _ => false end) l)
  | JStr s => Returns (PyStr.contains s key)
  | _ =>
      Raises (TypeError
                (py "argument of type '" ++ py (type_name v) ++ py "' is not iterable"))
  end.

(** [all(key in v for key in keys)]: stops at the first miss. *)
Fixpoint all_in (v : json) (keys : list str) : outcome bool :=
  match keys with
  | [] => Returns true
  | k :: more =>
      bind (contains v k) (fun present => if present then all_in v more else Returns false)
  end.

(** The strings of a list handed to [str.join]; anything else is a
    [TypeError] naming the first offending item. *)
Fixpoint expect_strs (i : nat) (items : list json) : outcome (list str) :=
  match items with
  | [] => Returns []
  | JStr s :: more => bind (expect_strs (S i) more) (fun ss => Returns (s :: ss))
  | v :: _ =>
      Raises (TypeError
                (py "sequence item " ++ PyStr.of_Z (Z.of_nat i)
                 ++ py ": expected str instance, " ++ py (type_name v) ++ py " found"))
  end.

(** [sep.join(items)] *)
Definition join (sep : str) (items : list json) : outcome str :=
  bind (expect_strs 0 items) (fun ss => Returns (PyStr.join sep ss)).

(** [l[i]] *)
Definition item {A} (l : list A) (i : nat) : outcome A :=
  match nth_error l i with
  | Some x => Returns x
  | None => Raises (plain_exception (py "list index out of range"))
  end.

(** [[f(x) for x in xs]] *)
Fixpoint map_outcome {A B} (f : A -> outcome B) (xs : list A) : outcome (list B) :=
  match xs with
  | [] => Returns []
  | x :: more =>
      bind (f x) (fun y => bind (map_outcome f more) (fun ys => Returns (y :: ys)))
  end.

End Py.

(** ** The outside world and the trace of calls made to it *)

Record http_request : Type := {
  url : str;
  headers : list (str * str);
  timeout : option Z            (* the [timeout=] argument, when given *)
}.

Record response : Type := {
  status_code : Z;
  text : str
}.

Record model_request : Type := {
  model : str;
  contents : str;
  config_timeout : option Z     (* a time bound passed with the call, when given *)
}.

Record model_response : Type := {
  response_text : option str    (* [response.text], which may be [None] *)
}.

Inductive call : Type :=
| HttpGet (r : http_request)
| GenerateContent (r : model_request).

Record world : Type := {
  getenv : str -> option str;
  http_get : http_request -> Py.outcome response;
  generate_content : model_request -> Py.outcome model_response;
  interp : builtins
}.

Definition call_timeout (c : call) : option Z :=
  match c with
  | HttpGet r => timeout r
  | GenerateContent r => config_timeout r
  end.

(** Computations that may raise and that extend the trace of calls. *)
Module Eff.

Definition M (A : Type) : Type := list call -> Py.outcome A * list call.

Definition ret {A} (a : A) : M A := fun tr => (Py.Returns a, tr).

Definition bind {A B} (m : M A) (k : A -> M B) : M B :=
  fun tr =>
    match m tr with
    | (Py.Returns a, tr') => k a tr'
    | (Py.Raises e, tr') => (Py.Raises e, tr')
    end.

Definition lift {A} (o : Py.outcome A) : M A := fun tr => (o, tr).

(** [try: body except ...:] with the clauses tried in order; an
    exception no clause matches propagates. *)
Fixpoint dispatch {A} (clauses : list ((Py.exn -> bool) * (Py.exn -> A)))
  (e : Py.exn) : Py.outcome A :=
  match clauses with
  | [] => Py.Raises e
  | (matches, handler) :: more =>
      if matches e then Py.Returns (handler e) else dispatch more e
  end.

(** What the [try] statement makes of the outcome of its body. *)
Definition dispatch_result {A} (clauses : list ((Py.exn -> bool) * (Py.exn -> A)))
  (o : Py.outcome A) : Py.outcome A :=
  match o with
  | Py.Returns a => Py.Returns a
  | Py.Raises e => dispatch clauses e
  end.

Definition try_except {A} (body : M A)
  (clauses : list ((Py.exn -> bool) * (Py.exn -> A))) : M A :=
  fun tr => let '(o, tr') := body tr in (dispatch_result clauses o, tr').

(** [except Exception] *)
Definition any_exception (e : Py.exn) : bool := true.

(** [m] only ever appends calls that satisfy [P] to the trace. *)
Definition appends (P : call -> Prop) {A} (m : M A) : Prop :=
  forall tr, exists calls, snd (m tr) = tr ++ calls /\ Forall P calls.

End Eff.

#[global] Instance eff_bind : MBind Eff.M := fun A B k m => Eff.bind m k.
#[global] Instance eff_ret : MRet Eff.M := fun A a => Eff.ret a.
#[global] Instance outcome_bind : MBind Py.outcome := fun A B k m => Py.bind m k.
#[global] Instance outcome_ret : MRet Py.outcome := fun A a => Py.Returns a.

(** [requests.get(url, headers=headers, timeout=timeout)] *)
Definition requests_get (w : world) (u : str) (h : list (str * str))
  (t : option Z) : Eff.M response :=
  fun tr =>
    let r := {| url := u; headers := h; timeout := t |} in
    (http_get w r, tr ++ [HttpGet r]).

(** [response.json()] *)
Definition response_json (r : response) : Py.outcome json :=
  match Json.loads (text r) with
  | Some v => Py.Returns v
  | None => Py.Raises (Py.RequestsJSONDecodeError (py "Expecting value"))
  end.

(** [client.models.generate_content(model=..., contents=...)] *)
Definition models_generate_content (w : world) (r : model_request)
  : Eff.M model_response :=
  fun tr => (generate_content w r, tr ++ [GenerateContent r]).

Definition error_record (msg : str) : json := JObj [(py "error", JStr msg)].

(** The two shapes of an [IssueRecord]. *)
Definition issue_record_shaped (r : json) : Prop :=
  exists title body comments,
    r = JObj [(py "title", title); (py "body", body); (py "comments", JStr comments)].

Definition failure_shaped (r : json) : Prop :=
  exists msg, r = error_record msg.

(** ** [src/github_utils.py] *)

Module GithubUtils.

(** [owner, repo = parts] *)
Definition unpack2 (parts : list str) : Py.outcome (str * str) :=
  match parts with
  | [a; b] => Py.Returns (a, b)
  | [] | [_] =>
      Py.Raises (Py.ValueError
                   (py "not enough values to unpack (expected 2, got "
                    ++ PyStr.of_Z (Z.of_nat (length parts)) ++ py ")"))
  | _ => Py.Raises (Py.ValueError (py "too many values to unpack (expected 2)"))
  end.

(** The path segments the URL is split into, before the [[:2]] slice. *)
Definition path_segments (repo_url : str) : list str :=
  PyStr.split (PyStr.replace repo_url (py "https://github.com/") []) (py "/").

Definition auth_headers (w : world) : list (str * str) :=
  match getenv w (py "GITHUB_TOKEN") with
  | Some (c :: t) => [(py "Authorization", py "token " ++ c :: t)]
  | _ => []
  end.

Definition issue_endpoint (owner repo : str) (issue_number : Z) : str :=
  py "https://api.github.com/repos/" ++ owner ++ py "/" ++ repo
  ++ py "/issues/" ++ PyStr.of_Z issue_number.

(** The body of the [try] block. *)
Definition fetch_try (w : world) (repo_url : str) (issue_number : Z) : Eff.M json :=
  '(owner, repo) ← Eff.lift (unpack2 (firstn 2 (path_segments repo_url)));
  let headers := auth_headers w in
  let issue_url := issue_endpoint owner repo issue_number in
  let comments_url := issue_url ++ py "/comments" in
  issue_resp ← requests_get w issue_url headers (Some 10%Z);
  comments_resp ← requests_get w comments_url headers (Some 10%Z);
  if negb (status_code issue_resp =? 200)%Z then
    Eff.ret (error_record (py "GitHub API error: "
                           ++ PyStr.of_Z (status_code issue_resp)))
  else
    issue ← Eff.lift (response_json issue_resp);
    comments ← (if (status_code comments_resp =? 200)%Z
                 then Eff.lift (response_json comments_resp)
                 else Eff.ret (JArr []));
    comments_text ← (if Py.truthy (interp w) comments then
                        cs ← Eff.lift (Py.iterate comments);
                        bodies ← Eff.lift
                          (Py.map_outcome (fun c => Py.get c (py "body") (JStr [])) cs);
                        Eff.lift (Py.join [10] bodies)
                      else Eff.ret []);
    title ← Eff.lift (Py.get issue (py "title") (JStr []));
    body ← Eff.lift (Py.get issue (py "body") (JStr []));
    Eff.ret (JObj [(py "title", title); (py "body", body);
                   (py "comments", JStr comments_text)]).

(** The two requests of a call, as lines 48-49 make them. *)
Definition issue_request (w : world) (owner repo : str) (issue_number : Z)
  : http_request :=
  {| url := issue_endpoint owner repo issue_number;
     headers := auth_headers w;
     timeout := Some 10%Z |}.

Definition comments_request (w : world) (owner repo : str) (issue_number : Z)
  : http_request :=
  {| url := issue_endpoint owner repo issue_number ++ py "/comments";
     headers := auth_headers w;
     timeout := Some 10%Z |}.

Definition handlers : list ((Py.exn -> bool) * (Py.exn -> json)) :=
  [ (Py.is_ValueError, fun _ => error_record (py "Invalid GitHub URL format"));
    (Py.is_Timeout,
     fun _ => error_record (py "Request timeout - GitHub server took too long"));
    (Py.is_RequestException,
     fun e => error_record (py "Network error: " ++ Py.message e));
    (Eff.any_exception, fun e => error_record (Py.message e)) ].

Definition fetch_github_issue (w : world) (repo_url : str) (issue_number : Z)
  : Eff.M json :=
  Eff.try_except (fetch_try w repo_url issue_number) handlers.

End GithubUtils.

(** ** [src/hf.py] *)

Module Hf.

Definition prompt_head : str := quoting "^" "You are an expert GitHub issue triage assistant with deep experience in software engineering.

Your task: Analyze the following GitHub issue and extract structured insights.

CRITICAL: Return ONLY valid JSON in this exact format. No explanation, no markdown, just JSON.

{
  ^summary^: ^One clear sentence describing the core problem or feature request^,
  ^type^: ^Classify as one of: bug, feature_request, documentation, question, other^,
  ^priority_score^: ^A score 1-5 with brief justification (e.g., '4 - Affects core functionality')^,
  ^suggested_labels^: [^label1^, ^label2^, ^label3^],
  ^potential_impact^: ^Brief sentence on user/business impact if issue is a bug, or value if feature^
}

GitHub Issue Details:
---
Title: ".

Definition prompt_body : str := quoting "^" "

Body:
".

Definition prompt_comments : str := quoting "^" "

Community Comments:
".

Definition prompt_tail : str := quoting "^" "
---

Remember: 
1. Output ONLY JSON - no markdown, no explanation
2. Type must be exactly one of: bug, feature_request, documentation, question, other
3. Priority must be 1-5
4. For issues with minimal info, infer from title and comments
5. Labels should be specific and actionable

RETURN ONLY JSON:".

(** [issue_data.get(key, default)] on the [dict] handed in. *)
Definition field (issue_data : dict) (key : str) (default : str) : json :=
  match Dict.get issue_data key with
  | Some v => v
  | None => JStr default
  end.

(** The f-string of the prompt. *)
Definition prompt (b : builtins) (issue_data : dict) : str :=
  prompt_head ++ Py.format b (field issue_data (py "title") [])
  ++ prompt_body
  ++ Py.format b (field issue_data (py "body") (py "No description provided"))
  ++ prompt_comments
  ++ Py.format b (field issue_data (py "comments") (py "No comments yet"))
  ++ prompt_tail.

(** The one request of a call, as lines 86-89 make it. *)
Definition analysis_request (w : world) (issue_data : dict) : model_request :=
  {| model := py "gemini-3-flash-preview";
     contents := prompt (interp w) issue_data;
     config_timeout := None |}.

Definition required_keys : list str :=
  [py "summary"; py "type"; py "priority_score"; py "suggested_labels";
   py "potential_impact"].

Definition fence : str := py "```".

(** Lines 95-98: drop a leading fence and a [json] tag after it. *)
Definition strip_fence (response_text : str) : Py.outcome str :=
  if PyStr.startswith response_text fence then
    seg ← Py.item (PyStr.split response_text fence) 1;
    if PyStr.startswith seg (py "json")
    then Py.Returns (skipn 4 seg)
    else Py.Returns seg
  else Py.Returns response_text.

(** [json.loads(s)] *)
Definition json_loads (s : str) : Py.outcome json :=
  match Json.loads s with
  | Some v => Py.Returns v
  | None => Py.Raises (Py.JSONDecodeError (py "Expecting value"))
  end.

(** [response.text.strip()] *)
Definition text_strip (r : model_response) : Py.outcome str :=
  match response_text r with
  | Some t => Py.Returns (PyStr.strip t)
  | None =>
      Py.Raises (Py.AttributeError (py "'NoneType' object has no attribute 'strip'"))
  end.

(** The body of the [try] block. *)
Definition analyze_try (w : world) (p : str) : Eff.M json :=
  response ← models_generate_content w
    {| model := py "gemini-3-flash-preview"; contents := p; config_timeout := None |};
  response_text ← Eff.lift (text_strip response);
  response_text ← Eff.lift (strip_fence response_text);
  result ← Eff.lift (json_loads response_text);
  complete ← Eff.lift (Py.all_in result required_keys);
  if negb complete
  then Eff.ret (error_record (py "Incomplete analysis response"))
  else Eff.ret result.

Definition handlers : list ((Py.exn -> bool) * (Py.exn -> json)) :=
  [ (Py.is_JSONDecodeError,
     fun _ => JObj [(py "error", JStr (py "AI response parsing failed"));
                    (py "details", JStr (py "Could not parse AI output as JSON"))]);
    (Eff.any_exception,
     fun e => JObj [(py "error", JStr (py "Analysis failed"));
                    (py "details", JStr (Py.message e))]) ].

Definition analyze_issue_with_ai (w : world) (issue_data : dict) : Eff.M json :=
  let p := prompt (interp w) issue_data in
  Eff.try_except (analyze_try w p) handlers.

(** The function on whatever value is handed in for [issue_data]: the
    f-string of lines 50-82 calls [issue_data.get] three times, from left
    to right and before the [try] statement of line 84 is entered. *)
Definition prompt_of (b : builtins) (issue_data : json) : Py.outcome str :=
  title ← Py.get issue_data (py "title") (JStr []);
  body ← Py.get issue_data (py "body") (JStr (py "No description provided"));
  comments ← Py.get issue_data (py "comments") (JStr (py "No comments yet"));
  Py.Returns (prompt_head ++ Py.format b title
              ++ prompt_body ++ Py.format b body
              ++ prompt_comments ++ Py.format b comments
              ++ prompt_tail).

Definition analyze_issue_with_ai_any (w : world) (issue_data : json) : Eff.M json :=
  p ← Eff.lift (prompt_of (interp w) issue_data);
  Eff.try_except (analyze_try w p) handlers.

End Hf.

(** ** [src/cache_utils.py] *)

Inductive node : Type :=
| Dir
| File (content : str).

Abbreviation filesystem := (gmap str node).

Module CacheUtils.

Definition CACHE_DIR : str := py ".cache".

(** [directory / name] *)
Definition path_join (directory name : str) : str := directory ++ [47] ++ name.

(** [path.mkdir(exist_ok=True)] below the working directory. *)
Definition mkdir_exist_ok (fs : filesystem) (p : str) : Py.outcome filesystem :=
  match fs !! p with
  | None => Py.Returns (<[p := Dir]> fs)
  | Some Dir => Py.Returns fs
  | Some (File _) => Py.Raises (Py.OSError (py "[Errno 17] File exists"))
  end.

(** *** Paths the system refuses

    A path is handed to the system as bytes: [os.fsencode] encodes it as
    UTF-8 with [surrogateescape], so that the code points U+DC80..U+DCFF
    stand for one byte each, and the call raises a [ValueError] for a NUL
    character and for any other surrogate.  The system then raises an
    [OSError] for a name of more than [NAME_MAX] bytes. *)
Definition NAME_MAX : N := 255.

Definition escaped_byte (c : N) : bool := (56448 <=? c) && (c <=? 56575).

Definition unencodable (c : N) : bool :=
  (c =? 0) || ((55296 <=? c) && (c <=? 57343) && negb (escaped_byte c)).

Definition utf8_width (c : N) : N :=
  if c <? 128 then 1
  else if c <? 2048 then 2
  else if escaped_byte c then 1
  else if c <? 65536 then 3
  else 4.

Definition name_bytes (name : str) : N :=
  fold_right (fun c n => utf8_width c + n) 0 name.

Definition too_long (p : str) : bool :=
  existsb (fun name => NAME_MAX <? name_bytes name) (PyStr.split p (py "/")).

(** What a system call raises for a path that names nothing yet, before
    it looks for the path: the text of the [ValueError] is never looked
    at by the code. *)
Definition refused (p : str) : option Py.exn :=
  if existsb unencodable p then Some (Py.ValueError (py "embedded null byte"))
  else if too_long p then Some (Py.OSError (py "[Errno 36] File name too long"))
  else None.

(** [path.exists()]: [os.stat], where a [ValueError] and a missing path
    give [False] and any other [OSError] is raised again.  A path of the
    map is one the system took. *)
Definition path_exists (fs : filesystem) (p : str) : Py.outcome bool :=
  match fs !! p with
  | Some _ => Py.Returns true
  | None =>
      match refused p with
      | Some e => if Py.is_ValueError e then Py.Returns false else Py.Raises e
      | None => Py.Returns false
      end
  end.

(** [open(path, 'r')] and reading all of it. *)
Definition read_file (fs : filesystem) (p : str) : Py.outcome str :=
  match fs !! p with
  | Some (File c) => Py.Returns c
  | Some Dir => Py.Raises (Py.OSError (py "[Errno 21] Is a directory"))
  | None => Py.Raises (Py.OSError (py "[Errno 2] No such file or directory"))
  end.

(** [open(path, 'w')] in [directory] and writing [content]. *)
Definition write_file (fs : filesystem) (directory name : str) (content : str)
  : Py.outcome filesystem :=
  match fs !! directory with
  | Some Dir =>
      match fs !! path_join directory name with
      | Some Dir => Py.Raises (Py.OSError (py "[Errno 21] Is a directory"))
      | Some (File _) => Py.Returns (<[path_join directory name := File content]> fs)
      | None =>
          match refused (path_join directory name) with
          | Some e => Py.Raises e
          | None => Py.Returns (<[path_join directory name := File content]> fs)
          end
      end
  | Some (File _) => Py.Raises (Py.OSError (py "[Errno 20] Not a directory"))
  | None => Py.Raises (Py.OSError (py "[Errno 2] No such file or directory"))
  end.

Definition _ensure_cache_dir (fs : filesystem) : Py.outcome filesystem :=
  mkdir_exist_ok fs CACHE_DIR.

Definition _get_cache_key (repo_url : str) (issue_number : Z) : str :=
  PyStr.replace (PyStr.replace repo_url (py "/") (py "_")) (py ":") []
  ++ py "_issue_" ++ PyStr.of_Z issue_number ++ py ".json".

(** [json.load(f)] *)
Definition json_load (content : str) : Py.outcome json :=
  match Json.loads content with
  | Some v => Py.Returns v
  | None => Py.Raises (Py.JSONDecodeError (py "Expecting value"))
  end.

Definition get_cached_analysis (fs : filesystem) (repo_url : str) (issue_number : Z)
  : Py.outcome (filesystem * option json) :=
  fs ← _ensure_cache_dir fs;
  let cache_file := path_join CACHE_DIR (_get_cache_key repo_url issue_number) in
  found ← path_exists fs cache_file;
  if found : bool then
    match content ← read_file fs cache_file; json_load content with
    | Py.Returns v => Py.Returns (fs, Some v)
    | Py.Raises _ => Py.Returns (fs, None)
    end
  else Py.Returns (fs, None).

Definition cache_analysis (b : builtins) (fs : filesystem) (repo_url : str)
  (issue_number : Z) (result : json) : Py.outcome filesystem :=
  fs ← _ensure_cache_dir fs;
  let name := _get_cache_key repo_url issue_number in
  match write_file fs CACHE_DIR name (Json.dumps b result) with
  | Py.Returns fs' => Py.Returns fs'
  | Py.Raises _ => Py.Returns fs
  end.

(** [path.unlink()] *)
Definition unlink (fs : filesystem) (p : str) : Py.outcome filesystem :=
  match fs !! p with
  | Some (File _) => Py.Returns (delete p fs)
  | Some Dir => Py.Raises (Py.OSError (py "[Errno 21] Is a directory"))
  | None => Py.Raises (Py.OSError (py "[Errno 2] No such file or directory"))
  end.

(** The name of [p] below [directory], when [p] lies below it. *)
Definition entry_name (directory p : str) : option str :=
  if PyStr.startswith p (directory ++ [47])
  then Some (skipn (length directory + 1) p)
  else None.

(** [p] is an entry of [directory] itself whose name matches [*.json]
    (the pattern of [pathlib] also matches names that start with a dot). *)
Definition globbed (directory p : str) : bool :=
  match entry_name directory p with
  | Some name => negb (existsb (N.eqb 47) name) && PyStr.endswith name (py ".json")
  | None => false
  end.

(** [directory.glob("*.json")]: the entries are listed once, before the
    first is handed out; nothing is listed when [directory] is not a
    directory.  The order of the listing is the file system's; the model
    lists in the order of the map. *)
Definition glob_json (fs : filesystem) (directory : str) : list str :=
  match fs !! directory with
  | Some Dir => filter (fun p => globbed directory p = true) (map fst (map_to_list fs))
  | _ => []
  end.

(** [for file in files: file.unlink()] *)
Fixpoint unlink_all (files : list str) (fs : filesystem) : Py.outcome filesystem :=
  match files with
  | [] => Py.Returns fs
  | file :: more => fs' ← unlink fs file; unlink_all more fs'
  end.

Definition clear_cache (fs : filesystem) : Py.outcome filesystem :=
  found ← path_exists fs CACHE_DIR;
  if found : bool
  then unlink_all (glob_json fs CACHE_DIR) fs
  else Py.Returns fs.

(** The path of the entry of a key. *)
Definition cache_file (repo_url : str) (issue_number : Z) : str :=
  path_join CACHE_DIR (_get_cache_key repo_url issue_number).

(** The write of lines 62-64 goes through: the directory can be ensured
    and the entry can be opened for writing. *)
Definition put_succeeds (b : builtins) (fs : filesystem) (repo_url : str)
  (issue_number : Z) (result : json) : Prop :=
  exists fs1 fs2,
    _ensure_cache_dir fs = Py.Returns fs1
    /\ write_file fs1 CACHE_DIR (_get_cache_key repo_url issue_number)
         (Json.dumps b result) = Py.Returns fs2.

End CacheUtils.

(** ** Concrete worlds, for running the embedding *)

Module Sample.

Definition interp0 : builtins :=
  {| float_repr := fun l => l;
     float_nonzero := fun _ => true;
     container_repr := fun _ => py "[...]" |}.

(** [requests.exceptions.ReadTimeout] *)
Definition read_timeout : Py.exn :=
  {| Py.is_ValueError := false; Py.is_JSONDecodeError := false;
     Py.is_Timeout := true; Py.is_RequestException := true;
     Py.message := py "Read timed out. (read timeout=10)" |}.

Definition is_comments_url (u : str) : bool :=
  PyStr.startswith (rev u) (rev (py "/comments")).

(** A tracker that answers the issue endpoint with [issue] and the
    comments endpoint with [comments], and a model service that answers
    [answer]. *)
Definition serve (issue comments : Py.outcome response)
  (answer : Py.outcome model_response) : world :=
  {| getenv := fun _ => None;
     http_get := fun r => if is_comments_url (url r) then comments else issue;
     generate_content := fun _ => answer;
     interp := interp0 |}.

Definition ok (status : Z) (body : str) : Py.outcome response :=
  Py.Returns {| status_code := status; text := body |}.

Definition says (t : str) : Py.outcome model_response :=
  Py.Returns {| response_text := Some t |}.

Definition silent : Py.outcome model_response :=
  Py.Returns {| response_text := None |}.

Definition react : str := py "https://github.com/facebook/react".

(** A model service alone: the tracker is never reached. *)
Definition model_only (answer : Py.outcome model_response) : world :=
  serve (ok 404 []) (ok 404 []) answer.

Definition issue42 : dict :=
  [(py "title", JStr (py "Crash on startup")); (py "body", JStr []);
   (py "comments", JStr (py "Happens on v2.1 only"))].

(** The object of the specification's example, and model answers that
    wrap it. *)
Definition example_object : str :=
  pyq "{'summary':'s','type':'bug','priority_score':'3 - x','suggested_labels':['a'],'potential_impact':'i'}".

Definition example_record : json :=
  JObj [(py "summary", JStr (py "s")); (py "type", JStr (py "bug"));
        (py "priority_score", JStr (py "3 - x"));
        (py "suggested_labels", JArr [JStr (py "a")]);
        (py "potential_impact", JStr (py "i"))].

Definition fenced (tag : str) (content : str) : str :=
  py "```" ++ tag ++ [10] ++ content ++ [10] ++ py "```".

Definition parse_failure : json :=
  JObj [(py "error", JStr (py "AI response parsing failed"));
        (py "details", JStr (py "Could not parse AI output as JSON"))].

(** File systems: an empty cache directory, one with an entry and a
    file of another kind, one whose entry cannot be decoded, one where a
    directory is in the way of the entry, and one where the cache
    directory itself is a regular file. *)
Definition fs_empty_cache : filesystem := <[CacheUtils.CACHE_DIR := Dir]> ∅.

Definition fs_cached : filesystem :=
  <[CacheUtils.cache_file react 42 := File (Json.dumps interp0 example_record)]>
    (<[py ".cache/notes.txt" := File (py "keep")]> fs_empty_cache).

Definition fs_corrupt : filesystem :=
  <[CacheUtils.cache_file react 42 := File (py "{ truncated")]> fs_empty_cache.

Definition fs_blocked : filesystem :=
  <[CacheUtils.cache_file react 42 := Dir]> fs_empty_cache.

Definition fs_no_directory : filesystem := <[CacheUtils.CACHE_DIR := File []]> ∅.

(** An issue without a description and its three comments, one of them
    without a body, as the tracker answers them. *)
Definition issue_body : str := pyq "{'title': 'T', 'body': null, 'state': 'open'}".

Definition comments_body : str := pyq "[{'body': 'one'}, {'id': 7}, {'body': 'two'}]".

Definition tracker : world := serve (ok 200 issue_body) (ok 200 comments_body) silent.

(** A tracker whose issue endpoint times out. *)
Definition slow_tracker : world :=
  serve (Py.Raises read_timeout) (ok 200 comments_body) silent.

End Sample.

(** ** Records that can be stored *)

(** Text: a sequence of Unicode scalar values. *)
Definition valid_text (s : str) : Prop := Forall (fun c => Json.scalar c = true) s.

(** The documents made of [null], booleans, text, arrays and objects
    with distinct text keys. *)
#[warnings="-register-all"] Inductive storable : json -> Prop :=
| storable_null : storable JNull
| storable_bool (b : bool) : storable (JBool b)
| storable_str (s : str) : valid_text s -> storable (JStr s)
| storable_arr (l : list json) : Forall storable l -> storable (JArr l)
| storable_obj (d : dict) :
    NoDup (map fst d) ->
    Forall (fun kv => valid_text (fst kv) /\ storable (snd kv)) d ->
    storable (JObj d).

Fixpoint json_size (v : json) : nat :=
  match v with
  | JArr l =>
      S ((fix sizes (l : list json) : nat :=
            match l with
            | [] => O
            | x :: l' => S (json_size x + sizes l')
            end) l)
  | JObj d =>
      S ((fix sizes (d : dict) : nat :=
            match d with
            | [] => O
            | (_, x) :: d' => S (json_size x + sizes d')
            end) d)
  | _ => 1%nat
  end.

Definition items_size (l : list json) : nat :=
  fold_right (fun x n => S (json_size x + n)) O l.

Definition members_size (d : dict) : nat :=
  fold_right (fun kv n => S (json_size (snd kv) + n)) O d.

Definition issue_types : list str :=
  [py "bug"; py "feature_request"; py "documentation"; py "question"; py "other"].

(** A well-formed [AnalysisRecord]: an object that can be stored and has
    the five success fields, each of its kind. *)
Definition well_formed_record (r : json) : Prop :=
  storable r
  /\ exists d summary type priority labels impact,
       r = JObj d
       /\ Dict.get d (py "summary") = Some (JStr summary)
       /\ Dict.get d (py "type") = Some (JStr type) /\ In type issue_types
       /\ Dict.get d (py "priority_score") = Some (JStr priority)
       /\ Dict.get d (py "suggested_labels") = Some (JArr (map JStr labels))
       /\ Dict.get d (py "potential_impact") = Some (JStr impact).

(** ** Auxiliary predicates on decoded text *)

(** [r] is what is left of [s] after a non-empty prefix that does not end
    in a backtick. *)
Definition consumed (s r : str) : Prop :=
  exists w c, s = w ++ c :: r /\ c <> 96.

(** [w] ends in a decimal digit. *)
Definition ends_digit (w : str) : Prop :=
  exists pre d, w = pre ++ [d] /\ Json.is_digit d = true.

(** The first character of an encoded document. *)
Definition opens (c : N) : Prop :=
  c = 110 \/ c = 116 \/ c = 102 \/ c = 34 \/ c = 91 \/ c = 123.

(** Decoding undoes encoding at [v], whatever follows and at any depth,
    given fuel above the size of [v]. *)
Definition decodes_back (b : builtins) (v : json) : Prop :=
  forall fuel level rest,
    storable v -> (json_size v < fuel)%nat ->
    Json.scan_once fuel (Json.encode b level v ++ rest) = Some (v, rest).

(** ** Auxiliary definitions for the further properties *)

(** The record an exception of either request ends in, by the order of
    the [except] clauses. *)
Definition reported_record (e : Py.exn) : json :=
  error_record
    (if Py.is_ValueError e then py "Invalid GitHub URL format"
     else if Py.is_Timeout e then py "Request timeout - GitHub server took too long"
     else if Py.is_RequestException e then py "Network error: " ++ Py.message e
     else Py.message e).

(** The record of the catch-all clause of [analyze_issue_with_ai]. *)
Definition analysis_failed (details : str) : json :=
  JObj [(py "error", JStr (py "Analysis failed")); (py "details", JStr details)].

(** The number of slashes of a string. *)
Definition slashes (s : str) : nat := length (filter (fun c => c = 47) s).

(** * Properties *)

Arguments py : simpl never.


Example replace_prefix :
  PyStr.replace (py "https://github.com/facebook/react") (py "https://github.com/") []
  = py "facebook/react".
Proof. vm_compute. reflexivity. Qed.

Example split_slash :
  PyStr.split (py "facebook/react/issues") (py "/")
  = [py "facebook"; py "react"; py "issues"].
Proof. vm_compute. reflexivity. Qed.

Example split_empty : PyStr.split [] (py "/") = [[]].
Proof. reflexivity. Qed.

Example of_Z_neg : PyStr.of_Z (-42) = py "-42" /\ PyStr.of_Z 0 = py "0".
Proof. vm_compute. split; reflexivity. Qed.

Example strip_ws : PyStr.strip (10 :: 32 :: py "a b" ++ [9; 10]) = py "a b".
Proof. vm_compute. reflexivity. Qed.

Example loads_object :
  Json.loads (pyq "{ 'a' : [1, -2.5e3, true, null], 'b': 'x\u00e9\n' }")
  = Some (JObj [(py "a", JArr [JInt 1; JFloat (py "-2.5e3"); JBool true; JNull]);
                (py "b", JStr [120; 233; 10])]).
Proof. vm_compute. reflexivity. Qed.

Example loads_rejects :
  Json.loads (py "[1,]") = None /\ Json.loads (py "01") = None
  /\ Json.loads (pyq "{'a':1,}") = None /\ Json.loads (py "hello") = None
  /\ Json.loads [] = None.
Proof. vm_compute. repeat split; reflexivity. Qed.

Example loads_duplicate_key :
  Json.loads (pyq "{'a':1,'b':2,'a':3}")
  = Some (JObj [(py "a", JInt 3); (py "b", JInt 2)]).
Proof. vm_compute. reflexivity. Qed.

Example loads_surrogates :
  Json.loads (pyq "'\ud83d\ude00 \ud83d'") = Some (JStr [128512; 32; 55357]).
Proof. vm_compute. reflexivity. Qed.

Example fetch_runs :
  GithubUtils.fetch_github_issue
    (Sample.serve (Sample.ok 200 (pyq "{'title': 'Crash on startup', 'body': null}"))
                  (Sample.ok 200 (pyq "[{'body': 'Happens on v2.1 only'}, {'body': 'me too'}]"))
                  Sample.silent)
    Sample.react 42 []
  = (Py.Returns (JObj [(py "title", JStr (py "Crash on startup"));
                       (py "body", JNull);
                       (py "comments", JStr (py "Happens on v2.1 only" ++ [10] ++ py "me too"))]),
     [HttpGet {| url := py "https://api.github.com/repos/facebook/react/issues/42";
                 headers := []; timeout := Some 10%Z |};
      HttpGet {| url := py "https://api.github.com/repos/facebook/react/issues/42/comments";
                 headers := []; timeout := Some 10%Z |}]).
Proof. vm_compute. reflexivity. Qed.

Example dumps_layout :
  Json.dumps Sample.interp0
    (JObj [(py "a", JArr [JInt 1; JObj [(py "b", JNull)]; JArr []]);
           (py "c", JStr (py "x" ++ [10; 233; 128512] ++ py "y"))])
  = pyq "{
  'a': [
    1,
    {
      'b': null
    },
    []
  ],
  'c': 'x\n\u00e9\ud83d\ude00y'
}".
Proof. vm_compute. reflexivity. Qed.

Example cache_key_example :
  CacheUtils._get_cache_key (py "https://github.com/acme/widgets") 42
  = py "https__github.com_acme_widgets_issue_42.json".
Proof. vm_compute. reflexivity. Qed.

Example prompt_embeds_issue :
  let p := Hf.prompt Sample.interp0 Sample.issue42 in
  PyStr.startswith p (py "You are an expert GitHub issue triage assistant") = true
  /\ PyStr.contains p (py "Title: Crash on startup" ++ [10; 10] ++ py "Body:" ++ [10; 10; 10]
                       ++ py "Community Comments:" ++ [10] ++ py "Happens on v2.1 only" ++ [10]
                       ++ py "---") = true
  /\ PyStr.contains (Hf.prompt Sample.interp0 []) (py "No description provided") = true.
Proof. vm_compute. repeat split. Qed.

Example analyze_prose :
  fst (Hf.analyze_issue_with_ai (Sample.model_only (Sample.says (py "Sorry, I cannot help.")))
         Sample.issue42 [])
  = Py.Returns Sample.parse_failure
  /\ fst (Hf.analyze_issue_with_ai (Sample.model_only Sample.silent) Sample.issue42 [])
     = Py.Returns (JObj [(py "error", JStr (py "Analysis failed"));
                         (py "details", JStr (py "'NoneType' object has no attribute 'strip'"))]).
Proof. vm_compute. repeat split. Qed.

(** *** Malformed repository URLs *)

Lemma split_from_nonempty (k : nat) (s sep : str) : PyStr.split_from k s sep <> [].
Proof.
  revert k. induction s as [|c s IH]; intros k; cbn [PyStr.split_from]; [done|].
  destruct k; [|apply IH].
  destruct (PyStr.startswith (c :: s) sep); [done|].
  specialize (IH 0%nat). destruct (PyStr.split_from 0 s sep); simpl; congruence.
Qed.

Lemma path_segments_nonempty (repo_url : str) :
  GithubUtils.path_segments repo_url <> [].
Proof. apply split_from_nonempty. Qed.

(** C7: a repository URL with fewer than two path segments after the
    prefix is removed yields [{"error": "Invalid GitHub URL format"}], and
    the trace of outbound calls is left as it was: no request is made. *)
Theorem fetch_malformed_url (w : world) (repo_url : str) (issue_number : Z)
  (tr : list call) :
  (length (GithubUtils.path_segments repo_url) < 2)%nat ->
  GithubUtils.fetch_github_issue w repo_url issue_number tr
  = (Py.Returns (error_record (py "Invalid GitHub URL format")), tr).
Proof.
  intros Hlen.
  pose proof (path_segments_nonempty repo_url) as Hne.
  unfold GithubUtils.fetch_github_issue, Eff.try_except, GithubUtils.fetch_try.
  unfold mbind, eff_bind, Eff.bind, Eff.lift.
  destruct (GithubUtils.path_segments repo_url) as [|a [|b l]]; simpl in *;
    [congruence | reflexivity | lia].
Qed.

Lemma fetch_malformed_url_witness :
  (length (GithubUtils.path_segments (py "https://github.com/facebook")) < 2)%nat
  /\ GithubUtils.fetch_github_issue
       (Sample.serve (Sample.ok 200 []) (Sample.ok 200 []) Sample.silent)
       (py "https://github.com/facebook") 7 []
     = (Py.Returns (error_record (py "Invalid GitHub URL format")), []).
Proof.
  split.
  - vm_compute. lia.
  - apply fetch_malformed_url. vm_compute. lia.
Defined.

(** *** The two tracker requests *)

Section FetchAfterRequests.

Variables (w : world) (repo_url owner repo : str) (issue_number : Z).
Variables (issue_resp comments_resp : response) (tr : list call).

Hypothesis Hurl : firstn 2 (GithubUtils.path_segments repo_url) = [owner; repo].
Hypothesis Hissue :
  http_get w (GithubUtils.issue_request w owner repo issue_number)
  = Py.Returns issue_resp.
Hypothesis Hcomments :
  http_get w (GithubUtils.comments_request w owner repo issue_number)
  = Py.Returns comments_resp.

Let tr' : list call :=
  tr ++ [HttpGet (GithubUtils.issue_request w owner repo issue_number);
         HttpGet (GithubUtils.comments_request w owner repo issue_number)].

(** C8, as amended: both requests are made before any status is looked
    at, so the comments request has to return.  Then an issue response
    whose status is not 200 yields the error record carrying that status,
    whatever the bodies of the two responses are: none is decoded. *)
Theorem fetch_not_200 :
  status_code issue_resp <> 200%Z ->
  GithubUtils.fetch_github_issue w repo_url issue_number tr
  = (Py.Returns (error_record (py "GitHub API error: "
                               ++ PyStr.of_Z (status_code issue_resp))), tr').
Proof.
  intros Hst.
  unfold GithubUtils.fetch_github_issue, Eff.try_except, GithubUtils.fetch_try.
  unfold mbind, eff_bind, Eff.bind, Eff.lift, requests_get.
  rewrite Hurl. cbn [GithubUtils.unpack2].
  unfold GithubUtils.issue_request in Hissue. rewrite Hissue.
  unfold GithubUtils.comments_request in Hcomments. rewrite Hcomments.
  destruct (Z.eqb_spec (status_code issue_resp) 200) as [E|_]; [contradiction|].
  cbn [negb]. unfold Eff.ret, tr'. rewrite <- app_assoc. reflexivity.
Qed.

(** C10, as amended: when both requests return, the issue response has
    status 200 and its body is not JSON, the decoding error is caught by
    the [except ValueError] clause and reported as an invalid URL. *)
Theorem fetch_undecodable_issue :
  status_code issue_resp = 200%Z ->
  Json.loads (text issue_resp) = None ->
  GithubUtils.fetch_github_issue w repo_url issue_number tr
  = (Py.Returns (error_record (py "Invalid GitHub URL format")), tr').
Proof.
  intros Hst Hbody.
  unfold GithubUtils.fetch_github_issue, Eff.try_except, GithubUtils.fetch_try.
  unfold mbind, eff_bind, Eff.bind, Eff.lift, requests_get.
  rewrite Hurl. cbn [GithubUtils.unpack2].
  unfold GithubUtils.issue_request in Hissue. rewrite Hissue.
  unfold GithubUtils.comments_request in Hcomments. rewrite Hcomments.
  rewrite Hst. cbn [Z.eqb Pos.eqb negb].
  unfold response_json. rewrite Hbody.
  unfold tr'. rewrite <- app_assoc. reflexivity.
Qed.

(** C2, as amended: when the issue response has status 200 and a JSON
    object as body, a comments response with a status other than 200 is
    soft-failed: the record has the three success fields and empty
    comments. *)
Theorem fetch_comments_not_200 (d : dict) :
  status_code issue_resp = 200%Z ->
  Json.loads (text issue_resp) = Some (JObj d) ->
  status_code comments_resp <> 200%Z ->
  GithubUtils.fetch_github_issue w repo_url issue_number tr
  = (Py.Returns
       (JObj [(py "title", default (JStr []) (Dict.get d (py "title")));
              (py "body", default (JStr []) (Dict.get d (py "body")));
              (py "comments", JStr [])]), tr').
Proof.
  intros Hst Hbody Hcst.
  unfold GithubUtils.fetch_github_issue, Eff.try_except, GithubUtils.fetch_try.
  unfold mbind, eff_bind, Eff.bind, Eff.lift, requests_get.
  rewrite Hurl. cbn [GithubUtils.unpack2].
  unfold GithubUtils.issue_request in Hissue. rewrite Hissue.
  unfold GithubUtils.comments_request in Hcomments. rewrite Hcomments.
  rewrite Hst. cbn [Z.eqb Pos.eqb negb].
  unfold response_json. rewrite Hbody.
  destruct (Z.eqb_spec (status_code comments_resp) 200) as [E|_]; [contradiction|].
  unfold Eff.ret. cbn [Py.truthy Py.get].
  unfold tr'. rewrite <- app_assoc.
  destruct (Dict.get d (py "title")), (Dict.get d (py "body")); reflexivity.
Qed.

End FetchAfterRequests.

Lemma fetch_not_200_witness :
  GithubUtils.fetch_github_issue
    (Sample.serve (Sample.ok 404 (py "Not Found")) (Sample.ok 404 (py "Not Found"))
                  Sample.silent)
    Sample.react 42 []
  = (Py.Returns (error_record (py "GitHub API error: 404")),
     [HttpGet {| url := py "https://api.github.com/repos/facebook/react/issues/42";
                 headers := []; timeout := Some 10%Z |};
      HttpGet {| url := py "https://api.github.com/repos/facebook/react/issues/42/comments";
                 headers := []; timeout := Some 10%Z |}]).
Proof.
  exact (fetch_not_200
           (Sample.serve (Sample.ok 404 (py "Not Found"))
                         (Sample.ok 404 (py "Not Found")) Sample.silent)
           Sample.react (py "facebook") (py "react") 42
           {| status_code := 404; text := py "Not Found" |}
           {| status_code := 404; text := py "Not Found" |} []
           eq_refl eq_refl eq_refl ltac:(vm_compute; discriminate)).
Defined.

(** C8 fails as stated: the issue endpoint answers 404, the comments
    request times out, and the record reports the timeout, not the
    status. *)
Lemma fetch_not_200_comments_raise :
  let w := Sample.serve (Sample.ok 404 (py "Not Found"))
                        (Py.Raises Sample.read_timeout) Sample.silent in
  http_get w (GithubUtils.issue_request w (py "facebook") (py "react") 42)
  = Sample.ok 404 (py "Not Found")
  /\ fst (GithubUtils.fetch_github_issue w Sample.react 42 [])
     = Py.Returns (error_record (py "Request timeout - GitHub server took too long"))
  /\ fst (GithubUtils.fetch_github_issue w Sample.react 42 [])
     <> Py.Returns (error_record (py "GitHub API error: 404")).
Proof. vm_compute. repeat split; discriminate. Qed.

Lemma fetch_undecodable_issue_witness :
  Json.loads (py "<html>Bad gateway</html>") = None
  /\ fst (GithubUtils.fetch_github_issue
            (Sample.serve (Sample.ok 200 (py "<html>Bad gateway</html>"))
                          (Sample.ok 200 (py "[]")) Sample.silent)
            Sample.react 42 [])
     = Py.Returns (error_record (py "Invalid GitHub URL format")).
Proof.
  split; [reflexivity|].
  exact (f_equal fst
           (fetch_undecodable_issue
              (Sample.serve (Sample.ok 200 (py "<html>Bad gateway</html>"))
                            (Sample.ok 200 (py "[]")) Sample.silent)
              Sample.react (py "facebook") (py "react") 42
              {| status_code := 200; text := py "<html>Bad gateway</html>" |}
              {| status_code := 200; text := py "[]" |} []
              eq_refl eq_refl eq_refl eq_refl eq_refl)).
Defined.

(** C10 fails as stated: the issue endpoint answers 200 with a body that
    is not JSON, the comments request times out, and the timeout is what
    the record reports. *)
Lemma fetch_undecodable_issue_comments_raise :
  let w := Sample.serve (Sample.ok 200 (py "<html>Bad gateway</html>"))
                        (Py.Raises Sample.read_timeout) Sample.silent in
  http_get w (GithubUtils.issue_request w (py "facebook") (py "react") 42)
  = Sample.ok 200 (py "<html>Bad gateway</html>")
  /\ Json.loads (py "<html>Bad gateway</html>") = None
  /\ fst (GithubUtils.fetch_github_issue w Sample.react 42 [])
     = Py.Returns (error_record (py "Request timeout - GitHub server took too long"))
  /\ fst (GithubUtils.fetch_github_issue w Sample.react 42 [])
     <> Py.Returns (error_record (py "Invalid GitHub URL format")).
Proof. vm_compute. repeat split; discriminate. Qed.

Lemma fetch_comments_not_200_witness :
  fst (GithubUtils.fetch_github_issue
         (Sample.serve (Sample.ok 200 (pyq "{'title': 'Crash on startup', 'body': ''}"))
                       (Sample.ok 503 (py "Service Unavailable")) Sample.silent)
         Sample.react 42 [])
  = Py.Returns (JObj [(py "title", JStr (py "Crash on startup"));
                      (py "body", JStr []);
                      (py "comments", JStr [])]).
Proof.
  exact (f_equal fst
           (fetch_comments_not_200
              (Sample.serve
                 (Sample.ok 200 (pyq "{'title': 'Crash on startup', 'body': ''}"))
                 (Sample.ok 503 (py "Service Unavailable")) Sample.silent)
              Sample.react (py "facebook") (py "react") 42
              {| status_code := 200;
                 text := pyq "{'title': 'Crash on startup', 'body': ''}" |}
              {| status_code := 503; text := py "Service Unavailable" |} []
              eq_refl eq_refl eq_refl
              [(py "title", JStr (py "Crash on startup")); (py "body", JStr [])]
              eq_refl eq_refl ltac:(vm_compute; discriminate))).
Defined.

(** C2 fails as stated: a transport failure of the comments request is
    not soft-failed.  The issue endpoint answers 200 with a well-formed
    issue, the comments request times out, and the result is an error
    record. *)
Lemma fetch_comments_transport_failure :
  let w := Sample.serve (Sample.ok 200 (pyq "{'title': 'Crash on startup', 'body': ''}"))
                        (Py.Raises Sample.read_timeout) Sample.silent in
  http_get w (GithubUtils.issue_request w (py "facebook") (py "react") 42)
  = Sample.ok 200 (pyq "{'title': 'Crash on startup', 'body': ''}")
  /\ http_get w (GithubUtils.comments_request w (py "facebook") (py "react") 42)
     = Py.Raises Sample.read_timeout
  /\ fst (GithubUtils.fetch_github_issue w Sample.react 42 [])
     = Py.Returns (error_record (py "Request timeout - GitHub server took too long")).
Proof. vm_compute. repeat split. Qed.

(** *** Failures stay inside the two stages *)

Ltac run_eff :=
  unfold mbind, eff_bind, Eff.bind, Eff.lift, Eff.ret, Eff.try_except,
    requests_get, models_generate_content in *.

Ltac split_scrutinee :=
  match goal with
  | |- context [match ?x with _ => _ end] => destruct x eqn:?
  | H : context [match ?x with _ => _ end] |- _ => destruct x eqn:?
  end.

Lemma fetch_try_returns (w : world) (repo_url : str) (issue_number : Z)
  (tr tr' : list call) (v : json) :
  GithubUtils.fetch_try w repo_url issue_number tr = (Py.Returns v, tr') ->
  failure_shaped v \/ issue_record_shaped v.
Proof.
  unfold GithubUtils.fetch_try. run_eff. intros H.
  repeat (split_scrutinee; try discriminate);
    match goal with H : (_, _) = (_, _) |- _ => injection H as <- <- end;
    solve [ left; eexists; reflexivity
          | right; do 3 eexists; reflexivity ].
Qed.

Lemma fetch_handlers_total (e : Py.exn) :
  exists msg, Eff.dispatch GithubUtils.handlers e = Py.Returns (error_record msg).
Proof.
  unfold GithubUtils.handlers. cbn [Eff.dispatch].
  destruct (Py.is_ValueError e); [eexists; reflexivity|].
  destruct (Py.is_Timeout e); [eexists; reflexivity|].
  destruct (Py.is_RequestException e); eexists; reflexivity.
Qed.

Lemma analyze_handlers_total (e : Py.exn) :
  exists msg details,
    Eff.dispatch Hf.handlers e
    = Py.Returns (JObj [(py "error", JStr msg); (py "details", JStr details)]).
Proof.
  unfold Hf.handlers. cbn [Eff.dispatch].
  destruct (Py.is_JSONDecodeError e); do 2 eexists; reflexivity.
Qed.

Lemma analyze_any_dict (w : world) (issue_data : dict) (tr : list call) :
  Hf.analyze_issue_with_ai_any w (JObj issue_data) tr
  = Hf.analyze_issue_with_ai w issue_data tr.
Proof. reflexivity. Qed.

Lemma analyze_try_returns (w : world) (p : str) (tr tr' : list call) (v : json) :
  Hf.analyze_try w p tr = (Py.Returns v, tr') ->
  v = error_record (py "Incomplete analysis response")
  \/ Py.all_in v Hf.required_keys = Py.Returns true.
Proof.
  unfold Hf.analyze_try. run_eff. intros H.
  repeat (split_scrutinee; try discriminate);
    match goal with H : (_, _) = (_, _) |- _ => injection H as <- <- end.
  - left. reflexivity.
  - right.
    match goal with
    | H : negb ?b = false |- _ => destruct b; [assumption | discriminate H]
    end.
Qed.

(** C4, as amended: [fetch] never raises, and [analyze] never raises on
    an [issue_data] that is a dict.  [fetch] returns what its [try] block
    returned, which is an error record or a record with the three issue
    fields, and an error record when the block raised.  [analyze] returns
    what its [try] block returned, which is the record
    [Incomplete analysis response] or the parsed answer that passed the
    membership test of line 103, and a record with an [error] and a
    [details] field when the block raised. *)
Theorem stages_never_raise (w : world) (repo_url : str) (issue_number : Z)
  (issue_data : dict) (tr : list call) :
  (exists r,
      fst (GithubUtils.fetch_github_issue w repo_url issue_number tr) = Py.Returns r
      /\ (failure_shaped r \/ issue_record_shaped r)
      /\ match fst (GithubUtils.fetch_try w repo_url issue_number tr) with
         | Py.Returns v => r = v
         | Py.Raises _ => failure_shaped r
         end)
  /\ (exists r,
         fst (Hf.analyze_issue_with_ai_any w (JObj issue_data) tr) = Py.Returns r
         /\ match fst (Hf.analyze_try w (Hf.prompt (interp w) issue_data) tr) with
            | Py.Returns v =>
                r = v
                /\ (v = error_record (py "Incomplete analysis response")
                    \/ Py.all_in v Hf.required_keys = Py.Returns true)
            | Py.Raises _ =>
                exists msg details,
                  r = JObj [(py "error", JStr msg); (py "details", JStr details)]
            end).
Proof.
  split.
  - unfold GithubUtils.fetch_github_issue, Eff.try_except.
    destruct (GithubUtils.fetch_try w repo_url issue_number tr) as [[v|e] tr'] eqn:E.
    + exists v. cbn [fst Eff.dispatch_result]. repeat split. eapply fetch_try_returns; eassumption.
    + destruct (fetch_handlers_total e) as [msg Hmsg].
      exists (error_record msg). cbn [fst Eff.dispatch_result]. rewrite Hmsg.
      repeat split; try left; exists msg; reflexivity.
  - rewrite analyze_any_dict. unfold Hf.analyze_issue_with_ai, Eff.try_except.
    destruct (Hf.analyze_try w (Hf.prompt (interp w) issue_data) tr) as [[v|e] tr'] eqn:E.
    + exists v. cbn [fst Eff.dispatch_result]. repeat split.
      eapply analyze_try_returns; eassumption.
    + destruct (analyze_handlers_total e) as (msg & details & Hd).
      eexists. cbn [fst Eff.dispatch_result]. rewrite Hd. split; [reflexivity|]. eauto.
Qed.

(** C4 fails as stated: for an [issue_data] that is not a dict, [None]
    or a string for instance, [analyze] raises to its caller.  The
    exception comes from building the prompt, before the [try] statement
    is entered, and the model is not called. *)
Lemma analyze_raises_without_dict :
  let w := Sample.model_only Sample.silent in
  Hf.analyze_issue_with_ai_any w JNull []
  = (Py.Raises (Py.AttributeError (py "'NoneType' object has no attribute 'get'")), [])
  /\ Hf.analyze_issue_with_ai_any w (JStr (py "Crash on startup")) []
     = (Py.Raises (Py.AttributeError (py "'str' object has no attribute 'get'")), []).
Proof. vm_compute. split; reflexivity. Qed.

(** *** Time bounds of the outbound requests *)

Section Appends.

Variable P : call -> Prop.

Lemma appends_ret {A} (a : A) : Eff.appends P (Eff.ret a).
Proof. intros tr. exists []. cbn. rewrite app_nil_r. auto. Qed.

Lemma appends_lift {A} (o : Py.outcome A) : Eff.appends P (Eff.lift o).
Proof. intros tr. exists []. cbn. rewrite app_nil_r. auto. Qed.

Lemma appends_bind {A B} (m : Eff.M A) (k : A -> Eff.M B) :
  Eff.appends P m -> (forall a, Eff.appends P (k a)) -> Eff.appends P (m ≫= k).
Proof.
  intros Hm Hk tr. unfold mbind, eff_bind, Eff.bind.
  destruct (Hm tr) as (c1 & E1 & F1).
  destruct (m tr) as [[a|e] tr1]; cbn [snd] in E1; subst tr1.
  - destruct (Hk a (tr ++ c1)) as (c2 & E2 & F2).
    exists (c1 ++ c2). rewrite E2, app_assoc. split; [reflexivity|].
    apply Forall_app; auto.
  - exists c1. auto.
Qed.

Lemma appends_try_except {A} (m : Eff.M A) clauses :
  Eff.appends P m -> Eff.appends P (Eff.try_except m clauses).
Proof.
  intros Hm tr. unfold Eff.try_except.
  destruct (Hm tr) as (c1 & E1 & F1).
  destruct (m tr) as [[a|e] tr1]; exists c1; auto.
Qed.

Lemma appends_requests_get w u h t :
  P (HttpGet {| url := u; headers := h; timeout := t |}) ->
  Eff.appends P (requests_get w u h t).
Proof. intros HP tr. eexists [_]. cbn. split; [reflexivity|]. auto. Qed.

Lemma appends_generate_content w r :
  P (GenerateContent r) -> Eff.appends P (models_generate_content w r).
Proof. intros HP tr. eexists [_]. cbn. split; [reflexivity|]. auto. Qed.

End Appends.

Ltac appends_step :=
  first [ apply appends_ret | apply appends_lift
        | apply appends_requests_get | apply appends_generate_content
        | apply appends_try_except
        | apply appends_bind; [|intros ?]
        | match goal with |- Eff.appends _ (if ?c then _ else _) => destruct c end
        | match goal with |- Eff.appends _ (let '(_, _) := ?x in _) => destruct x end ].

Lemma fetch_appends_bounded (w : world) (repo_url : str) (issue_number : Z) :
  Eff.appends (fun c => call_timeout c = Some 10%Z)
    (GithubUtils.fetch_github_issue w repo_url issue_number).
Proof.
  unfold GithubUtils.fetch_github_issue, GithubUtils.fetch_try.
  repeat appends_step; reflexivity.
Qed.

Lemma appends_nothing {A} (m : Eff.M A) (tr : list call) :
  Eff.appends (fun _ => False) m -> snd (m tr) = tr.
Proof.
  intros H. destruct (H tr) as ([|c calls] & E & F).
  - rewrite E. apply app_nil_r.
  - inversion F; contradiction.
Qed.

Lemma try_except_trace {A} (m : Eff.M A) clauses (tr : list call) :
  snd (Eff.try_except m clauses tr) = snd (m tr).
Proof. unfold Eff.try_except. destruct (m tr) as [[a|e] tr']; reflexivity. Qed.

Lemma generate_content_then {A} (w : world) (r : model_request)
  (k : model_response -> Eff.M A) (tr : list call) :
  (forall a, Eff.appends (fun _ => False) (k a)) ->
  snd ((models_generate_content w r ≫= k) tr) = tr ++ [GenerateContent r].
Proof.
  intros Hk. unfold mbind, eff_bind, Eff.bind, models_generate_content.
  destruct (generate_content w r) as [a|e]; [|reflexivity].
  apply appends_nothing, Hk.
Qed.

(** C6, as amended: every request [fetch] makes, the comments request
    included, is made with the explicit bound [timeout=10]; the one
    request [analyze] makes carries no bound of its own. *)
Theorem request_time_bounds (w : world) (repo_url : str) (issue_number : Z)
  (issue_data : dict) (tr : list call) :
  (exists calls,
      snd (GithubUtils.fetch_github_issue w repo_url issue_number tr) = tr ++ calls
      /\ Forall (fun c => call_timeout c = Some 10%Z) calls)
  /\ snd (Hf.analyze_issue_with_ai w issue_data tr)
     = tr ++ [GenerateContent (Hf.analysis_request w issue_data)]
  /\ call_timeout (GenerateContent (Hf.analysis_request w issue_data)) = None.
Proof.
  split; [|split; [|reflexivity]].
  - apply fetch_appends_bounded.
  - unfold Hf.analyze_issue_with_ai. rewrite try_except_trace.
    unfold Hf.analyze_try. fold (Hf.analysis_request w issue_data).
    apply generate_content_then. intros a. repeat appends_step.
Qed.

(** C6 fails as stated: in a run where both requests are made, the
    comments request is the second call and carries [timeout=10]. *)
Lemma comments_request_is_bounded :
  let w := Sample.serve (Sample.ok 200 (py "{}")) (Sample.ok 200 (py "[]"))
                        Sample.silent in
  exists r,
    nth_error (snd (GithubUtils.fetch_github_issue w Sample.react 42 [])) 1
    = Some (HttpGet r)
    /\ url r = py "https://api.github.com/repos/facebook/react/issues/42/comments"
    /\ timeout r = Some 10%Z
    /\ timeout r <> None.
Proof. vm_compute. eexists. repeat split. discriminate. Qed.

(** *** Cache keys *)

(** C1 (defect of the code): the key of a repository whose name has an
    underscore and the key of a URL with one path segment more are the
    same string, although [_get_cache_key] is documented to generate a
    unique key. *)
Theorem cache_key_collision :
  py "https://github.com/a/b_c" <> py "https://github.com/a/b/c"
  /\ CacheUtils._get_cache_key (py "https://github.com/a/b_c") 1
     = py "https__github.com_a_b_c_issue_1.json"
  /\ CacheUtils._get_cache_key (py "https://github.com/a/b/c") 1
     = py "https__github.com_a_b_c_issue_1.json".
Proof. vm_compute. repeat split. discriminate. Qed.

Lemma py_injective (a b : string) : py a = py b -> a = b.
Proof.
  unfold py. revert b. induction a as [|x a IH]; intros [|y b]; cbn; try done.
  intros H. inversion H as [[Hx Ht]].
  apply (f_equal ascii_of_N) in Hx. rewrite !ascii_N_embedding in Hx.
  f_equal; auto.
Qed.

Lemma to_int_not_nil (z : Z) : Z.to_int z <> Decimal.Pos Decimal.Nil /\ Z.to_int z <> Decimal.Neg Decimal.Nil.
Proof.
  rewrite <- (DecimalZ.of_to z), DecimalZ.to_of.
  destruct (Z.to_int z) as [d|d]; cbn.
  - split; [|discriminate]. intros [= H]. revert H. apply DecimalFacts.unorm_nonnil.
  - destruct (Decimal.nzhead d) eqn:E; split; try discriminate.
Qed.

Lemma of_Z_injective (m n : Z) : PyStr.of_Z m = PyStr.of_Z n -> m = n.
Proof.
  unfold PyStr.of_Z. intros H. apply py_injective in H.
  apply (f_equal NilZero.int_of_string) in H.
  rewrite !NilZero.isi in H by apply to_int_not_nil.
  inversion H as [H']. apply DecimalZ.to_int_inj, H'.
Qed.

(** The part of C1 that holds: for one repository URL, different issue
    numbers have different keys. *)
Lemma cache_key_issue_injective (repo_url : str) (m n : Z) :
  CacheUtils._get_cache_key repo_url m = CacheUtils._get_cache_key repo_url n -> m = n.
Proof.
  unfold CacheUtils._get_cache_key. intros H.
  apply app_inv_head, app_inv_head, app_inv_tail in H.
  apply of_Z_injective, H.
Qed.

(** *** Validation of the model's answer *)

Example analyze_fenced_example :
  fst (Hf.analyze_issue_with_ai
         (Sample.model_only (Sample.says (Sample.fenced (py "json") Sample.example_object)))
         Sample.issue42 [])
  = Py.Returns Sample.example_record.
Proof. vm_compute. reflexivity. Qed.

(** C9 (defect of the code): the answer is valid JSON, a list of the
    five field names, so it has none of the five fields; the membership
    test of line 103 finds each name as an element of the list, and the
    list itself is returned in place of the error record. *)
Theorem analyze_accepts_list_of_names :
  let answer :=
    pyq "['summary','type','priority_score','suggested_labels','potential_impact']" in
  let out :=
    fst (Hf.analyze_issue_with_ai (Sample.model_only (Sample.says answer))
           Sample.issue42 []) in
  Json.loads answer = Some (JArr (map JStr Hf.required_keys))
  /\ out = Py.Returns (JArr (map JStr Hf.required_keys))
  /\ out <> Py.Returns (error_record (py "Incomplete analysis response")).
Proof. vm_compute. repeat split. discriminate. Qed.

(** C5 fails as stated, twice: with a language tag other than [json]
    the tag is handed to the decoder with the content, and with a fence
    marker inside a string of the object the content is cut there.  Both
    answers are fenced and hold an object with the five fields, and both
    end in the parse-failure record. *)
Lemma analyze_fenced_rejected :
  let inner :=
    pyq "{'summary':'use ``` fences','type':'bug','priority_score':'3 - x','suggested_labels':['a'],'potential_impact':'i'}" in
  Json.loads Sample.example_object = Some Sample.example_record
  /\ fst (Hf.analyze_issue_with_ai
            (Sample.model_only
               (Sample.says (Sample.fenced (py "JSON") Sample.example_object)))
            Sample.issue42 [])
     = Py.Returns Sample.parse_failure
  /\ (exists d, Json.loads inner = Some (JObj d)
                /\ forallb (Dict.mem d) Hf.required_keys = true)
  /\ fst (Hf.analyze_issue_with_ai
            (Sample.model_only (Sample.says (Sample.fenced (py "json") inner)))
            Sample.issue42 [])
     = Py.Returns Sample.parse_failure.
Proof. vm_compute. repeat split. eexists. repeat split. Qed.

(** *** What the decoder consumes *)

Lemma startswith_app (p s : str) : PyStr.startswith (p ++ s) p = true.
Proof.
  induction p as [|a p IH]; cbn; [reflexivity|].
  rewrite N.eqb_refl. exact IH.
Qed.

Lemma startswith_true (s p : str) :
  PyStr.startswith s p = true -> s = p ++ skipn (length p) s.
Proof.
  revert s. induction p as [|a p IH]; intros [|b s]; cbn; try done.
  intros H. apply andb_true_iff in H as [E H]. apply N.eqb_eq in E. subst b.
  f_equal. apply IH, H.
Qed.

Lemma consumed_app (p s r : str) : consumed s r -> consumed (p ++ s) r.
Proof. intros (w & c & -> & Hc). exists (p ++ w), c. rewrite <- app_assoc. auto. Qed.

Lemma consumed_cons (a : N) (s r : str) : consumed s r -> consumed (a :: s) r.
Proof. apply (consumed_app [a]). Qed.

Lemma skip_ws_suffix (s : str) : exists ws, s = ws ++ Json.skip_ws s /\ Forall (fun c => Json.is_ws c = true) ws.
Proof.
  induction s as [|c s (ws & E & F)]; cbn.
  - exists []. auto.
  - destruct (Json.is_ws c) eqn:W.
    + exists (c :: ws). cbn. rewrite <- E. auto.
    + exists []. auto.
Qed.

Lemma push_some c r x rest : Json.push c r = Some (x, rest) -> exists x', r = Some (x', rest) /\ x = c :: x'.
Proof. destruct r as [[x' rest']|]; cbn; intros H; inversion H; eauto. Qed.

Lemma scanstring_consumed_n (n : nat) : forall s x r, (length s <= n)%nat ->
  Json.scanstring s = Some (x, r) -> exists w, s = w ++ 34 :: r.
Proof.
  induction n as [|n IH]; intros s x r Hlen H.
  - destruct s; [discriminate | cbn in Hlen; lia].
  - destruct s as [|c s1]; [discriminate|]. cbn [Json.scanstring] in H.
    cbn in Hlen.
    destruct (c =? 34) eqn:Eq.
    { apply N.eqb_eq in Eq. subst c. inversion H; subst. exists []. reflexivity. }
    destruct (c <? 32); [discriminate|].
    destruct (c =? 92).
    2:{ apply push_some in H as (x' & H & _). apply IH in H as [w ->]; [|lia].
        exists (c :: w). reflexivity. }
    destruct s1 as [|e s2]; [discriminate|]. cbn in Hlen.
    destruct (e =? 117).
    2:{ destruct (Json.backslash e); [|discriminate].
        apply push_some in H as (x' & H & _). apply IH in H as [w ->]; [|lia].
        exists (c :: e :: w). reflexivity. }
    destruct s2 as [|h1 [|h2 [|h3 [|h4 s3]]]]; try discriminate. cbn in Hlen.
    destruct (Json.hex4 h1 h2 h3 h4) as [u|]; [|discriminate].
    assert (Hplain : forall x, Json.push u (Json.scanstring s3) = Some (x, r) ->
                     exists w, c :: e :: h1 :: h2 :: h3 :: h4 :: s3 = w ++ 34 :: r).
    { intros x0 Hp. apply push_some in Hp as (x' & Hp & _).
      apply IH in Hp as [w ->]; [|lia].
      exists (c :: e :: h1 :: h2 :: h3 :: h4 :: w). reflexivity. }
    destruct s3 as [|b [|e' [|h5 [|h6 [|h7 [|h8 s5]]]]]]; try (eapply Hplain; exact H).
    destruct (Json.is_high_surrogate u && (b =? 92) && (e' =? 117));
      [|eapply Hplain; exact H].
    destruct (Json.hex4 h5 h6 h7 h8) as [u2|]; [|discriminate].
    destruct (Json.is_low_surrogate u2); [|eapply Hplain; exact H].
    apply push_some in H as (x' & H & _). apply IH in H as [w ->]; [|cbn in Hlen; lia].
    exists (c :: e :: h1 :: h2 :: h3 :: h4 :: b :: e' :: h5 :: h6 :: h7 :: h8 :: w).
    reflexivity.
Qed.

Lemma scanstring_consumed (s x r : str) :
  Json.scanstring s = Some (x, r) -> exists w, s = w ++ 34 :: r.
Proof. apply (scanstring_consumed_n (length s)). lia. Qed.

Lemma ends_digit_app (p w : str) : ends_digit w -> ends_digit (p ++ w).
Proof. intros (pre & d & -> & Hd). exists (p ++ pre), d. rewrite <- app_assoc. auto. Qed.

Lemma digits_end (ds : str) :
  Forall (fun c => Json.is_digit c = true) ds -> ds <> [] -> ends_digit ds.
Proof.
  intros F Hne. destruct ds as [|d ds _] using rev_ind; [congruence|].
  apply Forall_app in F as [_ F]. inversion F; subst.
  exists ds, d. auto.
Qed.

Lemma span_digits_spec (s ds r : str) :
  Json.span_digits s = (ds, r) ->
  s = ds ++ r /\ Forall (fun c => Json.is_digit c = true) ds.
Proof.
  revert ds r. induction s as [|c s IH]; intros ds r; cbn.
  - intros H. inversion H. auto.
  - destruct (Json.is_digit c) eqn:D.
    + destruct (Json.span_digits s) as [ds' r']. intros H. inversion H; subst.
      destruct (IH ds' r eq_refl) as [-> F]. auto.
    + intros H. inversion H. auto.
Qed.

Lemma match_int_spec (s ip r : str) :
  Json.match_int s = Some (ip, r) -> s = ip ++ r /\ ends_digit ip.
Proof.
  destruct s as [|c s]; cbn; [discriminate|].
  destruct (c =? 48) eqn:Z0.
  - intros H. inversion H; subst. split; [reflexivity|].
    exists [], c. apply N.eqb_eq in Z0. subst. auto.
  - destruct (Json.is_digit c) eqn:D; [|discriminate].
    destruct (Json.span_digits s) as [ds r'] eqn:E. intros H. inversion H; subst.
    apply span_digits_spec in E as [-> F]. split; [reflexivity|].
    apply digits_end; [constructor; auto | discriminate].
Qed.

Lemma match_frac_spec (s fp r : str) :
  Json.match_frac s = (fp, r) -> s = fp ++ r /\ (fp = [] \/ ends_digit fp).
Proof.
  unfold Json.match_frac. destruct s as [|c s]; [intros H; inversion H; auto|].
  destruct (c =? 46); [|intros H; inversion H; auto].
  destruct (Json.span_digits s) as [[|d ds] r'] eqn:E; intros H; inversion H; subst; auto.
  apply span_digits_spec in E as [-> F]. split; [reflexivity|]. right.
  apply (ends_digit_app [c]), digits_end; [assumption | discriminate].
Qed.

Lemma match_exp_spec (s ep r : str) :
  Json.match_exp s = (ep, r) -> s = ep ++ r /\ (ep = [] \/ ends_digit ep).
Proof.
  unfold Json.match_exp. destruct s as [|c s]; [intros H; inversion H; auto|].
  destruct ((c =? 101) || (c =? 69)); [|intros H; inversion H; auto].
  destruct s as [|g s]; [intros H; inversion H; auto|].
  destruct ((g =? 45) || (g =? 43)).
  - destruct (Json.span_digits s) as [[|d ds] r'] eqn:E; intros H; inversion H; subst; auto.
    apply span_digits_spec in E as [-> F]. split; [reflexivity|]. right.
    apply (ends_digit_app [c; g]), digits_end; [assumption | discriminate].
  - destruct (Json.span_digits (g :: s)) as [[|d ds] r'] eqn:E; intros H; inversion H; subst; auto.
    apply span_digits_spec in E as [E F]. rewrite E. split; [reflexivity|]. right.
    apply (ends_digit_app [c]), digits_end; [assumption | discriminate].
Qed.

Lemma ends_digit_consumed (w r : str) : ends_digit w -> consumed (w ++ r) r.
Proof.
  intros (pre & d & -> & Hd). exists pre, d. rewrite <- app_assoc. split; [reflexivity|].
  unfold Json.is_digit in Hd. apply andb_true_iff in Hd as [_ Hd].
  apply N.leb_le in Hd. lia.
Qed.

Lemma match_number_consumed (s : str) (v : json) (r : str) :
  Json.match_number s = Some (v, r) -> consumed s r.
Proof.
  unfold Json.match_number.
  assert (Hcore : forall s0,
    match Json.match_int s0 with
    | Some (ip, r1) =>
        let '(fp, r2) := Json.match_frac r1 in
        let '(ep, r3) := Json.match_exp r2 in Some r3
    | None => None
    end = Some r -> consumed s0 r).
  { intros s0. destruct (Json.match_int s0) as [[ip r1]|] eqn:Ei; [|discriminate].
    destruct (Json.match_frac r1) as [fp r2] eqn:Ef.
    destruct (Json.match_exp r2) as [ep r3] eqn:Ee.
    intros H. inversion H; subst r3.
    apply match_int_spec in Ei as [-> Hi].
    apply match_frac_spec in Ef as [-> Hf].
    apply match_exp_spec in Ee as [-> He].
    destruct He as [->|He].
    - destruct Hf as [->|Hf].
      + cbn. apply ends_digit_consumed, Hi.
      + cbn. apply consumed_app, ends_digit_consumed, Hf.
    - apply consumed_app, consumed_app, ends_digit_consumed, He. }
  intros H. 
  assert (Hs : exists p s0, s = p ++ s0 /\
    match Json.match_int s0 with
    | Some (ip, r1) =>
        let '(fp, r2) := Json.match_frac r1 in
        let '(ep, r3) := Json.match_exp r2 in Some r3
    | None => None
    end = Some r).
  { destruct s as [|c s].
    - exists [], []. split; [reflexivity|]. cbn in *. discriminate.
    - destruct (c =? 45).
      + exists [c], s. split; [reflexivity|].
        destruct (Json.match_int s) as [[ip r1]|]; [|discriminate].
        destruct (Json.match_frac r1) as [fp r2], (Json.match_exp r2) as [ep r3].
        destruct fp, ep; inversion H; reflexivity.
      + exists [], (c :: s). split; [reflexivity|].
        destruct (Json.match_int (c :: s)) as [[ip r1]|]; [|discriminate].
        destruct (Json.match_frac r1) as [fp r2], (Json.match_exp r2) as [ep r3].
        destruct fp, ep; inversion H; reflexivity. }
  destruct Hs as (p & s0 & -> & Hs). apply consumed_app, Hcore, Hs.
Qed.

Lemma literal_consumed (word : string) (v v' : json) (s r : str) :
  (exists c, last (py word) = Some c /\ c <> 96) ->
  Json.literal word v s = Some (v', r) -> consumed s r.
Proof.
  intros (c & E & Hc). apply last_Some in E as [pre E]. unfold Json.literal.
  destruct (PyStr.startswith s (py word)) eqn:Hs; [|discriminate].
  intros H. inversion H; subst.
  apply startswith_true in Hs.
  assert (Hlen : length (py word) = String.length word).
  { unfold py. rewrite length_map. clear. induction word; cbn; auto. }
  rewrite Hlen in Hs. rewrite Hs at 1. rewrite E, <- app_assoc.
  exists pre, c. auto.
Qed.

Lemma first_of_some {A} (a b : option A) (x : A) :
  Json.first_of a b = Some x -> a = Some x \/ b = Some x.
Proof. destruct a; cbn; auto. Qed.

Lemma scan_atom_consumed (s : str) (v : json) (r : str) :
  Json.scan_atom s = Some (v, r) -> consumed s r.
Proof.
  unfold Json.scan_atom. intros H.
  repeat (apply first_of_some in H as [H|H]);
  first [ eapply match_number_consumed; eassumption
        | eapply literal_consumed; [|eassumption];
          eexists; split; [vm_compute; reflexivity | discriminate] ].
Qed.

Lemma consumed_after_ws (s r : str) : consumed (Json.skip_ws s) r -> consumed s r.
Proof.
  destruct (skip_ws_suffix s) as (ws & E & _). intros H. rewrite E.
  apply consumed_app, H.
Qed.

Lemma consumed_at (s : str) (c : N) (r : str) :
  Json.skip_ws s = c :: r -> c <> 96 -> consumed s r.
Proof.
  intros E Hc. apply consumed_after_ws. rewrite E. exists [], c. auto.
Qed.

Lemma consumed_step (s m r : str) : consumed s m -> consumed m r -> consumed s r.
Proof.
  intros (w & c & -> & _) H. apply consumed_app, (consumed_cons c), H.
Qed.

Lemma scan_consumed (f : nat) :
  (forall s v r, Json.scan_once f s = Some (v, r) -> consumed s r)
  /\ (forall s vs r, Json.scan_items f s = Some (vs, r) -> consumed s r)
  /\ (forall s kvs r, Json.scan_pairs f s = Some (kvs, r) -> consumed s r).
Proof.
  induction f as [|f (IHo & IHi & IHp)]; [repeat split; discriminate|].
  repeat split.
  - intros s v r. cbn [Json.scan_once].
    destruct s as [|c s1]; [discriminate|].
    destruct (c =? 34).
    { destruct (Json.scanstring s1) as [[x r']|] eqn:E; [|discriminate].
      intros H. inversion H; subst. apply scanstring_consumed in E as [w ->].
      exists (c :: w), 34. split; [reflexivity | discriminate]. }
    destruct (c =? 123).
    { destruct (Json.skip_ws s1) as [|c2 r2] eqn:E; [discriminate|].
      destruct (c2 =? 125) eqn:E2.
      - intros H. inversion H; subst. apply consumed_cons.
        apply (consumed_at _ c2); [assumption|]. apply N.eqb_eq in E2. lia.
      - destruct (Json.scan_pairs f (c2 :: r2)) as [[kvs r']|] eqn:Ep; [|discriminate].
        intros H. inversion H; subst. apply consumed_cons, consumed_after_ws.
        rewrite E. eapply IHp, Ep. }
    destruct (c =? 91).
    { destruct (Json.skip_ws s1) as [|c2 r2] eqn:E; [discriminate|].
      destruct (c2 =? 93) eqn:E2.
      - intros H. inversion H; subst. apply consumed_cons.
        apply (consumed_at _ c2); [assumption|]. apply N.eqb_eq in E2. lia.
      - destruct (Json.scan_items f (c2 :: r2)) as [[vs r']|] eqn:Ep; [|discriminate].
        intros H. inversion H; subst. apply consumed_cons, consumed_after_ws.
        rewrite E. eapply IHi, Ep. }
    apply scan_atom_consumed.
  - intros s vs r. cbn [Json.scan_items].
    destruct (Json.scan_once f s) as [[v r0]|] eqn:E; [|discriminate].
    apply IHo in E.
    destruct (Json.skip_ws r0) as [|c r1] eqn:Ew; [discriminate|].
    destruct (c =? 93) eqn:E1.
    { intros H. inversion H; subst. apply (consumed_step _ _ _ E).
      apply (consumed_at _ c); [assumption|]. apply N.eqb_eq in E1. lia. }
    destruct (c =? 44) eqn:E2; [|discriminate].
    destruct (Json.scan_items f (Json.skip_ws r1)) as [[vs' r2]|] eqn:Ei; [|discriminate].
    intros H. inversion H; subst. apply (consumed_step _ _ _ E).
    apply (consumed_step _ r1).
    + apply (consumed_at _ c); [assumption|]. apply N.eqb_eq in E2. lia.
    + apply consumed_after_ws. eapply IHi, Ei.
  - intros s kvs r. cbn [Json.scan_pairs].
    destruct s as [|q s1]; [discriminate|].
    destruct (q =? 34); [|discriminate].
    destruct (Json.scanstring s1) as [[k r0]|] eqn:Es; [|discriminate].
    apply scanstring_consumed in Es as [w ->].
    destruct (Json.skip_ws r0) as [|colon r1] eqn:Ew; [discriminate|].
    destruct (colon =? 58) eqn:Ec; [|discriminate].
    destruct (Json.scan_once f (Json.skip_ws r1)) as [[v r2]|] eqn:Eo; [|discriminate].
    apply IHo in Eo.
    destruct (Json.skip_ws r2) as [|c r3] eqn:Ew2; [discriminate|].
    assert (Hpre : forall r', consumed r2 r' -> consumed (q :: w ++ 34 :: r0) r').
    { intros r' H.
      replace (q :: w ++ 34 :: r0) with ((q :: w ++ [34]) ++ r0)
        by (cbn; rewrite <- app_assoc; reflexivity).
      apply (consumed_app (q :: w ++ [34])).
      eapply consumed_step; [|exact H].
      eapply consumed_step; [|apply consumed_after_ws, Eo].
      apply (consumed_at _ colon); [assumption|]. apply N.eqb_eq in Ec. lia. }
    destruct (c =? 125) eqn:E1.
    { intros H. inversion H; subst. apply Hpre.
      apply (consumed_at _ c); [assumption|]. apply N.eqb_eq in E1. lia. }
    destruct (c =? 44) eqn:E2; [|discriminate].
    destruct (Json.scan_pairs f (Json.skip_ws r3)) as [[kvs' r4]|] eqn:Ep; [|discriminate].
    intros H. inversion H; subst. apply Hpre.
    apply (consumed_step _ r3).
    + apply (consumed_at _ c); [assumption|]. apply N.eqb_eq in E2. lia.
    + apply consumed_after_ws. eapply IHp, Ep.
Qed.

Lemma skip_ws_nil (r : str) :
  Json.skip_ws r = [] -> Forall (fun c => Json.is_ws c = true) r.
Proof.
  induction r as [|c r IH]; cbn; [constructor|].
  destruct (Json.is_ws c) eqn:W; [|discriminate]. auto.
Qed.

Lemma loads_scanned (s : str) (v : json) :
  Json.loads s = Some v ->
  exists r, Json.scan_once (S (length s)) (Json.skip_ws s) = Some (v, r)
            /\ Json.skip_ws r = [].
Proof.
  unfold Json.loads. destruct (PyStr.startswith s [65279]); [discriminate|].
  destruct (Json.scan_once _ _) as [[v' r]|]; [|discriminate].
  destruct (Json.skip_ws r) eqn:E; [|discriminate].
  intros H. inversion H; subst. eauto.
Qed.

(** A text that decodes does not end in a backtick. *)
Lemma loads_last (s : str) (v : json) : Json.loads s = Some v -> last s <> Some 96.
Proof.
  intros H. apply loads_scanned in H as (r & H & Hr).
  apply scan_consumed, consumed_after_ws in H as (w & c & -> & Hc).
  apply skip_ws_nil in Hr.
  rewrite last_app, last_cons.
  destruct (last r) as [x|] eqn:E.
  - apply last_Some_elem_of in E. rewrite Forall_forall in Hr.
    apply Hr in E. intros [= ->]. discriminate.
  - congruence.
Qed.

(** A text that decodes does not start with the letters [json]. *)
Lemma loads_not_tagged (s : str) (v : json) :
  Json.loads s = Some v -> PyStr.startswith s (py "json") = false.
Proof.
  intros H. destruct (PyStr.startswith s (py "json")) eqn:E; [|reflexivity].
  apply startswith_true in E.
  set (r := skipn (length (py "json")) s) in E. clearbody r. subst s.
  apply loads_scanned in H as (r' & H & _). vm_compute in H. discriminate H.
Qed.

Lemma fence_split (b rest : str) :
  PyStr.contains b Hf.fence = false -> last b <> Some 96 ->
  exists more, PyStr.split_from 0 (b ++ Hf.fence ++ rest) Hf.fence = b :: more.
Proof.
  change Hf.fence with [96; 96; 96].
  induction b as [|c b IH]; intros Hno Hlast.
  - eexists. cbn. reflexivity.
  - cbn [PyStr.contains] in Hno. apply orb_false_iff in Hno as [Hhere Hno].
    assert (Hb : last b <> Some 96).
    { destruct b as [|c2 b]; [discriminate|]. rewrite last_cons_cons in Hlast. exact Hlast. }
    destruct (IH Hno Hb) as [more Hmore].
    exists more. cbn [app PyStr.split_from] in *.
    assert (Hstart : PyStr.startswith (c :: b ++ 96 :: 96 :: 96 :: rest) [96; 96; 96] = false).
    { cbn [PyStr.startswith] in *.
      destruct (N.eqb_spec 96 c) as [<-|]; [|reflexivity].
      destruct b as [|c2 b]; [contradiction Hlast; reflexivity|].
      cbn [app]. destruct (N.eqb_spec 96 c2) as [<-|]; [|reflexivity].
      destruct b as [|c3 b]; [contradiction Hlast; reflexivity|].
      cbn [app]. destruct (N.eqb_spec 96 c3) as [<-|]; [|reflexivity].
      cbn in Hhere. discriminate. }
    rewrite Hstart, Hmore. reflexivity.
Qed.

Lemma fenced_split (tag content rest : str) :
  tag = [] \/ tag = py "json" ->
  PyStr.contains content Hf.fence = false -> last content <> Some 96 ->
  exists more,
    PyStr.split (Hf.fence ++ tag ++ content ++ Hf.fence ++ rest) Hf.fence
    = [] :: (tag ++ content) :: more.
Proof.
  intros Htag Hno Hlast.
  destruct (fence_split content rest Hno Hlast) as [more Hmore].
  exists more. unfold PyStr.split.
  change (Hf.fence ++ tag ++ content ++ Hf.fence ++ rest)
    with (96 :: 96 :: 96 :: tag ++ content ++ Hf.fence ++ rest).
  change (PyStr.split_from 0 (96 :: 96 :: 96 :: tag ++ content ++ Hf.fence ++ rest) Hf.fence)
    with ([] :: PyStr.split_from 0 (tag ++ content ++ Hf.fence ++ rest) Hf.fence).
  f_equal. destruct Htag as [->| ->].
  - exact Hmore.
  - change (py "json" ++ content ++ Hf.fence ++ rest)
      with (106 :: 115 :: 111 :: 110 :: content ++ Hf.fence ++ rest).
    change Hf.fence with [96; 96; 96] in *.
    cbn [PyStr.split_from PyStr.startswith N.eqb Pos.eqb andb].
    rewrite Hmore. reflexivity.
Qed.

Lemma strip_fence_fenced (tag content rest : str) (v : json) :
  tag = [] \/ tag = py "json" ->
  PyStr.contains content Hf.fence = false ->
  Json.loads content = Some v ->
  Hf.strip_fence (Hf.fence ++ tag ++ content ++ Hf.fence ++ rest) = Py.Returns content.
Proof.
  intros Htag Hno Hv. unfold Hf.strip_fence.
  rewrite startswith_app.
  destruct (fenced_split tag content rest Htag Hno (loads_last _ _ Hv)) as [more ->].
  cbn [Py.item nth_error mbind outcome_bind Py.bind].
  destruct Htag as [->| ->].
  - cbn [app]. rewrite (loads_not_tagged _ _ Hv). reflexivity.
  - rewrite startswith_app. reflexivity.
Qed.

Lemma all_in_object (d : dict) (keys : list str) :
  Py.all_in (JObj d) keys = Py.Returns (forallb (Dict.mem d) keys).
Proof.
  induction keys as [|k keys IH]; cbn; [reflexivity|].
  destruct (Dict.mem d k); [exact IH | reflexivity].
Qed.

Section Analyze.

Variables (w : world) (issue_data : dict) (tr : list call) (t : str).

Hypothesis Hanswer :
  generate_content w (Hf.analysis_request w issue_data)
  = Py.Returns {| response_text := Some t |}.

Lemma analyze_after_answer :
  Hf.analyze_issue_with_ai w issue_data tr
  = (Eff.dispatch_result Hf.handlers
       (s ← Hf.strip_fence (PyStr.strip t);
        result ← Hf.json_loads s;
        complete ← Py.all_in result Hf.required_keys;
        if negb complete
        then Py.Returns (error_record (py "Incomplete analysis response"))
        else Py.Returns result),
     tr ++ [GenerateContent (Hf.analysis_request w issue_data)]).
Proof.
  unfold Hf.analyze_issue_with_ai, Eff.try_except, Hf.analyze_try.
  fold (Hf.analysis_request w issue_data).
  unfold mbind, eff_bind, Eff.bind, models_generate_content.
  rewrite Hanswer. unfold Eff.lift, Hf.text_strip. cbn [response_text].
  unfold outcome_bind, Py.bind, Eff.dispatch_result.
  destruct (Hf.strip_fence (PyStr.strip t)) as [s|e]; [|reflexivity].
  destruct (Hf.json_loads s) as [result|e]; [|reflexivity].
  destruct (Py.all_in result Hf.required_keys) as [[|]|e]; reflexivity.
Qed.

End Analyze.

(** C5, as amended: when the stripped answer is a fence, no tag or the
    tag [json], a content that holds no further fence marker and decodes
    to an object with the five fields, a closing fence and anything after
    it, [analyze] returns the decoded object.  An instance is the fenced
    object of the specification, whose [type] is ["bug"]. *)
Theorem analyze_fenced_object (w : world) (issue_data : dict) (tr : list call)
  (t tag content rest : str) (d : dict) :
  generate_content w (Hf.analysis_request w issue_data)
  = Py.Returns {| response_text := Some t |} ->
  PyStr.strip t = Hf.fence ++ tag ++ content ++ Hf.fence ++ rest ->
  tag = [] \/ tag = py "json" ->
  PyStr.contains content Hf.fence = false ->
  Json.loads content = Some (JObj d) ->
  forallb (Dict.mem d) Hf.required_keys = true ->
  Hf.analyze_issue_with_ai w issue_data tr
  = (Py.Returns (JObj d), tr ++ [GenerateContent (Hf.analysis_request w issue_data)]).
Proof.
  intros Hanswer Hstrip Htag Hno Hd Hkeys.
  rewrite (analyze_after_answer w issue_data tr t Hanswer). f_equal.
  rewrite Hstrip, (strip_fence_fenced tag content rest (JObj d) Htag Hno Hd).
  cbn [mbind outcome_bind Py.bind]. unfold Hf.json_loads. rewrite Hd.
  cbn [mbind outcome_bind Py.bind]. rewrite all_in_object, Hkeys. reflexivity.
Qed.

Lemma analyze_fenced_object_witness :
  let t := Sample.fenced (py "json") Sample.example_object in
  let w := Sample.model_only (Sample.says t) in
  Hf.analyze_issue_with_ai w Sample.issue42 []
  = (Py.Returns Sample.example_record,
     [GenerateContent (Hf.analysis_request w Sample.issue42)])
  /\ Py.get Sample.example_record (py "type") JNull = Py.Returns (JStr (py "bug")).
Proof.
  split; [|reflexivity].
  exact (analyze_fenced_object
           (Sample.model_only (Sample.says (Sample.fenced (py "json") Sample.example_object)))
           Sample.issue42 []
           (Sample.fenced (py "json") Sample.example_object)
           (py "json") ([10] ++ Sample.example_object ++ [10]) []
           [(py "summary", JStr (py "s")); (py "type", JStr (py "bug"));
            (py "priority_score", JStr (py "3 - x"));
            (py "suggested_labels", JArr [JStr (py "a")]);
            (py "potential_impact", JStr (py "i"))]
           eq_refl eq_refl (or_intror eq_refl) eq_refl eq_refl eq_refl).
Defined.

(** The part of C9 the code gets right: an object that lacks one of the
    five fields is reported as incomplete. *)
Lemma analyze_incomplete_object (w : world) (issue_data : dict) (tr : list call)
  (t s : str) (d : dict) (missing : str) :
  generate_content w (Hf.analysis_request w issue_data)
  = Py.Returns {| response_text := Some t |} ->
  Hf.strip_fence (PyStr.strip t) = Py.Returns s ->
  Json.loads s = Some (JObj d) ->
  In missing Hf.required_keys -> Dict.mem d missing = false ->
  fst (Hf.analyze_issue_with_ai w issue_data tr)
  = Py.Returns (error_record (py "Incomplete analysis response")).
Proof.
  intros Hanswer Hs Hd Hin Hmiss.
  rewrite (analyze_after_answer w issue_data tr t Hanswer). cbn [fst].
  rewrite Hs. cbn [mbind outcome_bind Py.bind]. unfold Hf.json_loads. rewrite Hd.
  cbn [mbind outcome_bind Py.bind]. rewrite all_in_object.
  assert (forallb (Dict.mem d) Hf.required_keys = false) as ->; [|reflexivity].
  apply not_true_is_false. intros Hall. rewrite forallb_forall in Hall.
  apply Hall in Hin. congruence.
Qed.

Example analyze_missing_impact :
  fst (Hf.analyze_issue_with_ai
         (Sample.model_only
            (Sample.says (pyq "{'summary':'s','type':'bug','priority_score':'3 - x','suggested_labels':['a']}")))
         Sample.issue42 [])
  = Py.Returns (error_record (py "Incomplete analysis response")).
Proof. vm_compute. reflexivity. Qed.

(** *** Encoding, then decoding *)

Ltac bool_cases :=
  repeat match goal with
  | |- context [(?a =? ?b)%N] => destruct (N.eqb_spec a b)
  | |- context [(?a <=? ?b)%N] => destruct (N.leb_spec a b)
  | |- context [(?a <? ?b)%N] => destruct (N.ltb_spec a b)
  | H : context [(?a =? ?b)%N] |- _ => destruct (N.eqb_spec a b)
  | H : context [(?a <=? ?b)%N] |- _ => destruct (N.leb_spec a b)
  | H : context [(?a <? ?b)%N] |- _ => destruct (N.ltb_spec a b)
  end; cbn [andb orb negb] in *.

Lemma hexval_hexdigit (n : N) : n < 16 -> Json.hexval (Json.hexdigit n) = Some n.
Proof.
  intros H. unfold Json.hexval, Json.hexdigit.
  bool_cases; try lia; f_equal; lia.
Qed.

Lemma hex4_u_escape (u : N) :
  u < 65536 ->
  Json.hex4 (Json.hexdigit (u / 4096)) (Json.hexdigit ((u / 256) mod 16))
            (Json.hexdigit ((u / 16) mod 16)) (Json.hexdigit (u mod 16)) = Some u.
Proof.
  intros H. unfold Json.hex4.
  rewrite !hexval_hexdigit.
  - f_equal. zify. Z.to_euclidean_division_equations. lia.
  - apply N.mod_lt; lia.
  - apply N.mod_lt; lia.
  - apply N.mod_lt; lia.
  - apply N.Div0.div_lt_upper_bound; lia.
Qed.

Lemma scanstring_u (h1 h2 h3 h4 u : N) (s : str) :
  Json.hex4 h1 h2 h3 h4 = Some u -> Json.is_high_surrogate u = false ->
  Json.scanstring (92 :: 117 :: h1 :: h2 :: h3 :: h4 :: s)
  = Json.push u (Json.scanstring s).
Proof.
  intros Hh Hs.
  change (Json.scanstring (92 :: 117 :: h1 :: h2 :: h3 :: h4 :: s))
    with (match Json.hex4 h1 h2 h3 h4 with
          | None => None
          | Some u =>
              match s with
              | b :: e' :: h5 :: h6 :: h7 :: h8 :: s5 =>
                  if Json.is_high_surrogate u && (b =? 92) && (e' =? 117) then
                    match Json.hex4 h5 h6 h7 h8 with
                    | None => None
                    | Some u2 =>
                        if Json.is_low_surrogate u2
                        then Json.push (Json.join_surrogates u u2) (Json.scanstring s5)
                        else Json.push u (Json.scanstring s)
                    end
                  else Json.push u (Json.scanstring s)
              | _ => Json.push u (Json.scanstring s)
              end
          end).
  rewrite Hh, Hs.
  destruct s as [|b [|e' [|h5 [|h6 [|h7 [|h8 s5]]]]]]; reflexivity.
Qed.

Lemma scanstring_pair (h1 h2 h3 h4 h5 h6 h7 h8 u u2 : N) (s : str) :
  Json.hex4 h1 h2 h3 h4 = Some u -> Json.is_high_surrogate u = true ->
  Json.hex4 h5 h6 h7 h8 = Some u2 -> Json.is_low_surrogate u2 = true ->
  Json.scanstring (92 :: 117 :: h1 :: h2 :: h3 :: h4 :: 92 :: 117 :: h5 :: h6 :: h7 :: h8 :: s)
  = Json.push (Json.join_surrogates u u2) (Json.scanstring s).
Proof.
  intros Hh Hs Hh2 Hs2.
  change (Json.scanstring (92 :: 117 :: h1 :: h2 :: h3 :: h4 :: 92 :: 117 :: h5 :: h6 :: h7 :: h8 :: s))
    with (match Json.hex4 h1 h2 h3 h4 with
          | None => None
          | Some u =>
              if Json.is_high_surrogate u && (92 =? 92) && (117 =? 117) then
                match Json.hex4 h5 h6 h7 h8 with
                | None => None
                | Some u2 =>
                    if Json.is_low_surrogate u2
                    then Json.push (Json.join_surrogates u u2) (Json.scanstring s)
                    else Json.push u (Json.scanstring (92 :: 117 :: h5 :: h6 :: h7 :: h8 :: s))
                end
              else Json.push u (Json.scanstring (92 :: 117 :: h5 :: h6 :: h7 :: h8 :: s))
          end).
  rewrite Hh, Hs, Hh2, Hs2. reflexivity.
Qed.

Lemma scanstring_plain (c : N) (s : str) :
  c <> 34 -> 32 <= c -> c <> 92 ->
  Json.scanstring (c :: s) = Json.push c (Json.scanstring s).
Proof.
  intros H1 H2 H3. cbn [Json.scanstring].
  apply N.eqb_neq in H1, H3. rewrite H1, H3.
  destruct (N.ltb_spec c 32); [lia | reflexivity].
Qed.

Lemma scanstring_short (e c' : N) (s : str) :
  e <> 117 -> Json.backslash e = Some c' ->
  Json.scanstring (92 :: e :: s) = Json.push c' (Json.scanstring s).
Proof.
  intros H1 H2.
  change (Json.scanstring (92 :: e :: s))
    with (if e =? 117 then
            match s with
            | h1 :: h2 :: h3 :: h4 :: s3 =>
                match Json.hex4 h1 h2 h3 h4 with
                | None => None
                | Some u =>
                    match s3 with
                    | b :: e' :: h5 :: h6 :: h7 :: h8 :: s5 =>
                        if Json.is_high_surrogate u && (b =? 92) && (e' =? 117) then
                          match Json.hex4 h5 h6 h7 h8 with
                          | None => None
                          | Some u2 =>
                              if Json.is_low_surrogate u2
                              then Json.push (Json.join_surrogates u u2) (Json.scanstring s5)
                              else Json.push u (Json.scanstring s3)
                          end
                        else Json.push u (Json.scanstring s3)
                    | _ => Json.push u (Json.scanstring s3)
                    end
                end
            | _ => None
            end
          else
            match Json.backslash e with
            | Some c' => Json.push c' (Json.scanstring s)
            | None => None
            end).
  apply N.eqb_neq in H1. rewrite H1, H2. reflexivity.
Qed.

Lemma scanstring_escape_char (c : N) (s : str) :
  Json.scalar c = true ->
  Json.scanstring (Json.escape_char c ++ s) = Json.push c (Json.scanstring s).
Proof.
  unfold Json.scalar, Json.escape_char. intros Hc.
  assert (Hb : c < 1114112 /\ (c < 55296 \/ 57343 < c)).
  { bool_cases; try discriminate; lia. }
  clear Hc. destruct Hb as [Hmax Hsur].
  destruct (N.eqb_spec c 34) as [->|]; [apply scanstring_short; [discriminate | reflexivity]|].
  destruct (N.eqb_spec c 92) as [->|]; [apply scanstring_short; [discriminate | reflexivity]|].
  destruct (N.eqb_spec c 10) as [->|]; [apply scanstring_short; [discriminate | reflexivity]|].
  destruct (N.eqb_spec c 13) as [->|]; [apply scanstring_short; [discriminate | reflexivity]|].
  destruct (N.eqb_spec c 9) as [->|]; [apply scanstring_short; [discriminate | reflexivity]|].
  destruct (N.eqb_spec c 8) as [->|]; [apply scanstring_short; [discriminate | reflexivity]|].
  destruct (N.eqb_spec c 12) as [->|]; [apply scanstring_short; [discriminate | reflexivity]|].
  destruct (N.leb_spec 32 c); cbn [andb].
  { destruct (N.leb_spec c 126); cbn [andb].
    - apply scanstring_plain; assumption.
    - destruct (N.ltb_spec c 65536).
      + apply scanstring_u; [apply hex4_u_escape; assumption|].
        unfold Json.is_high_surrogate. bool_cases; try reflexivity; try lia; discriminate.
      + unfold Json.u_escape. cbn [app].
        eapply eq_trans; [apply scanstring_pair|].
        * apply hex4_u_escape. zify. Z.to_euclidean_division_equations. lia.
        * unfold Json.is_high_surrogate. bool_cases; try reflexivity;
            zify; Z.to_euclidean_division_equations; lia.
        * apply hex4_u_escape. zify. Z.to_euclidean_division_equations. lia.
        * unfold Json.is_low_surrogate. bool_cases; try reflexivity;
            zify; Z.to_euclidean_division_equations; lia.
        * f_equal. unfold Json.join_surrogates.
          zify. Z.to_euclidean_division_equations. lia. }
  destruct (N.ltb_spec c 65536); [|lia].
  apply scanstring_u; [apply hex4_u_escape; assumption|].
  unfold Json.is_high_surrogate. bool_cases; try reflexivity; lia.
Qed.

Lemma scanstring_encoded (x rest : str) :
  valid_text x ->
  Json.scanstring (flat_map Json.escape_char x ++ 34 :: rest) = Some (x, rest).
Proof.
  induction 1 as [|c x Hc _ IH]; [reflexivity|].
  cbn [flat_map]. rewrite <- app_assoc, scanstring_escape_char, IH by assumption.
  reflexivity.
Qed.

Lemma json_induction (P : json -> Prop) :
  P JNull -> (forall b, P (JBool b)) -> (forall z, P (JInt z)) ->
  (forall l, P (JFloat l)) -> (forall s, P (JStr s)) ->
  (forall l, Forall P l -> P (JArr l)) ->
  (forall d, Forall (fun kv => P (snd kv)) d -> P (JObj d)) ->
  forall v, P v.
Proof.
  intros Hn Hb Hi Hf Hs Ha Ho.
  fix IH 1. intros [|b|z|l|s|l|d].
  - exact Hn.
  - apply Hb.
  - apply Hi.
  - apply Hf.
  - apply Hs.
  - apply Ha. induction l as [|x l IHl]; constructor; [apply IH | exact IHl].
  - apply Ho. induction d as [|[k x] d IHd]; constructor; [apply IH | exact IHd].
Qed.

Lemma json_size_arr (l : list json) : json_size (JArr l) = S (items_size l).
Proof. reflexivity. Qed.

Lemma json_size_obj (d : dict) : json_size (JObj d) = S (members_size d).
Proof.
  unfold members_size. cbn [json_size]. f_equal.
  induction d as [|[k x] d IH]; [reflexivity|].
  cbn [fold_right snd]. rewrite <- IH. reflexivity.
Qed.

Lemma encode_arr (b : builtins) (level : nat) (x : json) (xs : list json) :
  Json.encode b level (JArr (x :: xs))
  = 91 :: Json.newline_indent (S level)
    ++ Json.encode b (S level) x
    ++ Json.encode_items b (S level) xs
    ++ Json.newline_indent level ++ [93].
Proof. reflexivity. Qed.

Lemma encode_obj (b : builtins) (level : nat) (k : str) (x : json) (d : dict) :
  Json.encode b level (JObj ((k, x) :: d))
  = 123 :: Json.newline_indent (S level)
    ++ Json.encode_string k ++ [58; 32]
    ++ Json.encode b (S level) x
    ++ Json.encode_members b (S level) d
    ++ Json.newline_indent level ++ [125].
Proof. reflexivity. Qed.

Lemma encode_opens (b : builtins) (level : nat) (v : json) :
  storable v -> exists c tl, Json.encode b level v = c :: tl /\ opens c.
Proof.
  unfold opens.
  destruct 1 as [|[|]|s _|[|x l] _|[|[k x] d] _ _];
    try (eexists _, _; split; [reflexivity|]; tauto).
Qed.

Lemma skip_ws_opens (c : N) (s : str) : opens c -> Json.skip_ws (c :: s) = c :: s.
Proof. unfold opens. intros H. cbn. destruct H as [->|[->|[->|[->|[->| ->]]]]]; reflexivity. Qed.

Lemma skip_ws_indent (level : nat) (s : str) :
  Json.skip_ws (Json.newline_indent level ++ s) = Json.skip_ws s.
Proof.
  unfold Json.newline_indent. cbn [app Json.skip_ws Json.is_ws N.eqb Pos.eqb orb].
  induction (2 * level)%nat as [|n IH]; [reflexivity|]. exact IH.
Qed.

Lemma dict_set_fresh (d : dict) (k : str) (v : json) :
  ~ In k (map fst d) -> Dict.set d k v = d ++ [(k, v)].
Proof.
  induction d as [|[k' v'] d IH]; cbn; [reflexivity|]. intros H.
  unfold PyStr.eqb. rewrite bool_decide_false by tauto.
  rewrite IH by tauto. reflexivity.
Qed.

Lemma of_pairs_distinct (d : dict) : NoDup (map fst d) -> Dict.of_pairs d = d.
Proof.
  unfold Dict.of_pairs.
  enough (H : forall acc, NoDup (map fst (acc ++ d)) ->
              fold_left (fun d kv => Dict.set d (fst kv) (snd kv)) d acc = acc ++ d)
    by (intros Hd; apply (H [] Hd)).
  induction d as [|[k v] d IH]; intros acc Hnd; cbn [fold_left].
  - symmetry. apply app_nil_r.
  - cbn [fst snd]. rewrite dict_set_fresh.
    + rewrite IH; rewrite <- app_assoc; [reflexivity | exact Hnd].
    + rewrite map_app in Hnd. cbn in Hnd. apply NoDup_app in Hnd as (_ & Hd & _).
      intros Hin. apply (Hd k); [apply list_elem_of_In, Hin | left].
Qed.

Lemma opens_not_closing (c : N) : opens c -> c <> 93 /\ c <> 125 /\ c <> 65279.
Proof. unfold opens. intros H. repeat split; intros ->; repeat destruct H as [H|H]; discriminate. Qed.

Lemma scan_once_array (f : nat) (s : str) (c : N) (tl : str) :
  Json.skip_ws s = c :: tl -> c <> 93 ->
  Json.scan_once (S f) (91 :: s)
  = match Json.scan_items f (c :: tl) with
    | Some (vs, r) => Some (JArr vs, r)
    | None => None
    end.
Proof.
  intros Hs Hc. cbn [Json.scan_once]. change (91 =? 34) with false.
  change (91 =? 123) with false. change (91 =? 91) with true. cbv iota.
  rewrite Hs. apply N.eqb_neq in Hc. rewrite Hc. reflexivity.
Qed.

Lemma scan_once_object (f : nat) (s : str) (c : N) (tl : str) :
  Json.skip_ws s = c :: tl -> c <> 125 ->
  Json.scan_once (S f) (123 :: s)
  = match Json.scan_pairs f (c :: tl) with
    | Some (kvs, r) => Some (JObj (Dict.of_pairs kvs), r)
    | None => None
    end.
Proof.
  intros Hs Hc. cbn [Json.scan_once]. change (123 =? 34) with false.
  change (123 =? 123) with true. cbv iota.
  rewrite Hs. apply N.eqb_neq in Hc. rewrite Hc. reflexivity.
Qed.

Lemma scan_items_last (f : nat) (s : str) (v : json) (r r1 : str) :
  Json.scan_once f s = Some (v, r) -> Json.skip_ws r = 93 :: r1 ->
  Json.scan_items (S f) s = Some ([v], r1).
Proof. intros H1 H2. cbn [Json.scan_items]. rewrite H1, H2. reflexivity. Qed.

Lemma scan_items_more (f : nat) (s : str) (v : json) (r r1 : str)
  (vs : list json) (r2 : str) :
  Json.scan_once f s = Some (v, r) -> Json.skip_ws r = 44 :: r1 ->
  Json.scan_items f (Json.skip_ws r1) = Some (vs, r2) ->
  Json.scan_items (S f) s = Some (v :: vs, r2).
Proof. intros H1 H2 H3. cbn [Json.scan_items]. rewrite H1, H2. cbn. rewrite H3. reflexivity. Qed.

Lemma scan_pairs_last (f : nat) (s : str) (k : str) (r r1 : str) (v : json)
  (r2 r3 : str) :
  Json.scanstring s = Some (k, r) -> Json.skip_ws r = 58 :: r1 ->
  Json.scan_once f (Json.skip_ws r1) = Some (v, r2) -> Json.skip_ws r2 = 125 :: r3 ->
  Json.scan_pairs (S f) (34 :: s) = Some ([(k, v)], r3).
Proof.
  intros H1 H2 H3 H4. cbn [Json.scan_pairs]. change (34 =? 34) with true. cbv iota.
  rewrite H1, H2. cbn. rewrite H3, H4. reflexivity.
Qed.

Lemma scan_pairs_more (f : nat) (s : str) (k : str) (r r1 : str) (v : json)
  (r2 r3 : str) (kvs : dict) (r4 : str) :
  Json.scanstring s = Some (k, r) -> Json.skip_ws r = 58 :: r1 ->
  Json.scan_once f (Json.skip_ws r1) = Some (v, r2) -> Json.skip_ws r2 = 44 :: r3 ->
  Json.scan_pairs f (Json.skip_ws r3) = Some (kvs, r4) ->
  Json.scan_pairs (S f) (34 :: s) = Some ((k, v) :: kvs, r4).
Proof.
  intros H1 H2 H3 H4 H5. cbn [Json.scan_pairs]. change (34 =? 34) with true. cbv iota.
  rewrite H1, H2. cbn. rewrite H3, H4. cbn. rewrite H5. reflexivity.
Qed.

Lemma skip_ws_encoded (b : builtins) (level : nat) (v : json) (rest : str) :
  storable v ->
  Json.skip_ws (Json.encode b level v ++ rest) = Json.encode b level v ++ rest.
Proof.
  intros Hv. destruct (encode_opens b level v Hv) as (c & tl & -> & Hc).
  apply skip_ws_opens, Hc.
Qed.

Lemma scan_items_encoded (b : builtins) (level : nat) (xs : list json) :
  Forall (decodes_back b) xs ->
  forall x g tail rest,
    decodes_back b x -> storable x -> Forall storable xs ->
    (items_size (x :: xs) < g)%nat ->
    Json.skip_ws tail = 93 :: rest ->
    Json.scan_items g (Json.encode b level x ++ Json.encode_items b level xs ++ tail)
    = Some (x :: xs, rest).
Proof.
  induction 1 as [|y ys Hy _ IH]; intros x g tail rest Hx Sx Sxs Hg Htail;
    destruct g as [|g]; cbn [items_size fold_right] in Hg; try lia.
  - cbn [Json.encode_items app].
    eapply scan_items_last; [apply Hx; [assumption | lia] | exact Htail].
  - inversion Sxs; subst.
    change (Json.encode_items b level (y :: ys))
      with ([44] ++ Json.newline_indent level ++ Json.encode b level y
            ++ Json.encode_items b level ys).
    rewrite <- !app_assoc.
    eapply scan_items_more.
    + apply Hx; [assumption | lia].
    + reflexivity.
    + rewrite skip_ws_indent, skip_ws_encoded by assumption.
      apply IH; try assumption. fold (items_size ys) in Hg.
      change (items_size (y :: ys)) with (S (json_size y + items_size ys)). lia.
Qed.

Lemma encode_string_app (k r : str) :
  Json.encode_string k ++ r = 34 :: (flat_map Json.escape_char k ++ 34 :: r).
Proof. unfold Json.encode_string. cbn [app]. rewrite <- app_assoc. reflexivity. Qed.

Lemma scan_pairs_encoded (b : builtins) (level : nat) (d : dict) :
  Forall (fun kv => decodes_back b (snd kv)) d ->
  forall k x g tail rest,
    decodes_back b x -> valid_text k -> storable x ->
    Forall (fun kv => valid_text (fst kv) /\ storable (snd kv)) d ->
    (members_size ((k, x) :: d) < g)%nat ->
    Json.skip_ws tail = 125 :: rest ->
    Json.scan_pairs g
      (Json.encode_string k ++ [58; 32] ++ Json.encode b level x
       ++ Json.encode_members b level d ++ tail)
    = Some ((k, x) :: d, rest).
Proof.
  induction 1 as [|[k' y] ys Hy _ IH]; intros k x g tail rest Hx Vk Sx Sd Hg Htail;
    destruct g as [|g]; cbn [members_size fold_right snd] in Hg; try lia;
    rewrite encode_string_app.
  - cbn [Json.encode_members app].
    eapply scan_pairs_last.
    + apply scanstring_encoded, Vk.
    + reflexivity.
    + change (Json.skip_ws (32 :: Json.encode b level x ++ tail))
        with (Json.skip_ws (Json.encode b level x ++ tail)).
      rewrite skip_ws_encoded by assumption. apply Hx; [assumption | lia].
    + exact Htail.
  - inversion Sd as [|? ? [Vk' Sy] Sys]; subst. cbn [fst snd] in *.
    change (Json.encode_members b level ((k', y) :: ys))
      with ([44] ++ Json.newline_indent level
            ++ Json.encode_string k' ++ [58; 32] ++ Json.encode b level y
            ++ Json.encode_members b level ys).
    rewrite <- !app_assoc.
    eapply scan_pairs_more.
    + apply scanstring_encoded, Vk.
    + reflexivity.
    + change (Json.skip_ws (32 :: ?s)) with (Json.skip_ws s).
      cbn [app].
      change (Json.skip_ws (32 :: Json.encode b level x ++
                44 :: Json.newline_indent level ++ Json.encode_string k' ++
                58 :: 32 :: Json.encode b level y ++ Json.encode_members b level ys ++ tail))
        with (Json.skip_ws (Json.encode b level x ++
                44 :: Json.newline_indent level ++ Json.encode_string k' ++
                58 :: 32 :: Json.encode b level y ++ Json.encode_members b level ys ++ tail)).
      rewrite skip_ws_encoded by assumption. apply Hx; [assumption | lia].
    + reflexivity.
    + rewrite skip_ws_indent. rewrite encode_string_app.
      change (Json.skip_ws (34 :: ?s)) with (34 :: s).
      rewrite <- encode_string_app.
      apply (IH k' y g tail rest); try assumption.
      fold (members_size ys) in Hg.
      change (members_size ((k', y) :: ys)) with (S (json_size y + members_size ys)). lia.
Qed.

Lemma scan_once_array_at (f : nat) (s t : str) :
  Json.skip_ws s = t -> (exists c tl, t = c :: tl /\ c <> 93) ->
  Json.scan_once (S f) (91 :: s)
  = match Json.scan_items f t with
    | Some (vs, r) => Some (JArr vs, r)
    | None => None
    end.
Proof. intros Hs (c & tl & -> & Hc). apply scan_once_array; assumption. Qed.

Lemma scan_once_object_at (f : nat) (s t : str) :
  Json.skip_ws s = t -> (exists c tl, t = c :: tl /\ c <> 125) ->
  Json.scan_once (S f) (123 :: s)
  = match Json.scan_pairs f t with
    | Some (kvs, r) => Some (JObj (Dict.of_pairs kvs), r)
    | None => None
    end.
Proof. intros Hs (c & tl & -> & Hc). apply scan_once_object; assumption. Qed.

Lemma encode_arr_app (b : builtins) (level : nat) (x : json) (xs : list json)
  (rest : str) :
  Json.encode b level (JArr (x :: xs)) ++ rest
  = 91 :: (Json.newline_indent (S level)
           ++ (Json.encode b (S level) x
               ++ Json.encode_items b (S level) xs
               ++ (Json.newline_indent level ++ 93 :: rest))).
Proof. rewrite encode_arr, <- app_comm_cons, <- !app_assoc. reflexivity. Qed.

Lemma encode_obj_app (b : builtins) (level : nat) (k : str) (x : json) (d : dict)
  (rest : str) :
  Json.encode b level (JObj ((k, x) :: d)) ++ rest
  = 123 :: (Json.newline_indent (S level)
            ++ (Json.encode_string k ++ [58; 32]
                ++ Json.encode b (S level) x
                ++ Json.encode_members b (S level) d
                ++ (Json.newline_indent level ++ 125 :: rest))).
Proof. rewrite encode_obj, <- app_comm_cons, <- !app_assoc. reflexivity. Qed.

Lemma scan_encoded (b : builtins) (v : json) : decodes_back b v.
Proof.
  induction v as [|x|z|l|s|l IH|d IH] using json_induction;
    intros fuel level rest Sv Hfuel; destruct fuel as [|f]; try lia.
  - reflexivity.
  - destruct x; reflexivity.
  - inversion Sv.
  - inversion Sv.
  - inversion Sv; subst. cbn [Json.encode]. rewrite encode_string_app.
    cbn [Json.scan_once]. change (34 =? 34) with true. cbv iota.
    rewrite scanstring_encoded by assumption. reflexivity.
  - inversion Sv as [| | |? Sl|]; subst.
    destruct l as [|x xs]; [reflexivity|].
    inversion IH as [|? ? Hx Hxs]; subst. inversion Sl as [|? ? Sx Sxs]; subst.
    rewrite json_size_arr in Hfuel.
    rewrite encode_arr_app.
    erewrite scan_once_array_at.
    2:{ rewrite skip_ws_indent. apply skip_ws_encoded, Sx. }
    2:{ destruct (encode_opens b (S level) x Sx) as (c & tl & -> & Hc).
        exists c. eexists. split; [reflexivity|]. apply opens_not_closing, Hc. }
    rewrite (scan_items_encoded b (S level) xs Hxs x f _ rest); try assumption;
      [reflexivity | lia | apply skip_ws_indent].
  - inversion Sv as [| | | |? Hnd Sd]; subst.
    destruct d as [|[k x] d]; [reflexivity|].
    inversion IH as [|? ? Hx Hxs]; subst.
    inversion Sd as [|? ? [Vk Sx] Sxs]; subst. cbn [fst snd] in *.
    rewrite json_size_obj in Hfuel.
    rewrite encode_obj_app.
    erewrite scan_once_object_at.
    2:{ rewrite skip_ws_indent, encode_string_app. apply skip_ws_opens.
        unfold opens. tauto. }
    2:{ eexists _, _. split; [reflexivity | discriminate]. }
    rewrite <- encode_string_app.
    rewrite (scan_pairs_encoded b (S level) d Hxs k x f _ rest); try assumption;
      [|lia | apply skip_ws_indent].
    rewrite of_pairs_distinct by assumption. reflexivity.
Qed.

Lemma encoded_size (b : builtins) (v : json) :
  forall level, storable v -> (json_size v <= length (Json.encode b level v))%nat.
Proof.
  induction v as [|x|z|l|s|l IH|d IH] using json_induction; intros level Sv.
  - vm_compute. lia.
  - destruct x; vm_compute; lia.
  - inversion Sv.
  - inversion Sv.
  - cbn [Json.encode json_size]. unfold Json.encode_string.
    rewrite !length_app. cbn. lia.
  - inversion Sv as [| | |? Sl|]; subst.
    destruct l as [|x xs]; [vm_compute; lia|].
    rewrite json_size_arr, encode_arr. cbn [length]. rewrite !length_app.
    inversion IH as [|? ? Hx Hxs]; subst. inversion Sl as [|? ? Sx Sxs]; subst.
    specialize (Hx (S level) Sx).
    assert (Hitems : (items_size xs <= length (Json.encode_items b (S level) xs))%nat).
    { clear -Hxs Sxs. induction Hxs as [|y ys Hy _ IHys]; [cbn; lia|].
      inversion Sxs; subst.
      change (Json.encode_items b (S level) (y :: ys))
        with ([44] ++ Json.newline_indent (S level) ++ Json.encode b (S level) y
              ++ Json.encode_items b (S level) ys).
      change (items_size (y :: ys)) with (S (json_size y + items_size ys)).
      rewrite !length_app. cbn [length]. specialize (Hy (S level)). 
      specialize (IHys ltac:(assumption)). specialize (Hy ltac:(assumption)). lia. }
    change (items_size (x :: xs)) with (S (json_size x + items_size xs)).
    cbn [length]. lia.
  - inversion Sv as [| | | |? Hnd Sd]; subst.
    destruct d as [|[k x] d]; [vm_compute; lia|].
    rewrite json_size_obj, encode_obj. cbn [length]. rewrite !length_app.
    inversion IH as [|? ? Hx Hxs]; subst.
    inversion Sd as [|? ? [Vk Sx] Sxs]; subst. cbn [fst snd] in *.
    specialize (Hx (S level) Sx).
    assert (Hmem : (members_size d <= length (Json.encode_members b (S level) d))%nat).
    { clear -Hxs Sxs. induction Hxs as [|[k' y] ys Hy _ IHys]; [cbn; lia|].
      inversion Sxs as [|? ? [Vk' Sy] Sys]; subst. cbn [fst snd] in *.
      change (Json.encode_members b (S level) ((k', y) :: ys))
        with ([44] ++ Json.newline_indent (S level)
              ++ Json.encode_string k' ++ [58; 32] ++ Json.encode b (S level) y
              ++ Json.encode_members b (S level) ys).
      change (members_size ((k', y) :: ys)) with (S (json_size y + members_size ys)).
      rewrite !length_app. cbn [length]. specialize (Hy (S level) Sy).
      specialize (IHys Sys). lia. }
    change (members_size ((k, x) :: d)) with (S (json_size x + members_size d)).
    cbn [length]. lia.
Qed.

(** Decoding what was encoded gives the document back. *)
Lemma loads_dumps (b : builtins) (v : json) :
  storable v -> Json.loads (Json.dumps b v) = Some v.
Proof.
  intros Sv. unfold Json.loads, Json.dumps.
  pose proof (scan_encoded b v (S (length (Json.encode b 0 v))) 0%nat [] Sv) as Hscan.
  pose proof (skip_ws_encoded b 0 v [] Sv) as Hws.
  rewrite app_nil_r in Hscan, Hws. rewrite Hws, Hscan.
  - destruct (encode_opens b 0%nat v Sv) as (c & tl & -> & Hc).
    apply opens_not_closing in Hc as (_ & _ & Hc).
    cbn [PyStr.startswith]. apply N.eqb_neq in Hc. rewrite N.eqb_sym, Hc. reflexivity.
  - pose proof (encoded_size b v 0%nat Sv). lia.
Qed.

Lemma cache_file_not_dir (name : str) :
  CacheUtils.path_join CacheUtils.CACHE_DIR name <> CacheUtils.CACHE_DIR.
Proof.
  unfold CacheUtils.path_join. intros H. apply (f_equal (@length N)) in H.
  rewrite !length_app in H. cbn [length] in H. lia.
Qed.

(** On a file system without the cache directory, and with nothing in
    the way of the entry, the put goes through when the system takes the
    path of the entry: the directory is made. *)
Lemma put_creates_cache_dir (b : builtins) (fs : filesystem) (repo_url : str)
  (issue_number : Z) (result : json) :
  fs !! CacheUtils.CACHE_DIR = None ->
  fs !! CacheUtils.path_join CacheUtils.CACHE_DIR
          (CacheUtils._get_cache_key repo_url issue_number) = None ->
  CacheUtils.refused (CacheUtils.path_join CacheUtils.CACHE_DIR
                        (CacheUtils._get_cache_key repo_url issue_number)) = None ->
  CacheUtils.put_succeeds b fs repo_url issue_number result.
Proof.
  intros Hdir Hfile Hok. unfold CacheUtils.put_succeeds, CacheUtils._ensure_cache_dir,
    CacheUtils.mkdir_exist_ok, CacheUtils.write_file.
  rewrite Hdir. eexists _, _. split; [reflexivity|].
  rewrite lookup_insert_eq, lookup_insert_ne, Hfile, Hok; [reflexivity|].
  intros E. symmetry in E. revert E. apply cache_file_not_dir.
Qed.

(** C3: a put of a well-formed record that goes through, followed by a
    get for the same repository URL and issue number, returns the very
    record that was stored; after the put the cache directory exists,
    whether or not it did before. *)
Theorem cache_round_trip (b : builtins) (fs : filesystem) (repo_url : str)
  (issue_number : Z) (r : json) :
  well_formed_record r ->
  CacheUtils.put_succeeds b fs repo_url issue_number r ->
  exists fs',
    CacheUtils.cache_analysis b fs repo_url issue_number r = Py.Returns fs'
    /\ fs' !! CacheUtils.CACHE_DIR = Some Dir
    /\ CacheUtils.get_cached_analysis fs' repo_url issue_number
       = Py.Returns (fs', Some r).
Proof.
  intros [Sr _] (fs1 & fs2 & Hens & Hwrite).
  exists fs2. unfold CacheUtils.cache_analysis.
  rewrite Hens. cbn [mbind outcome_bind Py.bind]. rewrite Hwrite.
  split; [reflexivity|].
  unfold CacheUtils.write_file in Hwrite.
  destruct (fs1 !! CacheUtils.CACHE_DIR) as [[|c]|] eqn:Hdir; try discriminate.
  set (file := CacheUtils.path_join CacheUtils.CACHE_DIR
                 (CacheUtils._get_cache_key repo_url issue_number)) in *.
  assert (Hfs2 : fs2 = <[file := File (Json.dumps b r)]> fs1).
  { destruct (fs1 !! file) as [[|c]|]; [| |destruct (CacheUtils.refused file)];
      inversion Hwrite; reflexivity. }
  assert (Hdir2 : fs2 !! CacheUtils.CACHE_DIR = Some Dir).
  { rewrite Hfs2, lookup_insert_ne; [exact Hdir | apply cache_file_not_dir]. }
  split; [exact Hdir2|].
  unfold CacheUtils.get_cached_analysis, CacheUtils._ensure_cache_dir,
    CacheUtils.mkdir_exist_ok.
  rewrite Hdir2. cbn [mbind outcome_bind Py.bind]. fold file.
  unfold CacheUtils.path_exists, CacheUtils.read_file.
  assert (Hfile : fs2 !! file = Some (File (Json.dumps b r))).
  { rewrite Hfs2. apply lookup_insert_eq. }
  rewrite Hfile. cbn [mbind outcome_bind Py.bind]. unfold CacheUtils.json_load.
  rewrite (loads_dumps b r Sr). reflexivity.
Qed.

Lemma example_record_well_formed : well_formed_record Sample.example_record.
Proof.
  split.
  - apply storable_obj.
    + vm_compute. repeat constructor; intros H;
        repeat (apply elem_of_cons in H as [H|H]; [discriminate H|]);
        inversion H.
    + repeat constructor; cbn [fst snd]; try apply storable_str;
        try apply storable_arr; repeat constructor.
  - exists (match Sample.example_record with JObj d => d | _ => [] end).
    exists (py "s"), (py "bug"), (py "3 - x"), [py "a"], (py "i").
    vm_compute. repeat split. left. reflexivity.
Qed.

Lemma cache_round_trip_witness :
  exists fs',
    CacheUtils.cache_analysis Sample.interp0 ∅ Sample.react 42 Sample.example_record
    = Py.Returns fs'
    /\ fs' !! CacheUtils.CACHE_DIR = Some Dir
    /\ CacheUtils.get_cached_analysis fs' Sample.react 42
       = Py.Returns (fs', Some Sample.example_record).
Proof.
  apply cache_round_trip.
  - exact example_record_well_formed.
  - apply put_creates_cache_dir; [apply lookup_empty | apply lookup_empty |].
    vm_compute. reflexivity.
Defined.

(** *** Fuel *)

Lemma scan_items_S (f : nat) (s : str) :
  Json.scan_items (S f) s
  = match Json.scan_once f s with
    | None => None
    | Some (v, r) =>
        match Json.skip_ws r with
        | [] => None
        | c :: r1 =>
            if c =? 93 then Some ([v], r1)
            else if c =? 44 then
              match Json.scan_items f (Json.skip_ws r1) with
              | Some (vs, r2) => Some (v :: vs, r2)
              | None => None
              end
            else None
        end
    end.
Proof. reflexivity. Qed.

Lemma scan_pairs_S (f : nat) (s : str) :
  Json.scan_pairs (S f) s
  = match s with
    | [] => None
    | q :: s1 =>
        if q =? 34 then
          match Json.scanstring s1 with
          | None => None
          | Some (k, r) =>
              match Json.skip_ws r with
              | [] => None
              | colon :: r1 =>
                  if colon =? 58 then
                    match Json.scan_once f (Json.skip_ws r1) with
                    | None => None
                    | Some (v, r2) =>
                        match Json.skip_ws r2 with
                        | [] => None
                        | c :: r3 =>
                            if c =? 125 then Some ([(k, v)], r3)
                            else if c =? 44 then
                              match Json.scan_pairs f (Json.skip_ws r3) with
                              | Some (kvs, r4) => Some ((k, v) :: kvs, r4)
                              | None => None
                              end
                            else None
                        end
                    end
                  else None
              end
          end
        else None
    end.
Proof. reflexivity. Qed.

Lemma scan_once_S (f : nat) (s : str) :
  Json.scan_once (S f) s
  = match s with
    | [] => None
    | c :: s1 =>
        if c =? 34 then
          match Json.scanstring s1 with
          | Some (x, r) => Some (JStr x, r)
          | None => None
          end
        else if c =? 123 then
          match Json.skip_ws s1 with
          | [] => None
          | c2 :: r2 =>
              if c2 =? 125 then Some (JObj [], r2)
              else
                match Json.scan_pairs f (Json.skip_ws s1) with
                | Some (kvs, r) => Some (JObj (Dict.of_pairs kvs), r)
                | None => None
                end
          end
        else if c =? 91 then
          match Json.skip_ws s1 with
          | [] => None
          | c2 :: r2 =>
              if c2 =? 93 then Some (JArr [], r2)
              else
                match Json.scan_items f (Json.skip_ws s1) with
                | Some (vs, r) => Some (JArr vs, r)
                | None => None
                end
          end
        else Json.scan_atom s
    end.
Proof. reflexivity. Qed.

(** More fuel does not change a result. *)
Lemma scan_more_fuel (f : nat) :
  (forall s v r, Json.scan_once f s = Some (v, r) -> Json.scan_once (S f) s = Some (v, r))
  /\ (forall s vs r, Json.scan_items f s = Some (vs, r) -> Json.scan_items (S f) s = Some (vs, r))
  /\ (forall s kvs r, Json.scan_pairs f s = Some (kvs, r) -> Json.scan_pairs (S f) s = Some (kvs, r)).
Proof.
  induction f as [|f (IHo & IHi & IHp)]; [repeat split; discriminate|].
  repeat split.
  - intros s v r H. rewrite scan_once_S in H |- *.
    destruct s as [|c s1]; [discriminate|].
    destruct (c =? 34); [exact H|].
    destruct (c =? 123).
    { destruct (Json.skip_ws s1) as [|c2 r2]; [discriminate|].
      destruct (c2 =? 125); [exact H|].
      destruct (Json.scan_pairs f (c2 :: r2)) as [[kvs r']|] eqn:E; [|discriminate].
      rewrite (IHp _ _ _ E). exact H. }
    destruct (c =? 91); [|exact H].
    destruct (Json.skip_ws s1) as [|c2 r2]; [discriminate|].
    destruct (c2 =? 93); [exact H|].
    destruct (Json.scan_items f (c2 :: r2)) as [[vs r']|] eqn:E; [|discriminate].
    rewrite (IHi _ _ _ E). exact H.
  - intros s vs r H. rewrite scan_items_S in H |- *.
    destruct (Json.scan_once f s) as [[v r0]|] eqn:E; [|discriminate].
    rewrite (IHo _ _ _ E).
    destruct (Json.skip_ws r0) as [|c r1]; [discriminate|].
    destruct (c =? 93); [exact H|].
    destruct (c =? 44); [|discriminate].
    destruct (Json.scan_items f (Json.skip_ws r1)) as [[vs' r2]|] eqn:Ei; [|discriminate].
    rewrite (IHi _ _ _ Ei). exact H.
  - intros s kvs r H. rewrite scan_pairs_S in H |- *.
    destruct s as [|q s1]; [discriminate|].
    destruct (q =? 34); [|discriminate].
    destruct (Json.scanstring s1) as [[k r0]|]; [|discriminate].
    destruct (Json.skip_ws r0) as [|colon r1]; [discriminate|].
    destruct (colon =? 58); [|discriminate].
    destruct (Json.scan_once f (Json.skip_ws r1)) as [[v r2]|] eqn:Eo; [|discriminate].
    rewrite (IHo _ _ _ Eo).
    destruct (Json.skip_ws r2) as [|c r3]; [discriminate|].
    destruct (c =? 125); [exact H|].
    destruct (c =? 44); [|discriminate].
    destruct (Json.scan_pairs f (Json.skip_ws r3)) as [[kvs' r4]|] eqn:Ep; [|discriminate].
    rewrite (IHp _ _ _ Ep). exact H.
Qed.

Lemma scan_once_fuel_le (f g : nat) (s : str) (v : json) (r : str) :
  (f <= g)%nat -> Json.scan_once f s = Some (v, r) -> Json.scan_once g s = Some (v, r).
Proof. intros Hle. induction Hle; [auto|]. intros Hs. apply scan_more_fuel; auto. Qed.

Lemma scan_items_fuel_le (f g : nat) (s : str) (vs : list json) (r : str) :
  (f <= g)%nat -> Json.scan_items f s = Some (vs, r) -> Json.scan_items g s = Some (vs, r).
Proof. intros Hle. induction Hle; [auto|]. intros Hs. apply scan_more_fuel; auto. Qed.

Lemma scan_pairs_fuel_le (f g : nat) (s : str) (kvs : dict) (r : str) :
  (f <= g)%nat -> Json.scan_pairs f s = Some (kvs, r) -> Json.scan_pairs g s = Some (kvs, r).
Proof. intros Hle. induction Hle; [auto|]. intros Hs. apply scan_more_fuel; auto. Qed.

Lemma consumed_length (s r : str) : consumed s r -> (length r < length s)%nat.
Proof. intros (w & c & -> & _). rewrite length_app. cbn. lia. Qed.

Lemma skip_ws_length (s : str) : (length (Json.skip_ws s) <= length s)%nat.
Proof.
  destruct (skip_ws_suffix s) as (ws & E & _). rewrite E at 2.
  rewrite length_app. lia.
Qed.

Lemma skip_ws_cons_length (s : str) (c : N) (r : str) :
  Json.skip_ws s = c :: r -> (length r < length s)%nat.
Proof. intros E. pose proof (skip_ws_length s) as H. rewrite E in H. cbn in H. lia. Qed.

Lemma scanstring_length (s x r : str) :
  Json.scanstring s = Some (x, r) -> (length r < length s)%nat.
Proof. intros H. apply scanstring_consumed in H as [w ->]. rewrite length_app. cbn. lia. Qed.

Ltac refuel le_lemma IH E m :=
  let Hx := fresh "Hx" in
  pose proof (IH _ _ _ E) as Hx;
  apply (le_lemma _ m) in Hx; [rewrite Hx | lia].

(** A result needs no more fuel than the characters it consumed. *)
Lemma scan_fuel_consumed (f : nat) :
  (forall s v r, Json.scan_once f s = Some (v, r) ->
                 Json.scan_once (length s - length r) s = Some (v, r))
  /\ (forall s vs r, Json.scan_items f s = Some (vs, r) ->
                     Json.scan_items (length s - length r) s = Some (vs, r))
  /\ (forall s kvs r, Json.scan_pairs f s = Some (kvs, r) ->
                      Json.scan_pairs (length s - length r) s = Some (kvs, r)).
Proof.
  induction f as [|f (IHo & IHi & IHp)]; [repeat split; discriminate|].
  repeat split.
  - intros s v r H.
    pose proof (consumed_length _ _ (proj1 (scan_consumed (S f)) _ _ _ H)) as Hlen.
    destruct (length s - length r)%nat as [|m] eqn:Em; [lia|].
    rewrite scan_once_S in H |- *.
    destruct s as [|c s1]; [discriminate|]. cbn [length] in *.
    destruct (c =? 34); [exact H|].
    destruct (c =? 123).
    { destruct (Json.skip_ws s1) as [|c2 r2] eqn:Ew; [discriminate|].
      destruct (c2 =? 125); [exact H|].
      destruct (Json.scan_pairs f (c2 :: r2)) as [[kvs r']|] eqn:E; [|discriminate].
      inversion H; subst. pose proof (skip_ws_length s1) as Hw. rewrite Ew in Hw.
      refuel scan_pairs_fuel_le IHp E m. reflexivity. }
    destruct (c =? 91); [|exact H].
    destruct (Json.skip_ws s1) as [|c2 r2] eqn:Ew; [discriminate|].
    destruct (c2 =? 93); [exact H|].
    destruct (Json.scan_items f (c2 :: r2)) as [[vs r']|] eqn:E; [|discriminate].
    inversion H; subst. pose proof (skip_ws_length s1) as Hw. rewrite Ew in Hw.
    refuel scan_items_fuel_le IHi E m. reflexivity.
  - intros s vs r H.
    pose proof (consumed_length _ _ (proj1 (proj2 (scan_consumed (S f))) _ _ _ H)) as Hlen.
    destruct (length s - length r)%nat as [|m] eqn:Em; [lia|].
    rewrite scan_items_S in H |- *.
    destruct (Json.scan_once f s) as [[v r0]|] eqn:E; [|discriminate].
    pose proof (consumed_length _ _ (proj1 (scan_consumed f) _ _ _ E)) as Hl0.
    destruct (Json.skip_ws r0) as [|c r1] eqn:Ew; [discriminate|].
    pose proof (skip_ws_cons_length _ _ _ Ew) as Hl1.
    destruct (c =? 93) eqn:E93.
    { inversion H; subst.
      refuel scan_once_fuel_le IHo E m. rewrite Ew, E93. reflexivity. }
    destruct (c =? 44) eqn:E44; [|discriminate].
    destruct (Json.scan_items f (Json.skip_ws r1)) as [[vs' r2]|] eqn:Ei; [|discriminate].
    inversion H; subst.
    pose proof (consumed_length _ _ (proj1 (proj2 (scan_consumed f)) _ _ _ Ei)) as Hl2.
    pose proof (skip_ws_length r1) as Hl3.
    refuel scan_once_fuel_le IHo E m. rewrite Ew, E93, E44.
    refuel scan_items_fuel_le IHi Ei m. reflexivity.
  - intros s kvs r H.
    pose proof (consumed_length _ _ (proj2 (proj2 (scan_consumed (S f))) _ _ _ H)) as Hlen.
    destruct (length s - length r)%nat as [|m] eqn:Em; [lia|].
    rewrite scan_pairs_S in H |- *.
    destruct s as [|q s1]; [discriminate|]. cbn [length] in *.
    destruct (q =? 34); [|discriminate].
    destruct (Json.scanstring s1) as [[k r0]|] eqn:Es; [|discriminate].
    pose proof (scanstring_length _ _ _ Es) as Hl0.
    destruct (Json.skip_ws r0) as [|colon r1] eqn:Ew; [discriminate|].
    pose proof (skip_ws_cons_length _ _ _ Ew) as Hl1.
    destruct (colon =? 58) eqn:E58; [|discriminate].
    destruct (Json.scan_once f (Json.skip_ws r1)) as [[v r2]|] eqn:Eo; [|discriminate].
    pose proof (consumed_length _ _ (proj1 (scan_consumed f) _ _ _ Eo)) as Hl2.
    pose proof (skip_ws_length r1) as Hl3.
    destruct (Json.skip_ws r2) as [|c r3] eqn:Ew2; [discriminate|].
    pose proof (skip_ws_cons_length _ _ _ Ew2) as Hl4.
    destruct (c =? 125) eqn:E125.
    { inversion H; subst.
      refuel scan_once_fuel_le IHo Eo m. rewrite Ew2, E125. reflexivity. }
    destruct (c =? 44) eqn:E44; [|discriminate].
    destruct (Json.scan_pairs f (Json.skip_ws r3)) as [[kvs' r4]|] eqn:Ep; [|discriminate].
    inversion H; subst.
    pose proof (consumed_length _ _ (proj2 (proj2 (scan_consumed f)) _ _ _ Ep)) as Hl5.
    pose proof (skip_ws_length r3) as Hl6.
    refuel scan_once_fuel_le IHo Eo m. rewrite Ew2, E125, E44.
    refuel scan_pairs_fuel_le IHp Ep m. reflexivity.
Qed.

(** The fuel [loads] gives the scanner is enough: a text that some fuel
    decodes is decoded with the fuel its length gives, to the same
    document, and a text [loads] rejects is rejected with any fuel. *)
Theorem loads_fuel_enough (s : str) (f : nat) (v : json) (r : str) :
  Json.scan_once f (Json.skip_ws s) = Some (v, r) ->
  Json.scan_once (S (length s)) (Json.skip_ws s) = Some (v, r).
Proof.
  intros H. pose proof (skip_ws_length s).
  apply (scan_once_fuel_le (length (Json.skip_ws s) - length r)); [lia|].
  exact (proj1 (scan_fuel_consumed f) _ _ _ H).
Qed.

(** *** The edge of text *)

(** A string that holds a surrogate pair as two code points is outside
    [valid_text]: the encoder writes two escapes and the decoder joins
    them into one code point. *)
Example surrogate_pair_joined :
  Json.loads (Json.dumps Sample.interp0 (JStr [55357; 56832])) = Some (JStr [128512])
  /\ Json.loads (Json.dumps Sample.interp0 (JStr [128512])) = Some (JStr [128512])
  /\ Json.loads (Json.dumps Sample.interp0 (JStr [55357; 32])) = Some (JStr [55357; 32]).
Proof. vm_compute. repeat split. Qed.

(** * Further properties *)

(** ** Further properties of [src/cache_utils.py] *)


Lemma ensure_cache_dir_spec (fs fs1 : gmap str node) :
  CacheUtils._ensure_cache_dir fs = Py.Returns fs1 ->
  fs1 !! CacheUtils.CACHE_DIR = Some Dir
  /\ (forall p, p <> CacheUtils.CACHE_DIR -> fs1 !! p = fs !! p).
Proof.
  unfold CacheUtils._ensure_cache_dir, CacheUtils.mkdir_exist_ok.
  destruct (fs !! CacheUtils.CACHE_DIR) as [[|c]|] eqn:E; intros [= <-].
  - auto.
  - split; [apply lookup_insert_eq|]. intros p Hp. apply lookup_insert_ne. congruence.
Qed.

Lemma fs_empty_cache_dir : Sample.fs_empty_cache !! CacheUtils.CACHE_DIR = Some Dir.
Proof. apply lookup_insert_eq. Qed.

Lemma entry_above_dir (fs : gmap str node) (name : str) (x : node) :
  fs !! CacheUtils.CACHE_DIR = Some Dir ->
  <[CacheUtils.path_join CacheUtils.CACHE_DIR name := x]> fs !! CacheUtils.CACHE_DIR
  = Some Dir.
Proof. intros H. rewrite lookup_insert_ne; [exact H | apply cache_file_not_dir]. Qed.


Lemma refused_cache_dir : CacheUtils.refused CacheUtils.CACHE_DIR = None.
Proof. vm_compute. reflexivity. Qed.

Lemma path_exists_entry (fs : gmap str node) (p : str) (x : node) :
  fs !! p = Some x -> CacheUtils.path_exists fs p = Py.Returns true.
Proof. intros H. unfold CacheUtils.path_exists. rewrite H. reflexivity. Qed.

Lemma cache_dir_exists (fs : gmap str node) :
  CacheUtils.path_exists fs CacheUtils.CACHE_DIR
  = Py.Returns (match fs !! CacheUtils.CACHE_DIR with Some _ => true | None => false end).
Proof.
  unfold CacheUtils.path_exists. rewrite refused_cache_dir.
  destruct (fs !! CacheUtils.CACHE_DIR); reflexivity.
Qed.

Lemma get_entry (fs : gmap str node) (repo_url : str) (issue_number : Z) (x : node) :
  fs !! CacheUtils.CACHE_DIR = Some Dir ->
  fs !! CacheUtils.cache_file repo_url issue_number = Some x ->
  CacheUtils.get_cached_analysis fs repo_url issue_number
  = Py.Returns (fs, match x with
                    | File c => Json.loads c
                    | Dir => None
                    end).
Proof.
  intros Hdir Hentry. unfold CacheUtils.get_cached_analysis, CacheUtils._ensure_cache_dir,
    CacheUtils.mkdir_exist_ok.
  rewrite Hdir. cbn [mbind outcome_bind Py.bind].
  fold (CacheUtils.cache_file repo_url issue_number).
  rewrite (path_exists_entry _ _ _ Hentry). cbn [mbind outcome_bind Py.bind].
  unfold CacheUtils.read_file. rewrite Hentry.
  destruct x as [|c]; cbn [mbind outcome_bind Py.bind]; [reflexivity|].
  unfold CacheUtils.json_load. destruct (Json.loads c); reflexivity.
Qed.

(** X2: an entry that cannot be opened as a file (a directory sits at
    its path) or whose content is not a JSON document is reported as not
    cached: [get_cached_analysis] returns [None], raises nothing and
    leaves the file system as it was. *)
Theorem get_unreadable (fs : gmap str node) (repo_url : str) (issue_number : Z) :
  fs !! CacheUtils.CACHE_DIR = Some Dir ->
  fs !! CacheUtils.cache_file repo_url issue_number = Some Dir
  \/ (exists c, fs !! CacheUtils.cache_file repo_url issue_number = Some (File c)
                /\ Json.loads c = None) ->
  CacheUtils.get_cached_analysis fs repo_url issue_number = Py.Returns (fs, None).
Proof.
  intros Hdir [Hentry | (c & Hentry & Hc)].
  - apply (get_entry _ _ _ _ Hdir Hentry).
  - rewrite (get_entry _ _ _ _ Hdir Hentry). rewrite Hc. reflexivity.
Qed.

Lemma get_unreadable_witness :
  CacheUtils.get_cached_analysis Sample.fs_corrupt Sample.react 42
  = Py.Returns (Sample.fs_corrupt, None)
  /\ CacheUtils.get_cached_analysis Sample.fs_blocked Sample.react 42
     = Py.Returns (Sample.fs_blocked, None).
Proof.
  split.
  - apply get_unreadable.
    + apply entry_above_dir, fs_empty_cache_dir.
    + right. exists (py "{ truncated"). split; [apply lookup_insert_eq | reflexivity].
  - apply get_unreadable.
    + apply entry_above_dir, fs_empty_cache_dir.
    + left. apply lookup_insert_eq.
Defined.

(** X3: when a regular file sits where the cache directory should be,
    [get_cached_analysis] and [cache_analysis] raise (the directory is
    created outside their [try] blocks), while [clear_cache] finds
    nothing to remove and returns. *)
Theorem cache_dir_is_file (b : builtins) (fs : gmap str node) (c : str)
  (repo_url : str) (issue_number : Z) (result : json) :
  fs !! CacheUtils.CACHE_DIR = Some (File c) ->
  (exists e, CacheUtils.get_cached_analysis fs repo_url issue_number = Py.Raises e)
  /\ (exists e, CacheUtils.cache_analysis b fs repo_url issue_number result = Py.Raises e)
  /\ CacheUtils.clear_cache fs = Py.Returns fs.
Proof.
  intros H. unfold CacheUtils.get_cached_analysis, CacheUtils.cache_analysis,
    CacheUtils.clear_cache, CacheUtils._ensure_cache_dir, CacheUtils.mkdir_exist_ok,
    CacheUtils.glob_json.
  rewrite (path_exists_entry _ _ _ H), H.
  cbn [mbind outcome_bind Py.bind CacheUtils.unlink_all]. eauto.
Qed.

Lemma cache_dir_is_file_witness :
  (exists e, CacheUtils.get_cached_analysis Sample.fs_no_directory Sample.react 42
             = Py.Raises e)
  /\ (exists e, CacheUtils.cache_analysis Sample.interp0 Sample.fs_no_directory
                  Sample.react 42 Sample.example_record = Py.Raises e)
  /\ CacheUtils.clear_cache Sample.fs_no_directory = Py.Returns Sample.fs_no_directory.
Proof. apply (cache_dir_is_file _ _ []). apply lookup_insert_eq. Defined.

(** X4: a write that fails is swallowed: when the entry's path cannot
    be opened for writing, [cache_analysis] returns without raising and
    without changing the file system, and a later [get_cached_analysis]
    of the key returns [None]. *)
Theorem put_failure_swallowed (b : builtins) (fs : gmap str node)
  (repo_url : str) (issue_number : Z) (result : json) :
  fs !! CacheUtils.CACHE_DIR = Some Dir ->
  fs !! CacheUtils.cache_file repo_url issue_number = Some Dir ->
  CacheUtils.cache_analysis b fs repo_url issue_number result = Py.Returns fs
  /\ CacheUtils.get_cached_analysis fs repo_url issue_number = Py.Returns (fs, None).
Proof.
  intros Hdir Hentry. split; [|apply (get_entry _ _ _ _ Hdir Hentry)].
  unfold CacheUtils.cache_analysis, CacheUtils._ensure_cache_dir,
    CacheUtils.mkdir_exist_ok, CacheUtils.write_file.
  rewrite Hdir. cbn [mbind outcome_bind Py.bind]. rewrite Hdir.
  fold (CacheUtils.cache_file repo_url issue_number). rewrite Hentry. reflexivity.
Qed.

Lemma put_failure_swallowed_witness :
  CacheUtils.cache_analysis Sample.interp0 Sample.fs_blocked Sample.react 42
    Sample.example_record = Py.Returns Sample.fs_blocked
  /\ CacheUtils.get_cached_analysis Sample.fs_blocked Sample.react 42
     = Py.Returns (Sample.fs_blocked, None).
Proof.
  apply put_failure_swallowed.
  - apply entry_above_dir, fs_empty_cache_dir.
  - apply lookup_insert_eq.
Defined.

Lemma put_spec (b : builtins) (fs : gmap str node) (repo_url : str)
  (issue_number : Z) (r : json) :
  CacheUtils.put_succeeds b fs repo_url issue_number r ->
  exists fs',
    CacheUtils.cache_analysis b fs repo_url issue_number r = Py.Returns fs'
    /\ fs' !! CacheUtils.CACHE_DIR = Some Dir
    /\ fs' !! CacheUtils.cache_file repo_url issue_number = Some (File (Json.dumps b r))
    /\ (forall p, p <> CacheUtils.CACHE_DIR ->
                  p <> CacheUtils.cache_file repo_url issue_number ->
                  fs' !! p = fs !! p).
Proof.
  intros (fs1 & fs2 & Hens & Hwrite).
  exists fs2. unfold CacheUtils.cache_analysis.
  rewrite Hens. cbn [mbind outcome_bind Py.bind]. rewrite Hwrite.
  split; [reflexivity|].
  destruct (ensure_cache_dir_spec _ _ Hens) as [Hdir Hother].
  unfold CacheUtils.write_file in Hwrite. rewrite Hdir in Hwrite.
  fold (CacheUtils.cache_file repo_url issue_number) in Hwrite.
  assert (Hfs2 : fs2 = <[CacheUtils.cache_file repo_url issue_number
                          := File (Json.dumps b r)]> fs1).
  { destruct (fs1 !! CacheUtils.cache_file repo_url issue_number) as [[|c]|];
      [| |destruct (CacheUtils.refused (CacheUtils.cache_file repo_url issue_number))];
      inversion Hwrite; reflexivity. }
  subst fs2. repeat split.
  - rewrite lookup_insert_ne; [exact Hdir | apply cache_file_not_dir].
  - apply lookup_insert_eq.
  - intros p H1 H2. rewrite lookup_insert_ne by congruence. apply Hother, H1.
Qed.

Lemma get_stored (b : builtins) (fs : gmap str node) (repo_url : str)
  (issue_number : Z) (r : json) :
  storable r ->
  fs !! CacheUtils.CACHE_DIR = Some Dir ->
  fs !! CacheUtils.cache_file repo_url issue_number = Some (File (Json.dumps b r)) ->
  CacheUtils.get_cached_analysis fs repo_url issue_number = Py.Returns (fs, Some r).
Proof.
  intros Sr Hdir Hfile. unfold CacheUtils.get_cached_analysis, CacheUtils._ensure_cache_dir,
    CacheUtils.mkdir_exist_ok.
  rewrite Hdir. cbn [mbind outcome_bind Py.bind].
  fold (CacheUtils.cache_file repo_url issue_number).
  rewrite (path_exists_entry _ _ _ Hfile). cbn [mbind outcome_bind Py.bind].
  unfold CacheUtils.read_file. rewrite Hfile.
  cbn [mbind outcome_bind Py.bind]. unfold CacheUtils.json_load.
  rewrite (loads_dumps b r Sr). reflexivity.
Qed.

Lemma put_again_succeeds (b : builtins) (fs : gmap str node) (repo_url : str)
  (issue_number : Z) (c : str) (r : json) :
  fs !! CacheUtils.CACHE_DIR = Some Dir ->
  fs !! CacheUtils.cache_file repo_url issue_number = Some (File c) ->
  CacheUtils.put_succeeds b fs repo_url issue_number r.
Proof.
  intros Hdir Hfile. unfold CacheUtils.put_succeeds, CacheUtils._ensure_cache_dir,
    CacheUtils.mkdir_exist_ok, CacheUtils.write_file.
  rewrite Hdir. eexists _, _. split; [reflexivity|]. rewrite Hdir.
  fold (CacheUtils.cache_file repo_url issue_number). rewrite Hfile. reflexivity.
Qed.

(** X5: the last put wins: after two successful puts under one key,
    [get_cached_analysis] returns the record of the second one. *)
Theorem put_overwrites (b : builtins) (fs : gmap str node) (repo_url : str)
  (issue_number : Z) (r1 r2 : json) :
  storable r2 ->
  CacheUtils.put_succeeds b fs repo_url issue_number r1 ->
  exists fs1 fs2,
    CacheUtils.cache_analysis b fs repo_url issue_number r1 = Py.Returns fs1
    /\ CacheUtils.cache_analysis b fs1 repo_url issue_number r2 = Py.Returns fs2
    /\ CacheUtils.get_cached_analysis fs2 repo_url issue_number = Py.Returns (fs2, Some r2).
Proof.
  intros S2 H1.
  destruct (put_spec _ _ _ _ _ H1) as (fs1 & E1 & Hd1 & Hf1 & _).
  destruct (put_spec b fs1 repo_url issue_number r2
              (put_again_succeeds _ _ _ _ _ _ Hd1 Hf1)) as (fs2 & E2 & Hd2 & Hf2 & _).
  exists fs1, fs2. repeat split; try assumption.
  apply (get_stored b); assumption.
Qed.

Lemma put_overwrites_witness :
  exists fs1 fs2,
    CacheUtils.cache_analysis Sample.interp0 ∅ Sample.react 42 Sample.parse_failure
    = Py.Returns fs1
    /\ CacheUtils.cache_analysis Sample.interp0 fs1 Sample.react 42 Sample.example_record
       = Py.Returns fs2
    /\ CacheUtils.get_cached_analysis fs2 Sample.react 42
       = Py.Returns (fs2, Some Sample.example_record).
Proof.
  apply put_overwrites.
  - apply example_record_well_formed.
  - apply put_creates_cache_dir; [apply lookup_empty | apply lookup_empty |].
    vm_compute. reflexivity.
Defined.



(** *** Clearing the cache *)

Lemma listed_iff (fs : gmap str node) (p : str) :
  p ∈ map fst (map_to_list fs) <-> is_Some (fs !! p).
Proof.
  rewrite list_elem_of_In, in_map_iff. split.
  - intros ([q x] & <- & H). apply list_elem_of_In, elem_of_map_to_list in H. eauto.
  - intros [x H]. exists (p, x). split; [reflexivity|].
    apply list_elem_of_In, elem_of_map_to_list, H.
Qed.

Lemma listed_NoDup (fs : gmap str node) : NoDup (map fst (map_to_list fs)).
Proof.
  replace (map fst (map_to_list fs)) with ((map_to_list fs).*1).
  - apply NoDup_fst_map_to_list.
  - induction (map_to_list fs) as [|x l IH]; cbn; congruence.
Qed.

Lemma glob_json_iff (fs : gmap str node) (d p : str) :
  p ∈ CacheUtils.glob_json fs d
  <-> fs !! d = Some Dir /\ CacheUtils.globbed d p = true /\ is_Some (fs !! p).
Proof.
  unfold CacheUtils.glob_json.
  destruct (fs !! d) as [[|c]|].
  - rewrite list_elem_of_filter, listed_iff. tauto.
  - split; [intros H; inversion H | intros [[=] _]].
  - split; [intros H; inversion H | intros [[=] _]].
Qed.

Lemma glob_json_NoDup (fs : gmap str node) (d : str) : NoDup (CacheUtils.glob_json fs d).
Proof.
  unfold CacheUtils.glob_json.
  destruct (fs !! d) as [[|c]|];
    [apply NoDup_filter, listed_NoDup | constructor | constructor].
Qed.

Lemma unlink_all_spec (files : list str) (fs fs' : gmap str node) :
  CacheUtils.unlink_all files fs = Py.Returns fs' ->
  forall q, (q ∈ files -> fs' !! q = None) /\ (q ∉ files -> fs' !! q = fs !! q).
Proof.
  revert fs. induction files as [|p files IH]; intros fs H q; cbn in H.
  - inversion H; subst. split; [intros Hq; inversion Hq | reflexivity].
  - unfold CacheUtils.unlink in H at 1.
    destruct (fs !! p) as [[|c]|]; try discriminate. cbn in H.
    destruct (IH _ H q) as [Hin Hout]. split.
    + intros Hq. destruct (decide (q ∈ files)) as [Hm|Hm]; [auto|].
      apply elem_of_cons in Hq as [->|Hq]; [|contradiction].
      rewrite (Hout Hm). apply lookup_delete_eq.
    + intros Hq. apply not_elem_of_cons in Hq as [Hne Hq].
      rewrite (Hout Hq). apply lookup_delete_ne. congruence.
Qed.

Lemma unlink_all_files (files : list str) (fs : gmap str node) :
  NoDup files ->
  (forall p, p ∈ files -> exists c, fs !! p = Some (File c)) ->
  exists fs', CacheUtils.unlink_all files fs = Py.Returns fs'.
Proof.
  revert fs. induction files as [|p files IH]; intros fs Hnd Hfiles; cbn.
  - eauto.
  - apply NoDup_cons in Hnd as [Hp Hnd].
    destruct (Hfiles p ltac:(left)) as [c Hc].
    unfold CacheUtils.unlink at 1. rewrite Hc. cbn.
    apply IH; [exact Hnd|]. intros q Hq.
    rewrite lookup_delete_ne by (intros ->; contradiction).
    apply Hfiles. right. exact Hq.
Qed.

Lemma unlink_all_directory (files : list str) (fs : gmap str node) (p : str) :
  p ∈ files -> fs !! p = Some Dir ->
  exists e, CacheUtils.unlink_all files fs = Py.Raises e.
Proof.
  revert fs. induction files as [|q files IH]; intros fs Hp Hdir; [inversion Hp|].
  cbn. unfold CacheUtils.unlink at 1.
  destruct (fs !! q) as [[|c]|] eqn:Hq; cbn; eauto.
  apply elem_of_cons in Hp as [->|Hp]; [congruence|].
  apply IH; [exact Hp|]. rewrite lookup_delete_ne by congruence. exact Hdir.
Qed.

Lemma unlink_all_raises (files : list str) (fs : gmap str node) (e : Py.exn) :
  NoDup files -> (forall p, p ∈ files -> is_Some (fs !! p)) ->
  CacheUtils.unlink_all files fs = Py.Raises e ->
  exists p, p ∈ files /\ fs !! p = Some Dir.
Proof.
  revert fs. induction files as [|p files IH]; intros fs Hnd Hsome H; [discriminate|].
  apply NoDup_cons in Hnd as [Hp Hnd]. cbn in H. unfold CacheUtils.unlink in H at 1.
  destruct (fs !! p) as [[|c]|] eqn:Hfp.
  - exists p. split; [left | exact Hfp].
  - cbn in H. destruct (IH (delete p fs) Hnd) as (q & Hq & Hd); [|exact H|].
    + intros q Hq. rewrite lookup_delete_ne by (intros ->; contradiction).
      apply Hsome. right. exact Hq.
    + exists q. split; [right; exact Hq|].
      rewrite lookup_delete_ne in Hd by (intros ->; contradiction). exact Hd.
  - destruct (Hsome p ltac:(left)) as [x Hx]. congruence.
Qed.

Lemma startswith_length (s p : str) :
  PyStr.startswith s p = true -> (length p <= length s)%nat.
Proof. intros H. apply startswith_true in H. rewrite H, length_app. lia. Qed.

Lemma globbed_not_directory (d : str) : CacheUtils.globbed d d = false.
Proof.
  unfold CacheUtils.globbed, CacheUtils.entry_name.
  destruct (PyStr.startswith d (d ++ [47])) eqn:E; [|reflexivity].
  apply startswith_length in E. rewrite length_app in E. cbn in E. lia.
Qed.

Lemma clear_cache_lookup (fs fs' : gmap str node) (p : str) :
  fs !! CacheUtils.CACHE_DIR = Some Dir ->
  CacheUtils.clear_cache fs = Py.Returns fs' ->
  fs' !! p = if CacheUtils.globbed CacheUtils.CACHE_DIR p then None else fs !! p.
Proof.
  unfold CacheUtils.clear_cache. intros Hdir H.
  rewrite (path_exists_entry _ _ _ Hdir) in H. cbn [mbind outcome_bind Py.bind] in H.
  destruct (unlink_all_spec _ _ _ H p) as [Hin Hout].
  destruct (CacheUtils.globbed CacheUtils.CACHE_DIR p) eqn:Hg.
  - destruct (fs !! p) as [x|] eqn:Hp.
    + apply Hin, glob_json_iff. rewrite Hp. eauto.
    + apply Hout. rewrite glob_json_iff, Hp.
      intros (_ & _ & [x Hx]). discriminate.
  - apply Hout. rewrite glob_json_iff. intros (_ & Hg' & _). congruence.
Qed.

(** X7: when [clear_cache] returns, every path matched by
    [.cache/*.json] is gone and every other path, the cache directory
    included, is as before; when [.cache] is not a directory nothing
    changes at all. *)
Theorem clear_cache_spec (fs fs' : gmap str node) :
  CacheUtils.clear_cache fs = Py.Returns fs' ->
  (fs !! CacheUtils.CACHE_DIR <> Some Dir -> fs' = fs)
  /\ forall p,
       (CacheUtils.globbed CacheUtils.CACHE_DIR p = false -> fs' !! p = fs !! p)
       /\ (CacheUtils.globbed CacheUtils.CACHE_DIR p = true ->
           fs !! CacheUtils.CACHE_DIR = Some Dir -> fs' !! p = None).
Proof.
  intros H.
  assert (Hnot : fs !! CacheUtils.CACHE_DIR <> Some Dir -> fs' = fs).
  { unfold CacheUtils.clear_cache, CacheUtils.glob_json in H.
    rewrite cache_dir_exists in H. cbn [mbind outcome_bind Py.bind] in H.
    destruct (fs !! CacheUtils.CACHE_DIR) as [[|c]|]; [congruence | |];
      inversion H; reflexivity. }
  split; [exact Hnot|].
  intros p. split.
  - intros Hg. destruct (fs !! CacheUtils.CACHE_DIR) as [[|c]|] eqn:Hdir.
    + rewrite (clear_cache_lookup _ _ p Hdir H), Hg. reflexivity.
    + rewrite Hnot by discriminate. reflexivity.
    + rewrite Hnot by discriminate. reflexivity.
  - intros Hg Hdir. rewrite (clear_cache_lookup _ _ p Hdir H), Hg. reflexivity.
Qed.

Lemma clear_fs_cached :
  CacheUtils.clear_cache Sample.fs_cached
  = Py.Returns (<[py ".cache/notes.txt" := File (py "keep")]> Sample.fs_empty_cache).
Proof. vm_compute. reflexivity. Qed.

Lemma clear_cache_spec_witness :
  (Sample.fs_cached !! CacheUtils.CACHE_DIR <> Some Dir ->
   <[py ".cache/notes.txt" := File (py "keep")]> Sample.fs_empty_cache = Sample.fs_cached)
  /\ forall p,
       (CacheUtils.globbed CacheUtils.CACHE_DIR p = false ->
        (<[py ".cache/notes.txt" := File (py "keep")]> Sample.fs_empty_cache) !! p
        = Sample.fs_cached !! p)
       /\ (CacheUtils.globbed CacheUtils.CACHE_DIR p = true ->
           Sample.fs_cached !! CacheUtils.CACHE_DIR = Some Dir ->
           (<[py ".cache/notes.txt" := File (py "keep")]> Sample.fs_empty_cache) !! p
           = None).
Proof. apply clear_cache_spec. vm_compute. reflexivity. Defined.

(** X8: with the cache directory in place, [clear_cache] raises exactly
    when a directory matches [.cache/*.json]: [unlink] does not remove
    directories and the loop has no [try]. *)
Theorem clear_cache_raises_iff (fs : gmap str node) :
  fs !! CacheUtils.CACHE_DIR = Some Dir ->
  (exists e, CacheUtils.clear_cache fs = Py.Raises e)
  <-> exists p, CacheUtils.globbed CacheUtils.CACHE_DIR p = true /\ fs !! p = Some Dir.
Proof.
  intros Hdir. unfold CacheUtils.clear_cache.
  rewrite (path_exists_entry _ _ _ Hdir). cbn [mbind outcome_bind Py.bind].
  split.
  - intros [e He].
    assert (Hsome : forall p, p ∈ CacheUtils.glob_json fs CacheUtils.CACHE_DIR ->
                              is_Some (fs !! p)).
    { intros p Hp. apply glob_json_iff in Hp as (_ & _ & Hp). exact Hp. }
    destruct (unlink_all_raises _ _ _ (glob_json_NoDup _ _) Hsome He) as (p & Hp & Hd).
    exists p. split; [|exact Hd]. apply glob_json_iff in Hp. tauto.
  - intros (p & Hg & Hp). apply (unlink_all_directory _ _ p); [|exact Hp].
    apply glob_json_iff. rewrite Hp. eauto.
Qed.

Lemma clear_cache_raises_iff_witness :
  (exists e, CacheUtils.clear_cache Sample.fs_blocked = Py.Raises e)
  <-> exists p, CacheUtils.globbed CacheUtils.CACHE_DIR p = true
                /\ Sample.fs_blocked !! p = Some Dir.
Proof. apply clear_cache_raises_iff. vm_compute. reflexivity. Defined.

(** *** The characters of a key *)

Lemma replace_from_elements (k : nat) (s old new : str) (c : N) :
  In c (PyStr.replace_from k s old new) -> In c s \/ In c new.
Proof.
  revert k. induction s as [|x s IH]; intros k; cbn [PyStr.replace_from]; [tauto|].
  destruct k as [|k].
  - destruct (PyStr.startswith (x :: s) old).
    + rewrite in_app_iff. intros [H|H]; [tauto|]. apply IH in H. cbn. tauto.
    + cbn. intros [H|H]; [tauto|]. apply IH in H. tauto.
  - intros H. apply IH in H. cbn. tauto.
Qed.

Lemma replace_char_gone (s new : str) (c : N) :
  ~ In c new -> ~ In c (PyStr.replace s [c] new).
Proof.
  intros Hnew. unfold PyStr.replace.
  induction s as [|x s IH]; cbn [PyStr.replace_from PyStr.startswith length Nat.sub];
    [tauto|].
  destruct (N.eqb_spec c x) as [->|Hne]; cbn [andb].
  - rewrite in_app_iff. tauto.
  - cbn. intros [H|H]; [congruence | tauto].
Qed.

Lemma uint_digits (u : Decimal.uint) (c : N) :
  In c (py (NilEmpty.string_of_uint u)) -> 48 <= c <= 57.
Proof.
  unfold py. induction u; cbn; try tauto;
    (intros [H|H]; [subst; cbv; split; discriminate | auto]).
Qed.

Lemma of_Z_characters (n : Z) (c : N) :
  In c (PyStr.of_Z n) -> 48 <= c <= 57 \/ c = 45.
Proof.
  unfold PyStr.of_Z.
  assert (Hu : forall u, In c (py (NilZero.string_of_uint u)) -> 48 <= c <= 57).
  { intros u. destruct u; try apply (uint_digits (_ _));
      try (intros H; apply (uint_digits _ c) in H; exact H).
    cbv. intros [H|[]]. subst. split; discriminate. }
  destruct (Z.to_int n) as [u|u]; cbn [NilZero.string_of_int].
  - intros H. left. apply (Hu u H).
  - unfold py. cbn. intros [H|H]; [right; auto|]. left. apply (Hu u H).
Qed.

Lemma endswith_app (a suffix : str) : PyStr.endswith (a ++ suffix) suffix = true.
Proof. unfold PyStr.endswith. rewrite rev_app_distr. apply startswith_app. Qed.

Lemma cache_key_characters (repo_url : str) (issue_number : Z) (x : N) :
  x = 47 \/ x = 58 -> ~ In x (CacheUtils._get_cache_key repo_url issue_number).
Proof.
  intros Hx. unfold CacheUtils._get_cache_key.
  assert (Hurl : forall c, c = 47 \/ c = 58 ->
            ~ In c (PyStr.replace (PyStr.replace repo_url (py "/") (py "_")) (py ":") [])).
  { intros c [-> | ->].
    - unfold PyStr.replace at 1. change (py ":") with [58].
      intros H. apply replace_from_elements in H as [H|[]].
      revert H. apply (replace_char_gone repo_url (py "_") 47).
      vm_compute. intros [H|[]]. discriminate.
    - apply (replace_char_gone _ [] 58). tauto. }
  assert (Hnum : forall c, c = 47 \/ c = 58 -> ~ In c (PyStr.of_Z issue_number)).
  { intros c Hc H. apply of_Z_characters in H. lia. }
  assert (Hlit : forall c, c = 47 \/ c = 58 ->
            ~ In c (py "_issue_") /\ ~ In c (py ".json")).
  { intros c [-> | ->]; vm_compute; split; intros H;
      repeat (destruct H as [H|H]; [discriminate|]); exact H. }
  rewrite !in_app_iff. specialize (Hurl x Hx). specialize (Hnum x Hx).
  specialize (Hlit x Hx). tauto.
Qed.

Lemma cache_key_suffix (repo_url : str) (issue_number : Z) :
  PyStr.endswith (CacheUtils._get_cache_key repo_url issue_number) (py ".json") = true.
Proof. unfold CacheUtils._get_cache_key. rewrite !app_assoc. apply endswith_app. Qed.

(** X9: a cache key is a plain file name: it holds no slash and no
    colon, whatever the repository URL, and it ends in [.json]; so the
    entry lies directly in the cache directory. *)
Theorem cache_key_safe (repo_url : str) (issue_number : Z) :
  let key := CacheUtils._get_cache_key repo_url issue_number in
  ~ In 47 key /\ ~ In 58 key /\ PyStr.endswith key (py ".json") = true.
Proof.
  cbn zeta. repeat split.
  - apply cache_key_characters. left. reflexivity.
  - apply cache_key_characters. right. reflexivity.
  - apply cache_key_suffix.
Qed.

(** X10: for one repository URL, different issue numbers derive
    different keys. *)
Theorem cache_key_issue_distinct (repo_url : str) (m n : Z) :
  m <> n ->
  CacheUtils._get_cache_key repo_url m <> CacheUtils._get_cache_key repo_url n.
Proof. intros Hne H. apply Hne, (cache_key_issue_injective repo_url), H. Qed.

Lemma cache_key_issue_distinct_witness :
  CacheUtils._get_cache_key Sample.react 1 <> CacheUtils._get_cache_key Sample.react 2.
Proof. apply cache_key_issue_distinct. lia. Defined.

Lemma globbed_cache_file (repo_url : str) (issue_number : Z) :
  CacheUtils.globbed CacheUtils.CACHE_DIR (CacheUtils.cache_file repo_url issue_number)
  = true.
Proof.
  pose proof (cache_key_characters repo_url issue_number 47 (or_introl eq_refl)) as Hslash.
  pose proof (cache_key_suffix repo_url issue_number) as Hjson.
  unfold CacheUtils.globbed, CacheUtils.entry_name, CacheUtils.cache_file,
    CacheUtils.path_join.
  rewrite app_assoc, startswith_app.
  replace (length CacheUtils.CACHE_DIR + 1)%nat with (length (CacheUtils.CACHE_DIR ++ [47]))
    by (rewrite length_app; reflexivity).
  rewrite drop_app_length. change (skipn ?n ?l) with (drop n l).
  rewrite Hjson, andb_true_r. apply negb_true_iff, not_true_is_false.
  intros H. apply existsb_exists in H as (x & Hx & E). apply N.eqb_eq in E. subst x.
  contradiction.
Qed.

(** *** Keys the system refuses *)

Lemma split_no_slash (s : str) : ~ In 47 s -> PyStr.split_from 0 s [47] = [s].
Proof.
  induction s as [|c s IH]; [reflexivity|]. cbn [In]. intros H.
  cbn [PyStr.split_from PyStr.startswith length Nat.sub].
  destruct (N.eqb_spec 47 c) as [E|_]; [subst c; tauto|]. cbn [andb].
  rewrite IH by tauto. reflexivity.
Qed.

Lemma split_two (a b : str) :
  ~ In 47 a -> ~ In 47 b -> PyStr.split (a ++ [47] ++ b) [47] = [a; b].
Proof.
  intros Ha Hb. unfold PyStr.split. induction a as [|c a IH].
  - cbn [app PyStr.split_from PyStr.startswith length Nat.sub N.eqb Pos.eqb andb].
    rewrite split_no_slash by assumption. reflexivity.
  - cbn [In] in Ha. cbn [app PyStr.split_from PyStr.startswith length Nat.sub] in *.
    destruct (N.eqb_spec 47 c) as [E|_]; [subst c; tauto|]. cbn [andb].
    rewrite IH by tauto. reflexivity.
Qed.

Lemma unencodable_cache_file (repo_url : str) (issue_number : Z) :
  existsb CacheUtils.unencodable (CacheUtils.cache_file repo_url issue_number)
  = existsb CacheUtils.unencodable (CacheUtils._get_cache_key repo_url issue_number).
Proof.
  unfold CacheUtils.cache_file, CacheUtils.path_join. rewrite !existsb_app.
  change (existsb CacheUtils.unencodable CacheUtils.CACHE_DIR) with false.
  reflexivity.
Qed.

Lemma too_long_cache_file (repo_url : str) (issue_number : Z) :
  CacheUtils.too_long (CacheUtils.cache_file repo_url issue_number)
  = (CacheUtils.NAME_MAX
     <? CacheUtils.name_bytes (CacheUtils._get_cache_key repo_url issue_number)).
Proof.
  unfold CacheUtils.too_long, CacheUtils.cache_file, CacheUtils.path_join.
  change (py "/") with [47]. rewrite split_two.
  - cbn [existsb].
    change (CacheUtils.NAME_MAX <? CacheUtils.name_bytes CacheUtils.CACHE_DIR) with false.
    rewrite orb_false_r. reflexivity.
  - vm_compute. intros H. repeat (destruct H as [H|H]; [discriminate H|]). exact H.
  - apply cache_key_characters. left. reflexivity.
Qed.

(** What [get_cached_analysis] does when nothing is stored under the
    key: the outcome of line 41. *)
Lemma get_missing (fs fs1 : gmap str node) (repo_url : str) (issue_number : Z) :
  CacheUtils._ensure_cache_dir fs = Py.Returns fs1 ->
  fs1 !! CacheUtils.cache_file repo_url issue_number = None ->
  CacheUtils.get_cached_analysis fs repo_url issue_number
  = if existsb CacheUtils.unencodable (CacheUtils._get_cache_key repo_url issue_number)
    then Py.Returns (fs1, None)
    else if CacheUtils.NAME_MAX
            <? CacheUtils.name_bytes (CacheUtils._get_cache_key repo_url issue_number)
         then Py.Raises (Py.OSError (py "[Errno 36] File name too long"))
         else Py.Returns (fs1, None).
Proof.
  intros Hens Hfile. unfold CacheUtils.get_cached_analysis. rewrite Hens.
  cbn [mbind outcome_bind Py.bind]. fold (CacheUtils.cache_file repo_url issue_number).
  unfold CacheUtils.path_exists, CacheUtils.refused. rewrite Hfile.
  rewrite unencodable_cache_file, too_long_cache_file.
  destruct (existsb CacheUtils.unencodable
              (CacheUtils._get_cache_key repo_url issue_number)); [reflexivity|].
  destruct (CacheUtils.NAME_MAX
            <? CacheUtils.name_bytes (CacheUtils._get_cache_key repo_url issue_number));
    reflexivity.
Qed.

Example get_over_long_key :
  CacheUtils.get_cached_analysis ∅ (repeat 97 300%nat) 1
  = Py.Raises (Py.OSError (py "[Errno 36] File name too long")).
Proof. vm_compute. reflexivity. Qed.

Example put_over_long_key :
  CacheUtils.cache_analysis Sample.interp0 ∅ (repeat 97 300%nat) 1 Sample.example_record
  = Py.Returns Sample.fs_empty_cache.
Proof. vm_compute. reflexivity. Qed.

(** X1: when the cache directory is not a regular file and no entry is
    stored under the key, [get_cached_analysis] leaves the cache directory
    in place, created if it was missing, and changes nothing else; it
    returns [None] when the system takes the key as a file name or cannot
    even be handed it (a NUL or a surrogate in it), and raises when the
    key has more than 255 bytes: [exists()] of line 41 is outside the
    [try]. *)
Theorem get_absent (fs : gmap str node) (repo_url : str) (issue_number : Z) :
  (forall c, fs !! CacheUtils.CACHE_DIR <> Some (File c)) ->
  fs !! CacheUtils.cache_file repo_url issue_number = None ->
  let key := CacheUtils._get_cache_key repo_url issue_number in
  exists fs1,
    CacheUtils._ensure_cache_dir fs = Py.Returns fs1
    /\ fs1 !! CacheUtils.CACHE_DIR = Some Dir
    /\ (forall p, p <> CacheUtils.CACHE_DIR -> fs1 !! p = fs !! p)
    /\ (existsb CacheUtils.unencodable key = true
        \/ CacheUtils.name_bytes key <= CacheUtils.NAME_MAX ->
        CacheUtils.get_cached_analysis fs repo_url issue_number = Py.Returns (fs1, None))
    /\ (existsb CacheUtils.unencodable key = false ->
        CacheUtils.NAME_MAX < CacheUtils.name_bytes key ->
        exists e, CacheUtils.get_cached_analysis fs repo_url issue_number = Py.Raises e).
Proof.
  intros Hdir Hfile key.
  destruct (CacheUtils._ensure_cache_dir fs) as [fs1|e] eqn:E.
  - destruct (ensure_cache_dir_spec _ _ E) as [Hd Hother].
    exists fs1. repeat split; try assumption.
    + intros Hkey. rewrite (get_missing fs fs1) by
        (try assumption; rewrite Hother by apply cache_file_not_dir; exact Hfile).
      fold key. destruct (existsb CacheUtils.unencodable key); [reflexivity|].
      destruct Hkey as [Hkey|Hkey]; [discriminate|].
      apply N.ltb_ge in Hkey. rewrite Hkey. reflexivity.
    + intros Henc Hlong. rewrite (get_missing fs fs1) by
        (try assumption; rewrite Hother by apply cache_file_not_dir; exact Hfile).
      fold key. rewrite Henc. apply N.ltb_lt in Hlong. rewrite Hlong. eauto.
  - exfalso. unfold CacheUtils._ensure_cache_dir, CacheUtils.mkdir_exist_ok in E.
    destruct (fs !! CacheUtils.CACHE_DIR) as [[|c]|] eqn:E'; try discriminate.
    apply (Hdir c). reflexivity.
Qed.

Lemma get_absent_witness :
  let key := CacheUtils._get_cache_key Sample.react 42 in
  exists fs1,
    CacheUtils._ensure_cache_dir ∅ = Py.Returns fs1
    /\ fs1 !! CacheUtils.CACHE_DIR = Some Dir
    /\ (forall p, p <> CacheUtils.CACHE_DIR -> fs1 !! p = (∅ : gmap str node) !! p)
    /\ (existsb CacheUtils.unencodable key = true
        \/ CacheUtils.name_bytes key <= CacheUtils.NAME_MAX ->
        CacheUtils.get_cached_analysis ∅ Sample.react 42 = Py.Returns (fs1, None))
    /\ (existsb CacheUtils.unencodable key = false ->
        CacheUtils.NAME_MAX < CacheUtils.name_bytes key ->
        exists e, CacheUtils.get_cached_analysis ∅ Sample.react 42 = Py.Raises e).
Proof.
  apply get_absent.
  - intros c. rewrite lookup_empty. discriminate.
  - apply lookup_empty.
Defined.

(** X11: after a [clear_cache] that returns, nothing is found under any
    key: [get_cached_analysis] returns [None] for every repository URL and
    issue number whose key the system takes as a file name or cannot be
    handed, and raises for a key of more than 255 bytes. *)
Theorem clear_then_get (fs fs' : gmap str node) (repo_url : str) (issue_number : Z) :
  fs !! CacheUtils.CACHE_DIR = Some Dir ->
  CacheUtils.clear_cache fs = Py.Returns fs' ->
  let key := CacheUtils._get_cache_key repo_url issue_number in
  (existsb CacheUtils.unencodable key = true
   \/ CacheUtils.name_bytes key <= CacheUtils.NAME_MAX ->
   CacheUtils.get_cached_analysis fs' repo_url issue_number = Py.Returns (fs', None))
  /\ (existsb CacheUtils.unencodable key = false ->
      CacheUtils.NAME_MAX < CacheUtils.name_bytes key ->
      exists e, CacheUtils.get_cached_analysis fs' repo_url issue_number = Py.Raises e).
Proof.
  intros Hdir Hclear key.
  assert (Hdir' : fs' !! CacheUtils.CACHE_DIR = Some Dir).
  { rewrite (clear_cache_lookup _ _ _ Hdir Hclear), globbed_not_directory. exact Hdir. }
  assert (Hfile : fs' !! CacheUtils.cache_file repo_url issue_number = None).
  { rewrite (clear_cache_lookup _ _ _ Hdir Hclear), globbed_cache_file. reflexivity. }
  assert (Hens : CacheUtils._ensure_cache_dir fs' = Py.Returns fs').
  { unfold CacheUtils._ensure_cache_dir, CacheUtils.mkdir_exist_ok. rewrite Hdir'.
    reflexivity. }
  rewrite (get_missing fs' fs' _ _ Hens Hfile). fold key. split.
  - intros Hkey. destruct (existsb CacheUtils.unencodable key); [reflexivity|].
    destruct Hkey as [Hkey|Hkey]; [discriminate|].
    apply N.ltb_ge in Hkey. rewrite Hkey. reflexivity.
  - intros Henc Hlong. rewrite Henc. apply N.ltb_lt in Hlong. rewrite Hlong. eauto.
Qed.

Lemma clear_then_get_witness :
  let fs' := <[py ".cache/notes.txt" := File (py "keep")]> Sample.fs_empty_cache in
  let key := CacheUtils._get_cache_key Sample.react 42 in
  (existsb CacheUtils.unencodable key = true
   \/ CacheUtils.name_bytes key <= CacheUtils.NAME_MAX ->
   CacheUtils.get_cached_analysis fs' Sample.react 42 = Py.Returns (fs', None))
  /\ (existsb CacheUtils.unencodable key = false ->
      CacheUtils.NAME_MAX < CacheUtils.name_bytes key ->
      exists e, CacheUtils.get_cached_analysis fs' Sample.react 42 = Py.Raises e).
Proof.
  apply (clear_then_get Sample.fs_cached).
  - vm_compute. reflexivity.
  - vm_compute. reflexivity.
Defined.

(** *** Parsing the repository URL *)

Lemma split_slash_length (s : str) :
  length (PyStr.split s [47]) = S (slashes s).
Proof.
  unfold PyStr.split, slashes.
  induction s as [|c s IH]; [reflexivity|].
  cbn [PyStr.split_from PyStr.startswith length Nat.sub].
  destruct (N.eqb_spec 47 c) as [<-|Hne]; cbn [andb].
  - rewrite filter_cons_True by reflexivity. cbn [length]. rewrite IH. reflexivity.
  - rewrite filter_cons_False by congruence. rewrite <- IH.
    pose proof (split_from_nonempty 0 s [47]) as Hne'.
    destruct (PyStr.split_from 0 s [47]); [congruence | reflexivity].
Qed.

Lemma slashes_zero (s : str) : slashes s = 0%nat <-> ~ In 47 s.
Proof.
  unfold slashes. induction s as [|c s IH]; cbn [In]; [cbn; tauto|].
  destruct (decide (c = 47)) as [->|Hne].
  - rewrite filter_cons_True by reflexivity. cbn. split; [discriminate | tauto].
  - rewrite filter_cons_False by assumption. rewrite IH. intuition congruence.
Qed.

Lemma slashes_app (a b : str) : slashes (a ++ b) = (slashes a + slashes b)%nat.
Proof. unfold slashes. rewrite filter_app, length_app. reflexivity. Qed.

Lemma replace_nothing (s old new : str) :
  (forall a b, s <> a ++ old ++ b) -> PyStr.replace_from 0 s old new = s.
Proof.
  induction s as [|c s IH]; intros Hno; [reflexivity|].
  cbn [PyStr.replace_from].
  destruct (PyStr.startswith (c :: s) old) eqn:E.
  - apply startswith_true in E. exfalso. apply (Hno [] (skipn (length old) (c :: s))).
    exact E.
  - f_equal. apply IH. intros a b ->. apply (Hno (c :: a) b). reflexivity.
Qed.

Lemma replace_from_skip (k : nat) (a s old new : str) :
  length a = k -> PyStr.replace_from k (a ++ s) old new = PyStr.replace_from 0 s old new.
Proof.
  revert k. induction a as [|c a IH]; intros k Hk; cbn in Hk; subst k; [reflexivity|].
  cbn [app PyStr.replace_from length]. apply IH. reflexivity.
Qed.

Lemma replace_at_prefix (old rest new : str) :
  old <> [] ->
  PyStr.replace (old ++ rest) old new = new ++ PyStr.replace_from 0 rest old new.
Proof.
  intros Hne. destruct old as [|c old']; [congruence|].
  unfold PyStr.replace.
  pose proof (startswith_app (c :: old') rest) as Hstart.
  rewrite <- app_comm_cons in *. cbn [PyStr.replace_from]. rewrite Hstart.
  f_equal. apply replace_from_skip. cbn. lia.
Qed.

(** X12: for a URL [https://github.com/<owner>/<repo>] in which
    neither name holds a slash, line 35 finds exactly the owner and the
    repository. *)
Theorem canonical_url_segments (owner repo : str) :
  ~ In 47 owner -> ~ In 47 repo ->
  GithubUtils.path_segments (py "https://github.com/" ++ owner ++ [47] ++ repo)
  = [owner; repo].
Proof.
  intros Ho Hr. unfold GithubUtils.path_segments.
  generalize (eq_refl (slashes (py "https://github.com/"))).
  generalize (py "https://github.com/") at 1 3 4. intros prefix Hprefix.
  assert (H3 : slashes prefix = 3%nat) by (rewrite Hprefix; vm_compute; reflexivity).
  clear Hprefix.
  rewrite replace_at_prefix by (intros ->; discriminate H3).
  rewrite replace_nothing.
  - change (py "/") with [47]. apply split_two; assumption.
  - intros a b E. apply (f_equal slashes) in E. rewrite !slashes_app in E.
    apply slashes_zero in Ho, Hr. rewrite Ho, Hr in E.
    change (slashes [47]) with 1%nat in E. lia.
Qed.

Lemma canonical_url_segments_witness :
  GithubUtils.path_segments (py "https://github.com/" ++ py "facebook" ++ [47] ++ py "react")
  = [py "facebook"; py "react"].
Proof.
  apply canonical_url_segments; vm_compute; intros H;
    repeat (destruct H as [H|H]; [discriminate H|]); exact H.
Defined.

(** ** Further properties of [src/github_utils.py] *)

Lemma fetch_dispatch (e : Py.exn) :
  Eff.dispatch GithubUtils.handlers e = Py.Returns (reported_record e).
Proof.
  unfold GithubUtils.handlers, reported_record. cbn [Eff.dispatch].
  destruct (Py.is_ValueError e); [reflexivity|].
  destruct (Py.is_Timeout e); [reflexivity|].
  destruct (Py.is_RequestException e); reflexivity.
Qed.

Section FetchRuns.

Variables (w : world) (repo_url owner repo : str) (issue_number : Z) (tr : list call).

Hypothesis Hurl : firstn 2 (GithubUtils.path_segments repo_url) = [owner; repo].

Let issue_req := GithubUtils.issue_request w owner repo issue_number.
Let comments_req := GithubUtils.comments_request w owner repo issue_number.

Lemma fetch_unfold :
  GithubUtils.fetch_github_issue w repo_url issue_number tr
  = Eff.try_except
      (issue_resp ← requests_get w (url issue_req) (headers issue_req) (Some 10%Z);
       comments_resp ← requests_get w (url comments_req) (headers comments_req) (Some 10%Z);
       if negb (status_code issue_resp =? 200)%Z then
         Eff.ret (error_record (py "GitHub API error: "
                                ++ PyStr.of_Z (status_code issue_resp)))
       else
         issue ← Eff.lift (response_json issue_resp);
         comments ← (if (status_code comments_resp =? 200)%Z
                     then Eff.lift (response_json comments_resp)
                     else Eff.ret (JArr []));
         comments_text ← (if Py.truthy (interp w) comments then
                            cs ← Eff.lift (Py.iterate comments);
                            bodies ← Eff.lift
                              (Py.map_outcome (fun c => Py.get c (py "body") (JStr [])) cs);
                            Eff.lift (Py.join [10] bodies)
                          else Eff.ret []);
         title ← Eff.lift (Py.get issue (py "title") (JStr []));
         body ← Eff.lift (Py.get issue (py "body") (JStr []));
         Eff.ret (JObj [(py "title", title); (py "body", body);
                        (py "comments", JStr comments_text)]))
      GithubUtils.handlers tr.
Proof.
  unfold GithubUtils.fetch_github_issue, GithubUtils.fetch_try, Eff.try_except.
  unfold mbind at 1, eff_bind at 1, Eff.bind at 1, Eff.lift at 1.
  rewrite Hurl. reflexivity.
Qed.

(** X13: once owner and repository are found, a call requests the
    issue first and, when that request returns a response, of whatever
    status, the comments next; it makes no other request. *)
Theorem fetch_requests :
  snd (GithubUtils.fetch_github_issue w repo_url issue_number tr)
  = tr ++ HttpGet issue_req
       :: match http_get w issue_req with
          | Py.Returns _ => [HttpGet comments_req]
          | Py.Raises _ => []
          end.
Proof.
  rewrite fetch_unfold, try_except_trace.
  unfold mbind at 1, eff_bind at 1, Eff.bind at 1, requests_get at 1.
  change {| url := url issue_req; headers := headers issue_req; timeout := Some 10%Z |}
    with issue_req.
  destruct (http_get w issue_req) as [ri|e]; [|reflexivity].
  unfold mbind at 1, eff_bind at 1, Eff.bind at 1, requests_get at 1.
  change {| url := url comments_req; headers := headers comments_req;
            timeout := Some 10%Z |} with comments_req.
  destruct (http_get w comments_req) as [rc|e].
  - rewrite <- app_assoc.
    match goal with |- snd (?m ?t) = _ => rewrite (appends_nothing m t) end;
      [reflexivity|].
    repeat appends_step.
  - cbn [snd]. rewrite <- app_assoc. reflexivity.
Qed.

(** X14: an exception of the issue request, or of the comments request
    after the issue request has returned, ends in the error record of the
    first [except] clause that matches it. *)
Theorem fetch_request_raises (e : Py.exn) :
  http_get w issue_req = Py.Raises e
  \/ ((exists r, http_get w issue_req = Py.Returns r)
      /\ http_get w comments_req = Py.Raises e) ->
  fst (GithubUtils.fetch_github_issue w repo_url issue_number tr)
  = Py.Returns (reported_record e).
Proof.
  intros H. rewrite fetch_unfold. unfold Eff.try_except.
  unfold mbind at 1, eff_bind at 1, Eff.bind at 1, requests_get at 1.
  change {| url := url issue_req; headers := headers issue_req; timeout := Some 10%Z |}
    with issue_req.
  destruct H as [-> | [[r ->] Hc]].
  - cbn [fst Eff.dispatch_result]. apply fetch_dispatch.
  - unfold mbind at 1, eff_bind at 1, Eff.bind at 1, requests_get at 1.
    change {| url := url comments_req; headers := headers comments_req;
              timeout := Some 10%Z |} with comments_req.
    rewrite Hc. cbn [fst Eff.dispatch_result]. apply fetch_dispatch.
Qed.

End FetchRuns.

Lemma fetch_requests_witness :
  snd (GithubUtils.fetch_github_issue Sample.tracker Sample.react 42 [])
  = [HttpGet (GithubUtils.issue_request Sample.tracker (py "facebook") (py "react") 42);
     HttpGet (GithubUtils.comments_request Sample.tracker (py "facebook") (py "react") 42)].
Proof.
  exact (fetch_requests Sample.tracker Sample.react (py "facebook") (py "react") 42 []
           eq_refl).
Defined.

Lemma fetch_request_raises_witness :
  fst (GithubUtils.fetch_github_issue Sample.slow_tracker Sample.react 42 [])
  = Py.Returns (error_record (py "Request timeout - GitHub server took too long")).
Proof.
  apply (fetch_request_raises Sample.slow_tracker Sample.react (py "facebook") (py "react")
           42 [] eq_refl Sample.read_timeout).
  left. reflexivity.
Defined.

Lemma fetch_first_request (w : world) (repo_url owner repo : str) (issue_number : Z)
  (tr : list call) :
  firstn 2 (GithubUtils.path_segments repo_url) = [owner; repo] ->
  exists rest,
    snd (GithubUtils.fetch_github_issue w repo_url issue_number tr)
    = tr ++ HttpGet (GithubUtils.issue_request w owner repo issue_number) :: rest.
Proof.
  intros Hurl. rewrite (fetch_unfold w repo_url owner repo issue_number tr Hurl).
  rewrite try_except_trace.
  match goal with
  | |- context [snd ((?m ≫= ?k) tr)] =>
      assert (Hk : forall a, Eff.appends (fun _ => True) (k a))
        by (intros a; repeat appends_step; exact I);
      unfold mbind at 1, eff_bind at 1, Eff.bind at 1, requests_get at 1
  end.
  cbn [url headers GithubUtils.issue_request].
  match goal with
  | |- context [http_get w ?r] => destruct (http_get w r) as [a|e]
  end.
  - destruct (Hk a (tr ++ [HttpGet (GithubUtils.issue_request w owner repo issue_number)]))
      as (calls & E & _).
    exists calls. etransitivity; [exact E|]. rewrite <- app_assoc. reflexivity.
  - exists []. reflexivity.
Qed.

(** X15: a call makes no request exactly when the repository URL, with
    the prefix [https://github.com/] removed, holds no slash. *)
Theorem no_request_iff_no_slash (w : world) (repo_url : str) (issue_number : Z)
  (tr : list call) :
  snd (GithubUtils.fetch_github_issue w repo_url issue_number tr) = tr
  <-> ~ In 47 (PyStr.replace repo_url (py "https://github.com/") []).
Proof.
  rewrite <- slashes_zero.
  pose proof (split_slash_length (PyStr.replace repo_url (py "https://github.com/") []))
    as Hlen.
  change (PyStr.split (PyStr.replace repo_url (py "https://github.com/") []) [47])
    with (GithubUtils.path_segments repo_url) in Hlen.
  split.
  - intros Htr.
    destruct (slashes (PyStr.replace repo_url (py "https://github.com/") [])) as [|k];
      [reflexivity|]. exfalso.
    destruct (GithubUtils.path_segments repo_url) as [|a [|b l]] eqn:Hseg;
      cbn [length] in Hlen; try lia.
    destruct (fetch_first_request w repo_url a b issue_number tr) as [rest Hrest];
      [rewrite Hseg; reflexivity|].
    rewrite Hrest in Htr. apply (f_equal (@length call)) in Htr.
    rewrite length_app in Htr. cbn [length] in Htr. lia.
  - intros Hz. rewrite Hz in Hlen.
    unfold GithubUtils.fetch_github_issue, Eff.try_except, GithubUtils.fetch_try.
    unfold mbind, eff_bind, Eff.bind, Eff.lift.
    destruct (GithubUtils.path_segments repo_url) as [|a [|b l]]; cbn [length] in Hlen;
      [reflexivity | reflexivity | lia].
Qed.

Lemma bodies_of_objects (cs : list dict) :
  Py.map_outcome (fun c => Py.get c (py "body") (JStr [])) (map JObj cs)
  = Py.Returns (map (fun d => default (JStr []) (Dict.get d (py "body"))) cs).
Proof.
  induction cs as [|d cs IH]; [reflexivity|].
  cbn [map Py.map_outcome Py.get Py.bind]. rewrite IH. cbn [Py.bind].
  destruct (Dict.get d (py "body")); reflexivity.
Qed.

Lemma expect_strs_strings (i : nat) (ss : list str) :
  Py.expect_strs i (map JStr ss) = Py.Returns ss.
Proof.
  revert i. induction ss as [|s ss IH]; intros i; [reflexivity|].
  cbn [map Py.expect_strs]. rewrite IH. reflexivity.
Qed.

Section FetchSucceeds.

Variables (w : world) (repo_url owner repo : str) (issue_number : Z) (tr : list call).
Variables (issue_resp comments_resp : response) (d : dict) (cs : list dict)
  (bodies : list str).

Hypothesis Hurl : firstn 2 (GithubUtils.path_segments repo_url) = [owner; repo].
Hypothesis Hissue :
  http_get w (GithubUtils.issue_request w owner repo issue_number)
  = Py.Returns issue_resp.
Hypothesis Hcomments :
  http_get w (GithubUtils.comments_request w owner repo issue_number)
  = Py.Returns comments_resp.
Hypothesis Hstatus : status_code issue_resp = 200%Z /\ status_code comments_resp = 200%Z.
Hypothesis Hbody : Json.loads (text issue_resp) = Some (JObj d).
Hypothesis Hlist : Json.loads (text comments_resp) = Some (JArr (map JObj cs)).
Hypothesis Hbodies :
  map (fun c => default (JStr []) (Dict.get c (py "body"))) cs = map JStr bodies.

(** X16: when both requests answer 200, the issue is a JSON object and
    the comments are a list of objects whose bodies, where present, are
    strings, the record holds the issue's title and body as they are and
    the comment bodies joined by newlines, a missing body counting as the
    empty string. *)
Theorem fetch_joins_comments :
  fst (GithubUtils.fetch_github_issue w repo_url issue_number tr)
  = Py.Returns
      (JObj [(py "title", default (JStr []) (Dict.get d (py "title")));
             (py "body", default (JStr []) (Dict.get d (py "body")));
             (py "comments", JStr (PyStr.join [10] bodies))]).
Proof.
  rewrite (fetch_unfold w repo_url owner repo issue_number tr Hurl).
  unfold Eff.try_except, mbind, eff_bind, Eff.bind, Eff.lift, requests_get.
  unfold GithubUtils.issue_request in Hissue. cbn [url headers]. 
  change (GithubUtils.auth_headers w) with (headers (GithubUtils.issue_request w owner repo issue_number)) in Hissue.
  cbn [GithubUtils.issue_request GithubUtils.comments_request url headers] in *.
  rewrite Hissue.
  unfold GithubUtils.comments_request in Hcomments. rewrite Hcomments.
  destruct Hstatus as [-> ->]. cbn [Z.eqb Pos.eqb negb].
  unfold response_json. rewrite Hbody, Hlist. cbn [Py.get].
  destruct cs as [|c cs'].
  - destruct bodies; [|discriminate]. cbn [map Py.truthy PyStr.join].
    destruct (Dict.get d (py "title")), (Dict.get d (py "body")); reflexivity.
  - cbn [map Py.truthy Py.iterate]. rewrite <- (map_cons JObj), bodies_of_objects.
    rewrite Hbodies. unfold Py.join. rewrite expect_strs_strings. cbn [Py.bind].
    destruct (Dict.get d (py "title")), (Dict.get d (py "body")); reflexivity.
Qed.

End FetchSucceeds.

Lemma fetch_joins_comments_witness :
  fst (GithubUtils.fetch_github_issue Sample.tracker Sample.react 42 [])
  = Py.Returns (JObj [(py "title", JStr (py "T")); (py "body", JNull);
                      (py "comments", JStr (py "one" ++ [10] ++ [10] ++ py "two"))]).
Proof.
  apply (fetch_joins_comments Sample.tracker Sample.react (py "facebook") (py "react") 42 []
           {| status_code := 200; text := Sample.issue_body |}
           {| status_code := 200; text := Sample.comments_body |}
           [(py "title", JStr (py "T")); (py "body", JNull);
            (py "state", JStr (py "open"))]
           [[(py "body", JStr (py "one"))]; [(py "id", JInt 7)];
            [(py "body", JStr (py "two"))]]
           [py "one"; []; py "two"]).
  - reflexivity.
  - reflexivity.
  - reflexivity.
  - split; reflexivity.
  - vm_compute. reflexivity.
  - vm_compute. reflexivity.
  - vm_compute. reflexivity.
Defined.

(** ** Further properties of [src/hf.py] *)

(** X17: lines 95-98 never raise: a text that starts with the fence
    marker splits into at least two parts, so the index of line 96 is in
    range. *)
Theorem strip_fence_returns (response_text : str) :
  exists s, Hf.strip_fence response_text = Py.Returns s.
Proof.
  unfold Hf.strip_fence.
  destruct (PyStr.startswith response_text Hf.fence) eqn:E; [|eauto].
  apply startswith_true in E. rewrite E.
  set (r := skipn (length Hf.fence) response_text). clearbody r.
  unfold PyStr.split.
  change (PyStr.split_from 0 (Hf.fence ++ r) Hf.fence)
    with ([] :: PyStr.split_from 0 r Hf.fence).
  pose proof (split_from_nonempty 0 r Hf.fence) as Hne.
  destruct (PyStr.split_from 0 r Hf.fence) as [|seg more]; [congruence|].
  cbn [Py.item nth_error mbind outcome_bind Py.bind].
  destruct (PyStr.startswith seg (py "json")); eauto.
Qed.

Section AnalyzeAnswers.

Variables (w : world) (issue_data : dict) (tr : list call) (t : str).

Hypothesis Hanswer :
  generate_content w (Hf.analysis_request w issue_data)
  = Py.Returns {| response_text := Some t |}.

(** X18: an answer whose text, stripped and with the fence removed, is
    not a JSON document ends in the parse-failure record. *)
Theorem analyze_not_json (s : str) :
  Hf.strip_fence (PyStr.strip t) = Py.Returns s ->
  Json.loads s = None ->
  fst (Hf.analyze_issue_with_ai w issue_data tr) = Py.Returns Sample.parse_failure.
Proof.
  intros Hs Hnone.
  rewrite (analyze_after_answer w issue_data tr t Hanswer). cbn [fst].
  rewrite Hs. cbn [mbind outcome_bind Py.bind]. unfold Hf.json_loads. rewrite Hnone.
  reflexivity.
Qed.

(** X19: an answer that is, after stripping white space, a JSON object
    and not fenced is returned as parsed when it has the five fields, and
    replaced by the record [Incomplete analysis response] when one is
    missing. *)
Theorem analyze_plain_object (d : dict) :
  PyStr.startswith (PyStr.strip t) Hf.fence = false ->
  Json.loads (PyStr.strip t) = Some (JObj d) ->
  fst (Hf.analyze_issue_with_ai w issue_data tr)
  = Py.Returns (if forallb (Dict.mem d) Hf.required_keys
                then JObj d
                else error_record (py "Incomplete analysis response")).
Proof.
  intros Hplain Hd.
  rewrite (analyze_after_answer w issue_data tr t Hanswer). cbn [fst].
  unfold Hf.strip_fence. rewrite Hplain. cbn [mbind outcome_bind Py.bind].
  unfold Hf.json_loads. rewrite Hd. cbn [mbind outcome_bind Py.bind].
  rewrite all_in_object. cbn [Py.bind].
  destruct (forallb (Dict.mem d) Hf.required_keys); reflexivity.
Qed.

(** X20: an answer that parses as a number, a truth value or [null]
    ends in the record [Analysis failed]: the membership test of line 103
    raises on it and the last [except] clause catches that. *)
Theorem analyze_scalar_answer (s : str) (v : json) :
  Hf.strip_fence (PyStr.strip t) = Py.Returns s ->
  Json.loads s = Some v ->
  match v with JStr _ | JArr _ | JObj _ => False | _ => True end ->
  exists details,
    fst (Hf.analyze_issue_with_ai w issue_data tr) = Py.Returns (analysis_failed details).
Proof.
  intros Hs Hv Hscalar.
  rewrite (analyze_after_answer w issue_data tr t Hanswer). cbn [fst].
  rewrite Hs. cbn [mbind outcome_bind Py.bind]. unfold Hf.json_loads. rewrite Hv.
  cbn [mbind outcome_bind Py.bind].
  destruct v; try contradiction; eexists; reflexivity.
Qed.

End AnalyzeAnswers.

Lemma analyze_not_json_witness :
  fst (Hf.analyze_issue_with_ai
         (Sample.model_only (Sample.says (py "Sorry, I cannot help."))) Sample.issue42 [])
  = Py.Returns Sample.parse_failure.
Proof.
  apply (analyze_not_json (Sample.model_only (Sample.says (py "Sorry, I cannot help.")))
           Sample.issue42 [] (py "Sorry, I cannot help.") eq_refl
           (py "Sorry, I cannot help.")).
  - reflexivity.
  - vm_compute. reflexivity.
Defined.

Lemma analyze_plain_object_witness :
  fst (Hf.analyze_issue_with_ai
         (Sample.model_only (Sample.says ([10] ++ Sample.example_object ++ [32; 10])))
         Sample.issue42 [])
  = Py.Returns Sample.example_record.
Proof.
  apply (analyze_plain_object
           (Sample.model_only (Sample.says ([10] ++ Sample.example_object ++ [32; 10])))
           Sample.issue42 [] ([10] ++ Sample.example_object ++ [32; 10]) eq_refl
           [(py "summary", JStr (py "s")); (py "type", JStr (py "bug"));
            (py "priority_score", JStr (py "3 - x"));
            (py "suggested_labels", JArr [JStr (py "a")]);
            (py "potential_impact", JStr (py "i"))]).
  - reflexivity.
  - vm_compute. reflexivity.
Defined.

Lemma analyze_scalar_answer_witness :
  exists details,
    fst (Hf.analyze_issue_with_ai (Sample.model_only (Sample.says (py "42")))
           Sample.issue42 [])
    = Py.Returns (analysis_failed details).
Proof.
  apply (analyze_scalar_answer (Sample.model_only (Sample.says (py "42")))
           Sample.issue42 [] (py "42") eq_refl (py "42") (JInt 42)).
  - reflexivity.
  - vm_compute. reflexivity.
  - exact I.
Defined.

(** X21: when the model call raises anything but a JSON decode error,
    or answers without text, the call ends in the record
    [Analysis failed] whose details are the text of the exception. *)
Theorem analyze_without_text (w : world) (issue_data : dict) (tr : list call)
  (details : str) :
  (exists e, generate_content w (Hf.analysis_request w issue_data) = Py.Raises e
             /\ Py.is_JSONDecodeError e = false /\ details = Py.message e)
  \/ (generate_content w (Hf.analysis_request w issue_data)
      = Py.Returns {| response_text := None |}
      /\ details = py "'NoneType' object has no attribute 'strip'") ->
  fst (Hf.analyze_issue_with_ai w issue_data tr)
  = Py.Returns (analysis_failed details).
Proof.
  intros H. unfold Hf.analyze_issue_with_ai, Eff.try_except, Hf.analyze_try.
  fold (Hf.analysis_request w issue_data).
  unfold mbind at 1, eff_bind at 1, Eff.bind at 1, models_generate_content at 1.
  destruct H as [(e & -> & He & ->) | [-> ->]].
  - cbn [fst Eff.dispatch_result]. unfold Hf.handlers. cbn [Eff.dispatch].
    rewrite He. reflexivity.
  - reflexivity.
Qed.

Lemma analyze_without_text_witness :
  fst (Hf.analyze_issue_with_ai (Sample.model_only Sample.silent) Sample.issue42 [])
  = Py.Returns (analysis_failed (py "'NoneType' object has no attribute 'strip'")).
Proof. apply analyze_without_text. right. split; reflexivity. Defined.

(** X22: for a record without title, body and comments, such as the
    error record of a failed fetch, the model is still called, with an
    empty title and the two placeholders in the prompt. *)
Theorem analyze_placeholders (w : world) (issue_data : dict) (tr : list call) :
  Dict.mem issue_data (py "title") = false ->
  Dict.mem issue_data (py "body") = false ->
  Dict.mem issue_data (py "comments") = false ->
  snd (Hf.analyze_issue_with_ai w issue_data tr)
  = tr ++ [GenerateContent
             {| model := py "gemini-3-flash-preview";
                contents :=
                  Hf.prompt_head ++ Hf.prompt_body ++ py "No description provided"
                  ++ Hf.prompt_comments ++ py "No comments yet" ++ Hf.prompt_tail;
                config_timeout := None |}].
Proof.
  unfold Dict.mem. intros Ht Hb Hc.
  unfold Hf.analyze_issue_with_ai. rewrite try_except_trace.
  unfold Hf.analyze_try.
  rewrite generate_content_then by (intros a; repeat appends_step).
  unfold Hf.prompt, Hf.field.
  destruct (Dict.get issue_data (py "title")); [discriminate|].
  destruct (Dict.get issue_data (py "body")); [discriminate|].
  destruct (Dict.get issue_data (py "comments")); [discriminate|].
  reflexivity.
Qed.

Lemma analyze_placeholders_witness :
  snd (Hf.analyze_issue_with_ai (Sample.model_only Sample.silent)
         [(py "error", JStr (py "GitHub API error: 404"))] [])
  = [GenerateContent
       {| model := py "gemini-3-flash-preview";
          contents :=
            Hf.prompt_head ++ Hf.prompt_body ++ py "No description provided"
            ++ Hf.prompt_comments ++ py "No comments yet" ++ Hf.prompt_tail;
          config_timeout := None |}].
Proof. apply (analyze_placeholders _ _ []); reflexivity. Defined.

(** X23: the placeholder for the body is used only when the key is
    missing: a body that is present and null is written into the prompt
    as [None]. *)
Theorem analyze_null_body (w : world) (issue_data : dict) (tr : list call) :
  Dict.get issue_data (py "body") = Some JNull ->
  snd (Hf.analyze_issue_with_ai w issue_data tr)
  = tr ++ [GenerateContent
             {| model := py "gemini-3-flash-preview";
                contents :=
                  Hf.prompt_head
                  ++ Py.format (interp w) (Hf.field issue_data (py "title") [])
                  ++ Hf.prompt_body ++ py "None" ++ Hf.prompt_comments
                  ++ Py.format (interp w)
                       (Hf.field issue_data (py "comments") (py "No comments yet"))
                  ++ Hf.prompt_tail;
                config_timeout := None |}].
Proof.
  intros Hbody. unfold Hf.analyze_issue_with_ai. rewrite try_except_trace.
  unfold Hf.analyze_try.
  rewrite generate_content_then by (intros a; repeat appends_step).
  unfold Hf.prompt. unfold Hf.field at 2. rewrite Hbody. reflexivity.
Qed.

Lemma analyze_null_body_witness :
  snd (Hf.analyze_issue_with_ai (Sample.model_only Sample.silent)
         [(py "title", JStr (py "T")); (py "body", JNull); (py "comments", JStr [])] [])
  = [GenerateContent
       {| model := py "gemini-3-flash-preview";
          contents :=
            Hf.prompt_head ++ py "T" ++ Hf.prompt_body ++ py "None" ++ Hf.prompt_comments
            ++ [] ++ Hf.prompt_tail;
          config_timeout := None |}].
Proof.
  apply (analyze_null_body (Sample.model_only Sample.silent)
           [(py "title", JStr (py "T")); (py "body", JNull); (py "comments", JStr [])] []).
  reflexivity.
Defined.

(** X24: a record that [fetch_github_issue] returns without the key
    [error] has exactly the keys title, body and comments, the comments a
    string; [analyze_issue_with_ai] then makes one model call whose prompt
    holds the three values and never a placeholder. *)
Theorem fetched_record_prompt (w : world) (repo_url : str) (issue_number : Z)
  (tr : list call) (d : dict) :
  fst (GithubUtils.fetch_github_issue w repo_url issue_number tr) = Py.Returns (JObj d) ->
  Dict.mem d (py "error") = false ->
  exists title body comments,
    d = [(py "title", title); (py "body", body); (py "comments", JStr comments)]
    /\ forall w' tr',
         snd (Hf.analyze_issue_with_ai w' d tr')
         = tr' ++ [GenerateContent
                     {| model := py "gemini-3-flash-preview";
                        contents :=
                          Hf.prompt_head ++ Py.format (interp w') title
                          ++ Hf.prompt_body ++ Py.format (interp w') body
                          ++ Hf.prompt_comments ++ comments ++ Hf.prompt_tail;
                        config_timeout := None |}].
Proof.
  intros Hfetch Herr.
  assert (Hshape : failure_shaped (JObj d) \/ issue_record_shaped (JObj d)).
  { unfold GithubUtils.fetch_github_issue, Eff.try_except in Hfetch.
    destruct (GithubUtils.fetch_try w repo_url issue_number tr) as [[v|e] tr1] eqn:E;
      cbn [fst Eff.dispatch_result] in Hfetch.
    - inversion Hfetch; subst. eapply fetch_try_returns; eassumption.
    - destruct (fetch_handlers_total e) as [msg Hmsg]. rewrite Hmsg in Hfetch.
      inversion Hfetch. left. exists msg. reflexivity. }
  destruct Hshape as [[msg Hmsg] | (title & body & comments & Hd)].
  - inversion Hmsg; subst. discriminate Herr.
  - inversion Hd; subst. exists title, body, comments. split; [reflexivity|].
    intros w' tr'. unfold Hf.analyze_issue_with_ai. rewrite try_except_trace.
    unfold Hf.analyze_try.
    rewrite generate_content_then by (intros a; repeat appends_step).
    reflexivity.
Qed.

Lemma fetched_record_prompt_witness :
  exists title body comments,
    [(py "title", JStr (py "T")); (py "body", JNull);
     (py "comments", JStr (py "one" ++ [10] ++ [10] ++ py "two"))]
    = [(py "title", title); (py "body", body); (py "comments", JStr comments)]
    /\ forall w' tr',
         snd (Hf.analyze_issue_with_ai w'
                [(py "title", JStr (py "T")); (py "body", JNull);
                 (py "comments", JStr (py "one" ++ [10] ++ [10] ++ py "two"))] tr')
         = tr' ++ [GenerateContent
                     {| model := py "gemini-3-flash-preview";
                        contents :=
                          Hf.prompt_head ++ Py.format (interp w') title
                          ++ Hf.prompt_body ++ Py.format (interp w') body
                          ++ Hf.prompt_comments ++ comments ++ Hf.prompt_tail;
                        config_timeout := None |}].
Proof.
  apply (fetched_record_prompt Sample.tracker Sample.react 42 []).
  - vm_compute. reflexivity.
  - reflexivity.
Defined.
